(** * SRM attendance core: capture, debounce, offline queue and sync

    A shallow embedding of the attendance protocol of the SRM classroom
    application:

    - the Express back end [backend/index.js] in its two revisions, the
      "improved and more robust" one ([Backend]) and the earlier "minimal
      endpoints for attendance module" one ([MinimalBackend]), restricted
      to [POST /api/v1/attendance/mark] and [POST /api/v1/attendance/sync];
    - the scanner page [attendance_app/scanner.js] in its revisions: the
      patched and the unpatched robust scanner ([Scanner]: the per-label
      debounce, [queueAttendance], [syncOfflineQueue],
      [markAttendanceForLabel]), the batching scanner and the scaffold
      ([BatchScanner]: the detection loop's submission, the sync button,
      [markAttendanceLocally]), the submit button of the manual session
      ([ManualSession]);
    - the queue behind [window.srmDB]: the in-memory fallback of the
      scanner and the IndexedDB wrapper of [attendance_app/db.js].

    Conventions of the embedding.

    - A JSON / JavaScript value is a [jsval].  A JavaScript number is the
      rational it stands for, a canonical [Qc]; the handlers and the page
      only carry the numbers of a request around.  The one place where the
      code calculates, the confidence the scanner derives from a match
      distance, is calculated as the language does, in binary64 floating
      point ([Double]).  The elements of a [records] array are JSON
      objects.
    - [labelToStudentId] (a [Map]) is a finite map keyed by the label.
      [recentMarks] is a plain object used as a map: its own properties are
      a finite map, and the key [__proto__], which such an object inherits
      as an accessor, is read and written as the language does.
    - The MySQL table [attendance] is the list of the parameter tuples the
      handlers pass to [INSERT], in insertion order; [WHERE a = ? AND b = ?]
      is SQL equality of those values.
    - [pool.query] can throw (lost connection, constraint violation): the
      per-request environment says whether the [SELECT] or the [INSERT] of
      that request throws, and the handlers' [catch] branches answer 500.
    - [Date.now()], [new Date().toISOString()] and the reachability of the
      server are inputs of each call.
    - DOM rendering, logging and console output are left out. *)

From stdpp Require Import base numbers list strings gmap.
From stdpp Require Import pretty.
From Stdlib Require Import QArith Qcanon Qround Qabs Qpower Qfield.
From Stdlib Require Import ZArith Ascii Lia Lqa.

Open Scope Z_scope.

(** ** JavaScript values *)

Module Js.

Inductive jsval :=
| JUndefined
| JNull
| JBool (b : bool)
| JNum (q : Qc)
| JStr (s : string).

#[global] Instance jsval_eq_dec : EqDecision jsval.
Proof. solve_decision. Defined.

(** [ToBoolean]: what [if (v)], [!v] and [v || w] test. *)
Definition truthy (v : jsval) : bool :=
  match v with
  | JUndefined | JNull => false
  | JBool b => b
  | JNum q => negb (bool_decide (q = 0%Qc))
  | JStr s => negb (bool_decide (s = EmptyString))
  end.

(** [a || b] *)
Definition js_or (a b : jsval) : jsval := if truthy a then a else b.

(** A destructuring default [{ x = d }]: used only when [x] is [undefined]. *)
Definition default_param (v d : jsval) : jsval :=
  match v with JUndefined => d | _ => v end.

(** [s.slice(0, n)] on a string. *)
Definition slice0 (n : nat) (s : string) : string := String.substring 0 n s.

Section Builtins.

(** The two number/string conversions of the language are parameters:
    [StringToNumber s] is [Number(s)] for a string ([None] is [NaN]),
    [NumberToString q] is [String(q)] for a number. *)
Variable StringToNumber : string -> option Qc.
Variable NumberToString : Qc -> string.

(** [Number(v)]; [None] stands for [NaN]. *)
Definition js_Number (v : jsval) : option Qc :=
  match v with
  | JUndefined => None
  | JNull => Some 0%Qc
  | JBool b => Some (if b then 1%Qc else 0%Qc)
  | JNum q => Some q
  | JStr s => StringToNumber s
  end.

(** [String(v)] *)
Definition js_String (v : jsval) : string :=
  match v with
  | JUndefined => "undefined"
  | JNull => "null"
  | JBool b => if b then "true" else "false"
  | JNum q => NumberToString q
  | JStr s => s
  end.

End Builtins.

End Js.

Import Js.

(** ** Attendance records as they travel in JSON *)

(** One JSON object of the attendance protocol.  A key that is absent reads
    as [JUndefined]; [JSON.stringify] drops such keys and [JSON.parse] gives
    them back as absent, so a record survives the trip through
    [localStorage] or a request body unchanged. *)
Record AttRecord := mkAttRecord {
  student_id : jsval;
  roll_number : jsval;
  date : jsval;
  timestamp : jsval;
  status : jsval;
  method : jsval;
  confidence : jsval;
  synced : jsval
}.

#[global] Instance AttRecord_eq_dec : EqDecision AttRecord.
Proof. solve_decision. Defined.

(** ** HTTP responses *)

Inductive ResBody :=
| MarkSuccess (sid : jsval) (d : jsval) (* { success: true, student_id, date } *)
| Success                              (* { success: true } *)
| SyncSuccess (inserted : nat)         (* { success: true, inserted } *)
| ErrorBody (error : string) (message : option string).

Record Response := mkResponse { res_status : Z; res_body : ResBody }.

#[global] Instance ResBody_eq_dec : EqDecision ResBody.
Proof. solve_decision. Defined.
#[global] Instance Response_eq_dec : EqDecision Response.
Proof. solve_decision. Defined.

(** [res.status(c).json(b)] and [res.json(b)] *)
Definition res_json (c : Z) (b : ResBody) : Response := mkResponse c b.

(** [resp.ok] of the Fetch API *)
Definition ok (r : Response) : bool :=
  (200 <=? res_status r) && (res_status r <=? 299).

(** ** The attendance table *)

(** A row of [attendance], columns as the [INSERT] statements list them
    ([id] and [created_at] are filled in by MySQL). *)
Record Row := mkRow {
  col_student_id : jsval;
  col_date : jsval;
  col_status : jsval;
  col_method : jsval;
  col_confidence : jsval;
  col_marked_by : jsval
}.

#[global] Instance Row_eq_dec : EqDecision Row.
Proof. solve_decision. Defined.

Definition Table := list Row.

(** SQL [=]: never true on NULL. *)
Definition sql_eq (a b : jsval) : bool :=
  match a, b with
  | (JUndefined | JNull), _ => false
  | _, (JUndefined | JNull) => false
  | _, _ => bool_decide (a = b)
  end.

(** What a request finds outside its body: the server's calendar day
    ([new Date().toISOString().slice(0,10)]) and whether [pool.query]
    throws on the [SELECT] or on the [INSERT] of this request, with the
    text of the exception. *)
Record ServerEnv := mkServerEnv {
  srv_today : string;
  select_throws : bool;
  insert_throws : bool;
  db_error : string
}.

(** A request served by a healthy database on day [d]. *)
Definition healthy (d : string) : ServerEnv := mkServerEnv d false false EmptyString.

(** [req.user.id] as [authMiddleware] sets it. *)
Definition req_user_id : jsval := JNum 2%Qc.

(** ** The back end, robust revision ([backend/index.js], "improved") *)

Module Backend.

Section Handlers.

Variable StringToNumber : string -> option Qc.
Variable NumberToString : Qc -> string.

(** [student_id = student_id ? Number(student_id) : null;
     if (Number.isNaN(student_id)) student_id = null;] *)
Definition normalize_student_id (v : jsval) : jsval :=
  if truthy v then
    match js_Number StringToNumber v with
    | Some q => JNum q
    | None => JNull
    end
  else JNull.

(** [status = 'present'] by default, then
    [if (!['present','absent','late'].includes(String(status))) status = 'present'] *)
Definition normalize_status (v : jsval) : jsval :=
  let s := default_param v (JStr "present") in
  if bool_decide (js_String NumberToString s ∈ ["present"; "absent"; "late"])
  then s else JStr "present".

(** [method = 'face'] by default, then
    [method = String(method || 'face').slice(0,50)] *)
Definition normalize_method (v : jsval) : jsval :=
  let m := default_param v (JStr "face") in
  JStr (slice0 50 (js_String NumberToString (js_or m (JStr "face")))).

(** [SELECT id FROM attendance WHERE student_id = ? AND date = ? LIMIT 1] *)
Definition select_existing (sid d : jsval) (t : Table) : list Row :=
  take 1 (List.filter
            (fun r => sql_eq (col_student_id r) sid && sql_eq (col_date r) d) t).

(** The [catch] branch of the mark handler. *)
Definition mark_server_error (env : ServerEnv) : Response :=
  res_json 500 (ErrorBody "server_error" (Some (db_error env))).

(** [app.post('/api/v1/attendance/mark', ...)] *)
Definition attendance_mark (env : ServerEnv) (payload : AttRecord) (t : Table)
  : Response * Table :=
  let sid := normalize_student_id (student_id payload) in
  let d := js_or (date payload) (JStr (srv_today env)) in
  if negb (truthy sid) then
    (res_json 400
       (ErrorBody "invalid_payload" (Some "student_id required (numeric)")), t)
  else
    let st := normalize_status (status payload) in
    let m := normalize_method (method payload) in
    if select_throws env then (mark_server_error env, t)
    else if negb (Nat.eqb (length (select_existing sid d t)) 0) then
      (res_json 409
         (ErrorBody "already_marked"
            (Some "Attendance already marked for this student on this date")), t)
    else if insert_throws env then (mark_server_error env, t)
    else
      (res_json 200 (MarkSuccess sid d),
       t ++ [mkRow sid d st m (default_param (confidence payload) JNull)
               req_user_id]).

End Handlers.

(** The value of [req.body.records]: an array of records, or anything else
    (absent is [NotArray JUndefined]; a nested object behaves as any truthy
    value that is not an array). *)
Inductive RecordsField :=
| NotArray (v : jsval)
| IsArray (items : list AttRecord).

(** The parsed JSON body of a sync request: an object, of which only the
    key [records] is read, or a bare array of records. *)
Inductive SyncBody :=
| BodyObject (records : RecordsField)
| BodyArray (items : list AttRecord).

(** [req.body.records]; an array has no such property. *)
Definition body_records (b : SyncBody) : RecordsField :=
  match b with
  | BodyObject r => r
  | BodyArray _ => NotArray JUndefined
  end.

Definition field_truthy (r : RecordsField) : bool :=
  match r with
  | NotArray v => truthy v
  | IsArray _ => true
  end.

(** [const records = req.body.records || req.body || [];
     const arr = Array.isArray(records) ? records : [];] *)
Definition submitted (b : SyncBody) : list AttRecord :=
  if field_truthy (body_records b) then
    match body_records b with
    | IsArray l => l
    | NotArray _ => []
    end
  else
    match b with
    | BodyArray l => l
    | BodyObject _ => []
    end.

(** One element of [vals]. *)
Definition sync_row (env : ServerEnv) (r : AttRecord) : Row :=
  mkRow (student_id r)
        (js_or (date r) (JStr (srv_today env)))
        (js_or (status r) (JStr "present"))
        (js_or (method r) (JStr "manual"))
        (js_or (confidence r) JNull)
        req_user_id.

(** [app.post('/api/v1/attendance/sync', ...)] *)
Definition attendance_sync (env : ServerEnv) (body : SyncBody) (t : Table)
  : Response * Table :=
  let arr := submitted body in
  if Nat.eqb (length arr) 0 then
    (res_json 400 (ErrorBody "no_records" None), t)
  else
    let vals := map (sync_row env) arr in
    if insert_throws env then
      (res_json 500 (ErrorBody "server_error" None), t)
    else
      (res_json 200 (SyncSuccess (length vals)), t ++ vals).

End Backend.

(** ** The back end, minimal revision ([backend/index.js], "minimal
    endpoints for attendance module") *)

Module MinimalBackend.

Import Backend.

Definition server_error : Response :=
  res_json 500 (ErrorBody "server error" None).

(** [app.post('/api/v1/attendance/mark', ...)]: no lookup before the insert. *)
Definition attendance_mark (env : ServerEnv) (payload : AttRecord) (t : Table)
  : Response * Table :=
  if negb (truthy (student_id payload)) then
    (res_json 400 (ErrorBody "student_id required" None), t)
  else
    let d := js_or (date payload) (JStr (srv_today env)) in
    if insert_throws env then (server_error, t)
    else
      (res_json 200 Success,
       t ++ [mkRow (student_id payload) d
               (default_param (status payload) (JStr "present"))
               (default_param (method payload) (JStr "face_scan"))
               (default_param (confidence payload) JNull)
               req_user_id]).

(** [app.post('/api/v1/attendance/sync', ...)] *)
Definition attendance_sync (env : ServerEnv) (body : SyncBody) (t : Table)
  : Response * Table :=
  match body_records body with
  | NotArray _ => (res_json 400 (ErrorBody "no records" None), t)
  | IsArray records =>
      if Nat.eqb (length records) 0 then
        (res_json 400 (ErrorBody "no records" None), t)
      else
        let vals := map (sync_row env) records in
        if insert_throws env then (server_error, t)
        else (res_json 200 (SyncSuccess (length vals)), t ++ vals)
  end.

End MinimalBackend.

(** ** Binary floating point *)

(** The arithmetic of JavaScript numbers on the rationals they stand for:
    a double is a rational with 53 significant bits, and every operation
    gives the double nearest to the exact result. *)
Module Double.

Local Open Scope Q_scope.

(** [2^e] *)
Definition pow2 (e : Z) : Q := 2 ^ e.

(** The binade of a positive [x]: the [e] with [2^e <= x < 2^(e+1)]. *)
Definition binade (x : Q) : Z :=
  if Qle_bool 1 x then Z.log2 (Qfloor x)
  else (- Z.log2_up (Qceiling (/ x)))%Z.

(** The spacing of the doubles around a positive [x]: 53 significant bits,
    and the fixed spacing [2^-1074] of the subnormal numbers below
    [2^-1022]. *)
Definition ulp (x : Q) : Q := pow2 (Z.max (binade x) (-1022) - 52).

(** The integer nearest to [y], the even one on a tie. *)
Definition round_even (y : Q) : Z :=
  let f := Qfloor y in
  match Qcompare (y - inject_Z f) (1 # 2) with
  | Lt => f
  | Gt => (f + 1)%Z
  | Eq => if Z.even f then f else (f + 1)%Z
  end.

(** The double nearest to a positive [x] (round to nearest, ties to even),
    overflow apart. *)
Definition round_pos (x : Q) : Q := inject_Z (round_even (x / ulp x)) * ulp x.

(** The double nearest to [x], overflow apart. *)
Definition round (x : Q) : Q :=
  match Qcompare 0 x with
  | Eq => 0
  | Lt => round_pos x
  | Gt => - round_pos (- x)
  end.

(** An exact result of at least this magnitude rounds to [Infinity]. *)
Definition overflows (x : Q) : bool :=
  Qle_bool (pow2 1024 - pow2 970) (Qabs x).

End Double.

(** ** Numbers the scanner computes *)

Module Confidence.

(** The decimal [x.toFixed(3)] writes for a double [x]: the multiple of
    1/1000 nearest to [x], the larger one in magnitude on a tie, the sign
    handled first as [Number.prototype.toFixed] does; from 10^21 on the
    string is that of [x] itself. *)
Definition toFixed3 (x : Q) : Q :=
  if Qle_bool (10 ^ 21) (Qabs x) then x
  else if Qle_bool 0 x then Qfloor (x * 1000 + (1 # 2)) # 1000
  else - (Qfloor ((- x) * 1000 + (1 # 2)) # 1000).

(** [Math.round(y)]: the nearest integer, the larger one on a tie. *)
Definition Math_round (y : Q) : Z := Qfloor (y + (1 # 2)).

(** [+(1 - distance).toFixed(3)]: the confidence [markAttendanceForLabel]
    writes.  The difference is rounded to a double, written with three
    decimals, and the string read back as a double.  (The difference of 1
    and a double does not overflow.) *)
Definition label_confidence (distance : Q) : Q :=
  Double.round (toFixed3 (Double.round (1 - distance))).

(** [Math.round((1 - distance) * 10000) / 100]: the confidence the batching
    detection loop writes ("approx confidence %"), each operation rounded
    to a double, when the product is finite. *)
Definition loop_confidence (distance : Q) : Q :=
  Double.round
    (Math_round (Double.round (Double.round (1 - distance) * 10000)) # 100).

(** The product [(1 - distance) * 10000] is [Infinity] or [-Infinity], and
    so is the confidence. *)
Definition loop_overflows (distance : Q) : bool :=
  Double.overflows (Double.round (1 - distance) * 10000).

End Confidence.

(** ** The scanner *)

(** What a request can meet.  The server cannot be reached: [fetch] rejects
    and no handler runs.  The request is served and the response delivered.
    Or the request is served and the response is lost: the handler runs to
    its end, and the page's [await] rejects (the connection drops before the
    response arrives, or while the page reads its body), which the page's
    [catch] cannot tell from the first case. *)
Inductive Net :=
| Unreachable
| Reachable (env : ServerEnv)
| ResponseLost (env : ServerEnv).

(** The request was served and its response lost. *)
Definition response_lost (n : Net) : bool :=
  match n with
  | ResponseLost _ => true
  | _ => false
  end.

Inductive FetchResult :=
| NetworkError
| Responded (r : Response).

(** The requests the page issues. *)
Inductive Request :=
| PostMark (payload : AttRecord)
| PostSync (records : list AttRecord).

(** What one call of a scanner function reads from its surroundings:
    [Date.now()], [new Date().toISOString().slice(0,10)],
    [new Date().toISOString()] and the state of the network. *)
Record CallEnv := mkCallEnv {
  now : Z;
  today : string;
  iso : string;
  net : Net
}.

(** The page's module-level state and its [localStorage] queue. *)
Record Client := mkClient {
  recentMarks : gmap string Z;            (* debounce: label -> timestamp (ms) *)
  labelToStudentId : gmap string jsval;   (* roll -> id *)
  offline_attendance : list AttRecord;    (* localStorage 'offline_attendance' *)
  sessionMarked : list (option Qc)        (* ids marked in this session; None is NaN *)
}.

(** The page, the server's table and the log of the requests issued. *)
Record World := mkWorld {
  client : Client;
  attendance : Table;
  sent : list Request
}.

Module Scanner.

Import Confidence.

(** [set.add(x)] on a [Set], kept in insertion order. *)
Definition set_add (x : option Qc) (s : list (option Qc)) : list (option Qc) :=
  if bool_decide (x ∈ s) then s else s ++ [x].

(** [function queueAttendance(item)] *)
Definition queueAttendance (item : AttRecord) (c : Client) : Client :=
  mkClient (recentMarks c) (labelToStudentId c)
           (offline_attendance c ++ [item]) (sessionMarked c).

(** The key of a plain object that is not a property of its own: reading
    [recentMarks['__proto__']] gives [Object.prototype], and assigning a
    number to it is ignored. *)
Definition proto_key : string := "__proto__".

(** The test that opens [markAttendanceForLabel]:
    [recentMarks[label] && (now - recentMarks[label] < 45*1000)].
    For a label the object has no property for, the value read is
    [undefined], or what [Object.prototype] holds under that name (an object
    or a function): the first is falsy, the others make the difference
    [NaN], so the test fails in each case. *)
Definition debounced (rm : gmap string Z) (label : string) (now : Z) : bool :=
  if bool_decide (label = proto_key) then false
  else
    match rm !! label with
    | Some t => negb (t =? 0) && (now - t <? 45 * 1000)
    | None => false
    end.

(** [recentMarks[label] = now] *)
Definition set_recentMark (label : string) (now : Z) (rm : gmap string Z)
  : gmap string Z :=
  if bool_decide (label = proto_key) then rm else <[label := now]> rm.

(** [let studentId = labelToStudentId.get(label);
     if (!studentId) studentId = labelToStudentId.get(String(label));]
    (a label is a string, so [String(label)] is [label]). *)
Definition resolve (m : gmap string jsval) (label : string) : jsval :=
  let studentId := default JUndefined (m !! label) in
  if negb (truthy studentId) then default JUndefined (m !! label)
  else studentId.

(** The [payload] object of [markAttendanceForLabel]. *)
Definition mark_payload (e : CallEnv) (studentId : jsval) (distance : Q)
  : AttRecord :=
  mkAttRecord (js_or studentId JNull) JUndefined (JStr (today e))
              (JStr (iso e)) (JStr "present") (JStr "face")
              (JNum (Q2Qc (label_confidence distance))) JUndefined.

(** [{ roll_number: label, ...payload, synced: false }] *)
Definition unresolved_item (label : string) (p : AttRecord) : AttRecord :=
  mkAttRecord (student_id p) (JStr label) (date p) (timestamp p) (status p)
              (method p) (confidence p) (JBool false).

(** [{ student_id: studentId, ...payload, synced: false }]: the spread of
    [payload] comes second, so its [student_id] is the one kept. *)
Definition fallback_item (studentId : jsval) (p : AttRecord) : AttRecord :=
  mkAttRecord (student_id p) (roll_number p) (date p) (timestamp p) (status p)
              (method p) (confidence p) (JBool false).

Section Page.

Variable StringToNumber : string -> option Qc.

(** The server behind [API_BASE]: its two attendance handlers. *)
Variable mark_endpoint : ServerEnv -> AttRecord -> Table -> Response * Table.
Variable sync_endpoint :
  ServerEnv -> Backend.SyncBody -> Table -> Response * Table.

(** [fetch(API_BASE + '/attendance/mark', { method: 'POST', body })] *)
Definition fetch_mark (n : Net) (p : AttRecord) (t : Table)
  : FetchResult * Table :=
  match n with
  | Unreachable => (NetworkError, t)
  | Reachable env => let '(r, t') := mark_endpoint env p t in (Responded r, t')
  | ResponseLost env => (NetworkError, snd (mark_endpoint env p t))
  end.

(** [fetch(API_BASE + '/attendance/sync', { method: 'POST', body })] with
    body [{ records }] *)
Definition fetch_sync (n : Net) (records : list AttRecord) (t : Table)
  : FetchResult * Table :=
  match n with
  | Unreachable => (NetworkError, t)
  | Reachable env =>
      let '(r, t') :=
        sync_endpoint env (Backend.BodyObject (Backend.IsArray records)) t in
      (Responded r, t')
  | ResponseLost env =>
      (NetworkError,
       snd (sync_endpoint env (Backend.BodyObject (Backend.IsArray records)) t))
  end.

(** [async function markAttendanceForLabel(label, distance)], patched
    scanner. *)
Definition markAttendanceForLabel (e : CallEnv) (label : string) (distance : Q)
  (w : World) : World :=
  let c := client w in
  if debounced (recentMarks c) label (now e) then w
  else
    let c1 := mkClient (set_recentMark label (now e) (recentMarks c))
                       (labelToStudentId c)
                       (offline_attendance c) (sessionMarked c) in
    let studentId := resolve (labelToStudentId c) label in
    let payload := mark_payload e studentId distance in
    if negb (truthy studentId) then
      mkWorld (queueAttendance (unresolved_item label payload) c1)
              (attendance w) (sent w)
    else
      let '(result, t') := fetch_mark (net e) payload (attendance w) in
      let log := sent w ++ [PostMark payload] in
      match result with
      | Responded resp =>
          if ok resp then
            mkWorld (mkClient (recentMarks c1) (labelToStudentId c1)
                              (offline_attendance c1)
                              (set_add (js_Number StringToNumber studentId)
                                       (sessionMarked c1)))
                    t' log
          else
            mkWorld (queueAttendance (fallback_item studentId payload) c1)
                    t' log
      | NetworkError =>
          mkWorld (queueAttendance (fallback_item studentId payload) c1) t' log
      end.

(** The same function in the unpatched scanner: the branch for [resp.ok]
    only reports. *)
Definition markAttendanceForLabel_unpatched (e : CallEnv) (label : string)
  (distance : Q) (w : World) : World :=
  let c := client w in
  if debounced (recentMarks c) label (now e) then w
  else
    let c1 := mkClient (set_recentMark label (now e) (recentMarks c))
                       (labelToStudentId c)
                       (offline_attendance c) (sessionMarked c) in
    let studentId := resolve (labelToStudentId c) label in
    let payload := mark_payload e studentId distance in
    if negb (truthy studentId) then
      mkWorld (queueAttendance (unresolved_item label payload) c1)
              (attendance w) (sent w)
    else
      let '(result, t') := fetch_mark (net e) payload (attendance w) in
      let log := sent w ++ [PostMark payload] in
      match result with
      | Responded resp =>
          if ok resp then mkWorld c1 t' log
          else
            mkWorld (queueAttendance (fallback_item studentId payload) c1)
                    t' log
      | NetworkError =>
          mkWorld (queueAttendance (fallback_item studentId payload) c1) t' log
      end.

(** What [syncOfflineQueue] returns. *)
Inductive SyncResult :=
| NothingQueued                  (* { synced: 0 } *)
| SyncedWith (r : Response)      (* the parsed response *)
| SyncFailed.                    (* { error: err.message } *)

(** [async function syncOfflineQueue()] *)
Definition syncOfflineQueue (e : CallEnv) (w : World) : SyncResult * World :=
  let c := client w in
  let q := offline_attendance c in
  if Nat.eqb (length q) 0 then (NothingQueued, w)
  else
    let '(result, t') := fetch_sync (net e) q (attendance w) in
    let log := sent w ++ [PostSync q] in
    match result with
    | Responded resp =>
        if negb (ok resp) then (SyncFailed, mkWorld c t' log)
        else
          (SyncedWith resp,
           mkWorld (mkClient (recentMarks c) (labelToStudentId c) []
                             (sessionMarked c))
                   t' log)
    | NetworkError => (SyncFailed, mkWorld c t' log)
    end.

End Page.

End Scanner.

(** ** The queue behind [window.srmDB] *)

(** [window.srmDB]: [add], [getAll], [clear].  [add] reads the clock (the
    IndexedDB wrapper stamps a record that has no [timestamp]) and can
    reject, which [None] stands for. *)
Class SrmDB (S : Type) := {
  db_empty : S;
  db_add : string -> AttRecord -> S -> option S;
  db_getAll : S -> list AttRecord;
  db_clear : S -> S
}.

(** The in-memory fallback of [scanner.js]:
    [fakeDB = { _q: [], add, getAll, clear }]. *)
#[global] Instance fakeDB : SrmDB (list AttRecord) := {
  db_empty := [];
  db_add := fun _ r q => Some (q ++ [r]);
  db_getAll := fun q => q;
  db_clear := fun _ => []
}.

Module IndexedDB.

(** The object store [attendanceQueue] of [db.js], [keyPath: 'timestamp']:
    its records in ascending key order. *)
Definition Store := list AttRecord.

(** A valid key is a number or a string. *)
Definition valid_key (k : jsval) : bool :=
  match k with
  | JNum _ | JStr _ => true
  | _ => false
  end.

(** Key order: numbers before strings, numbers by value, strings by code
    unit. *)
Definition key_ltb (a b : jsval) : bool :=
  match a, b with
  | JNum x, JNum y => bool_decide (x < y)%Qc
  | JNum _, JStr _ => true
  | JStr x, JStr y => String.ltb x y
  | _, _ => false
  end.

Fixpoint insert_sorted (r : AttRecord) (s : Store) : Store :=
  match s with
  | [] => [r]
  | x :: s' =>
      if key_ltb (timestamp r) (timestamp x) then r :: x :: s'
      else x :: insert_sorted r s'
  end.

(** [obj.timestamp = obj.timestamp || new Date().toISOString()] *)
Definition stamp (clock : string) (r : AttRecord) : AttRecord :=
  mkAttRecord (student_id r) (roll_number r) (date r)
              (js_or (timestamp r) (JStr clock)) (status r) (method r)
              (confidence r) (synced r).

(** [dbAdd]: [objectStore.add] rejects a key that is not valid and a key
    that is already present. *)
Definition dbAdd (clock : string) (r : AttRecord) (s : Store) : option Store :=
  let obj := stamp clock r in
  if negb (valid_key (timestamp obj)) then None
  else if bool_decide (timestamp obj ∈ map timestamp s) then None
  else Some (insert_sorted obj s).

Definition dbGetAll (s : Store) : list AttRecord := s.

Definition dbClear (s : Store) : Store := [].

End IndexedDB.

(** [window.srmDB = { add: dbAdd, getAll: dbGetAll, clear: dbClear }] *)
Definition indexedDB : SrmDB IndexedDB.Store := {|
  db_empty := [];
  db_add := IndexedDB.dbAdd;
  db_getAll := IndexedDB.dbGetAll;
  db_clear := IndexedDB.dbClear
|}.

(** ** The batching scanner and the manual paths *)

(** One entry of [results]: the best match of a detected face. *)
Record Match := mkMatch { label : string; distance : Q }.

Module BatchScanner.

Import Confidence.

(** The batching page: its queue, the server's table, the requests issued. *)
Record BatchWorld (S : Type) := mkBatchWorld {
  queue : S;
  b_attendance : Table;
  b_sent : list Request
}.
Arguments mkBatchWorld {S} _ _ _.
Arguments queue {S} _.
Arguments b_attendance {S} _.
Arguments b_sent {S} _.

Section Page.

Variable StringToNumber : string -> option Qc.
Variable mark_endpoint : ServerEnv -> AttRecord -> Table -> Response * Table.
Variable sync_endpoint :
  ServerEnv -> Backend.SyncBody -> Table -> Response * Table.
Context {S : Type} {DB : SrmDB S}.

(** [Number(label)] as JSON carries it: [NaN] is written [null]. *)
Definition number_of_label (l : string) : jsval :=
  match StringToNumber l with
  | Some q => JNum q
  | None => JNull
  end.

(** The confidence of a match as JSON carries it: an infinite number is
    written [null]. *)
Definition confidence_of_match (m : Match) : jsval :=
  if loop_overflows (distance m) then JNull
  else JNum (Q2Qc (loop_confidence (distance m))).

(** The record the detection loop pushes for a matched face. *)
Definition loop_record (e : CallEnv) (m : Match) : AttRecord :=
  mkAttRecord (number_of_label (label m)) JUndefined (JStr (today e))
              (JStr (iso e)) (JStr "present") (JStr "face")
              (confidence_of_match m) JUndefined.

(** [records]: one record per result whose label is not ['unknown'] (nor
    empty). *)
Definition loop_records (e : CallEnv) (results : list Match) : list AttRecord :=
  map (loop_record e)
      (List.filter
         (fun m => negb (bool_decide (label m = EmptyString))
                   && negb (bool_decide (label m = "unknown")))
         results).

(** [for (const rec of records) await window.srmDB.add(rec);]: a rejected
    [add] ends the loop. *)
Fixpoint add_each (clock : string) (recs : list AttRecord) (s : S) : S :=
  match recs with
  | [] => s
  | r :: rs =>
      match db_add clock r s with
      | Some s' => add_each clock rs s'
      | None => s
      end
  end.

(** The part of a scan step that follows [drawDetections(results)]. *)
Definition scan_submit (e : CallEnv) (results : list Match) (w : BatchWorld S)
  : BatchWorld S :=
  let records := loop_records e results in
  if Nat.eqb (length records) 0 then w
  else
    let '(result, t') :=
      Scanner.fetch_sync sync_endpoint (net e) records (b_attendance w) in
    let log := b_sent w ++ [PostSync records] in
    match result with
    | Responded resp =>
        if ok resp then mkBatchWorld (queue w) t' log
        else mkBatchWorld (add_each (iso e) records (queue w)) t' log
    | NetworkError => mkBatchWorld (add_each (iso e) records (queue w)) t' log
    end.

(** The click handler of [syncBtn]. *)
Definition syncBtn_click (e : CallEnv) (w : BatchWorld S) : BatchWorld S :=
  let items := db_getAll (queue w) in
  if Nat.eqb (length items) 0 then w
  else
    let '(result, t') :=
      Scanner.fetch_sync sync_endpoint (net e) items (b_attendance w) in
    let log := b_sent w ++ [PostSync items] in
    match result with
    | Responded resp =>
        if ok resp then mkBatchWorld (db_clear (queue w)) t' log
        else mkBatchWorld (queue w) t' log
    | NetworkError => mkBatchWorld (queue w) t' log
    end.

(** The record [window.markAttendanceLocally(student_id, status)] builds. *)
Definition manual_record (e : CallEnv) (sid st : jsval) : AttRecord :=
  mkAttRecord sid JUndefined (JStr (today e)) (JStr (iso e))
              (default_param st (JStr "present")) (JStr "manual") JNull
              JUndefined.

(** [window.markAttendanceLocally]; [onLine] is [navigator.onLine]. *)
Definition markAttendanceLocally (e : CallEnv) (onLine : bool) (sid st : jsval)
  (w : BatchWorld S) : BatchWorld S :=
  let rec := manual_record e sid st in
  if negb onLine then
    mkBatchWorld (add_each (iso e) [rec] (queue w)) (b_attendance w) (b_sent w)
  else
    let '(result, t') :=
      Scanner.fetch_mark mark_endpoint (net e) rec (b_attendance w) in
    let log := b_sent w ++ [PostMark rec] in
    match result with
    | Responded resp =>
        if ok resp then mkBatchWorld (queue w) t' log
        else mkBatchWorld (add_each (iso e) [rec] (queue w)) t' log
    | NetworkError => mkBatchWorld (add_each (iso e) [rec] (queue w)) t' log
    end.

End Page.

End BatchScanner.

Module ManualSession.

(** A member of [sessionMarked] as JSON carries it. *)
Definition json_number (x : option Qc) : jsval :=
  match x with
  | Some q => JNum q
  | None => JNull
  end.

(** The record the [submitBtn] handler builds for a marked id. *)
Definition submit_record (e : CallEnv) (id : option Qc) : AttRecord :=
  mkAttRecord (json_number id) JUndefined (JStr (today e)) JUndefined
              (JStr "present") (JStr "manual") JNull JUndefined.

Section Page.

Variable sync_endpoint :
  ServerEnv -> Backend.SyncBody -> Table -> Response * Table.

(** The click handler of [submitBtn]. *)
Definition submitBtn_click (e : CallEnv) (w : World) : World :=
  let c := client w in
  if Nat.eqb (length (sessionMarked c)) 0 then w
  else
    let arr := map (submit_record e) (sessionMarked c) in
    let '(result, t') :=
      Scanner.fetch_sync sync_endpoint (net e) arr (attendance w) in
    let log := sent w ++ [PostSync arr] in
    match result with
    | Responded resp =>
        if ok resp then
          mkWorld (mkClient (recentMarks c) (labelToStudentId c)
                            (offline_attendance c) [])
                  t' log
        else mkWorld c t' log
    | NetworkError => mkWorld c t' log
    end.

End Page.

End ManualSession.

(** ** A sample of [Number] and [String] for runs *)

Module Sample.

Definition digit_of (a : ascii) : option Z :=
  let n := Z.of_nat (nat_of_ascii a) in
  if (48 <=? n) && (n <=? 57) then Some (n - 48) else None.

Fixpoint digits (s : string) (acc : Z) : option Z :=
  match s with
  | EmptyString => Some acc
  | String a s' =>
      match digit_of a with
      | Some d => digits s' (10 * acc + d)
      | None => None
      end
  end.

(** [Number(s)] on the strings runs use: the empty string is 0, a string of
    decimal digits is its value, anything else is [NaN]. *)
Definition StringToNumber (s : string) : option Qc :=
  match digits s 0 with
  | Some z => Some (Q2Qc (inject_Z z))
  | None => None
  end.

(** The decimal digits of a fraction [0 <= n/d < 1], at most [fuel] of
    them. *)
Fixpoint fraction_digits (fuel : nat) (n d : Z) : string :=
  match fuel with
  | O => EmptyString
  | S fuel' =>
      if n =? 0 then EmptyString
      else pretty ((10 * n) / d) +:+ fraction_digits fuel' ((10 * n) mod d) d
  end.

(** [String(q)] on the numbers runs use: integers and short decimals. *)
Definition NumberToString (q : Qc) : string :=
  let n := Qnum (this q) in
  let d := Z.pos (Qden (this q)) in
  let a := Z.abs n in
  let sign := if n <? 0 then "-" else EmptyString in
  let frac := fraction_digits 17 (a mod d) d in
  sign +:+ pretty (a / d)
  +:+ (if bool_decide (frac = EmptyString) then EmptyString else "." +:+ frac).

(** The robust server as the scanner sees it. *)
Definition mark := Backend.attendance_mark StringToNumber NumberToString.
Definition sync := Backend.attendance_sync.

Definition num (z : Z) : jsval := JNum (Q2Qc (inject_Z z)).

(** The body of [mark(sid, day, status, method, confidence)]. *)
Definition mark_body (sid : jsval) (day st m : string) (cf : jsval) : AttRecord :=
  mkAttRecord sid JUndefined (JStr day) JUndefined (JStr st) (JStr m) cf
              JUndefined.

(** [mark(42, 2024-03-01, present, face, 0.91)] and the same for 43. *)
Definition mark_42 : AttRecord :=
  mark_body (num 42) "2024-03-01" "present" "face" (JNum (Q2Qc (91 # 100))).
Definition mark_43 : AttRecord :=
  mark_body (num 43) "2024-03-01" "present" "face" (JNum (Q2Qc (91 # 100))).

(** [markAttendance({studentId: null})] *)
Definition mark_null : AttRecord :=
  mkAttRecord JNull JUndefined JUndefined JUndefined JUndefined JUndefined
              JUndefined JUndefined.

Definition day1 : ServerEnv := healthy "2024-03-01".

(** A page that knows two students, rolls R-001 and R-002 with ids 42 and
    43, and has marked nobody yet; the server's table is empty. *)
Definition roster : gmap string jsval :=
  <["R-002" := num 43]> {[ "R-001" := num 42 ]}.
Definition page0 : Client := mkClient ∅ roster [] [].
Definition world0 : World := mkWorld page0 [] [].

(** A call at [Date.now() = ms] on 2024-03-01. *)
Definition at_ms (ms : Z) (n : Net) : CallEnv :=
  mkCallEnv ms "2024-03-01" "2024-03-01T09:00:00.000Z" n.

Definition online : Net := Reachable day1.

(** [markAttendanceForLabel] of the patched scanner against the robust
    server. *)
Definition scan : CallEnv -> string -> Q -> World -> World :=
  Scanner.markAttendanceForLabel StringToNumber mark.

(** The same in the unpatched scanner. *)
Definition scan_unpatched : CallEnv -> string -> Q -> World -> World :=
  Scanner.markAttendanceForLabel_unpatched mark.

(** A clock reading on 2024-03-01, in milliseconds. *)
Definition t0 : Z := 1709283600000.

(** Two records as the scanner queues them, one second apart. *)
Definition queued_42 : AttRecord :=
  mkAttRecord (num 42) JUndefined (JStr "2024-03-01")
              (JStr "2024-03-01T09:00:00.000Z") (JStr "present") (JStr "face")
              (JNum (Q2Qc (91 # 100))) (JBool false).
Definition queued_43 : AttRecord :=
  mkAttRecord (num 43) JUndefined (JStr "2024-03-01")
              (JStr "2024-03-01T09:00:01.000Z") (JStr "present") (JStr "face")
              (JNum (Q2Qc (88 # 100))) (JBool false).

(** A legacy sync request: the body is the array itself. *)
Definition bare_array : Backend.SyncBody := Backend.BodyArray [mark_42].

(** A sync request that repeats one pair. *)
Definition twice_42 : Backend.SyncBody :=
  Backend.BodyObject (Backend.IsArray [mark_42; mark_42]).

End Sample.

(** ** Vocabulary of the properties *)

(** The pair [(studentId, date)] of a row. *)
Definition pair_of (r : Row) : jsval * jsval := (col_student_id r, col_date r).

(** How many rows of the table carry the pair [(S, D)]. *)
Definition pair_count (S D : jsval) (t : Table) : nat :=
  length (List.filter (fun r => bool_decide (pair_of r = (S, D))) t).

(** Sequential requests to a mark endpoint, each with its own environment. *)
Definition mark_calls
  (mark : ServerEnv -> AttRecord -> Table -> Response * Table)
  (calls : list (ServerEnv * AttRecord)) (t : Table) : Table :=
  foldl (fun t c => snd (mark (fst c) (snd c) t)) t calls.

(** [queueAttendance] called on each record in turn. *)
Definition enqueue_all (items : list AttRecord) (c : Client) : Client :=
  foldl (fun c r => Scanner.queueAttendance r c) c items.

(** [srmDB.add] called on each record in turn, each at its own clock
    reading; [None] when one of the calls rejects. *)
Fixpoint srm_enqueue {S : Type} `{!SrmDB S} (adds : list (string * AttRecord))
  (s : S) : option S :=
  match adds with
  | [] => Some s
  | (clock, r) :: rest =>
      match db_add clock r s with
      | Some s' => srm_enqueue rest s'
      | None => None
      end
  end.

(** What a queue behind [window.srmDB] owes its callers. *)
Class SrmDBLaws (S : Type) `{!SrmDB S} := {
  getAll_empty : db_getAll (db_empty : S) = [];
  getAll_clear : forall s : S, db_getAll (db_clear s) = [];
  getAll_add : forall clock r (s s' : S),
    db_add clock r s = Some s' ->
    length (db_getAll s') = Datatypes.S (length (db_getAll s))
}.

(** A sync body whose [records] array is missing or empty. *)
Definition records_missing_or_empty (b : Backend.SyncBody) : Prop :=
  Backend.body_records b = Backend.NotArray JUndefined
  \/ Backend.body_records b = Backend.IsArray [].

(** "A sync request whose [records] array is missing or empty is rejected
    with 400 [no_records] and nothing is inserted", of a sync handler. *)
Definition rejects_missing_records
  (sync : ServerEnv -> Backend.SyncBody -> Table -> Response * Table) : Prop :=
  forall env b t,
    records_missing_or_empty b ->
    res_status (fst (sync env b t)) = 400
    /\ (exists m, res_body (fst (sync env b t)) = ErrorBody "no_records" m)
    /\ snd (sync env b t) = t.

(** "A call of [markAttendanceForLabel] that gets a 409 from the mark
    endpoint leaves the offline queue as it was", of a page and its server. *)
Definition conflict_leaves_queue
  (mark_label : CallEnv -> string -> Q -> World -> World)
  (mark_endpoint : ServerEnv -> AttRecord -> Table -> Response * Table) : Prop :=
  forall e label distance w resp t',
    Scanner.debounced (recentMarks (client w)) label (now e) = false ->
    truthy (Scanner.resolve (labelToStudentId (client w)) label) = true ->
    Scanner.fetch_mark mark_endpoint (net e)
      (Scanner.mark_payload e
         (Scanner.resolve (labelToStudentId (client w)) label) distance)
      (attendance w) = (Responded resp, t') ->
    res_status resp = 409 ->
    offline_attendance (client (mark_label e label distance w))
    = offline_attendance (client w).

(** "The confidence written for a match at distance [d] in [0,1] is
    [1 - d], a number in [0,1]", of a way to compute the confidence. *)
Definition confidence_is_complement (conf : Q -> Q) : Prop :=
  forall d : Q, (0 <= d <= 1)%Q -> (conf d == 1 - d)%Q /\ (0 <= conf d <= 1)%Q.

(** [f] is [markAttendanceForLabel] in one of its two revisions, on a page
    whose requests are served by [mark_endpoint]. *)
Definition is_mark_label
  (StringToNumber : string -> option Qc)
  (mark_endpoint : ServerEnv -> AttRecord -> Table -> Response * Table)
  (f : CallEnv -> string -> Q -> World -> World) : Prop :=
  f = Scanner.markAttendanceForLabel StringToNumber mark_endpoint
  \/ f = Scanner.markAttendanceForLabel_unpatched mark_endpoint.

(** A call of [markAttendanceForLabel] emitted: it issued a mark request or
    it put a record on the offline queue. *)
Definition emitted (w w' : World) : Prop :=
  (exists p, sent w' = sent w ++ [PostMark p]) \/
  (exists r, offline_attendance (client w')
             = offline_attendance (client w) ++ [r]).

(** ** More of the back end *)

Module BackendMore.

(** The parsed JSON body of a request to the compatibility alias
    [/api/attendance]: one attendance object, or an array of them. *)
Inductive LegacyBody :=
| LegacyObject (r : AttRecord)
| LegacyArray (items : list AttRecord).

(** The row the alias inserts for a single object (the statement and the
    defaults of the minimal mark handler). *)
Definition legacy_row (env : ServerEnv) (p : AttRecord) : Row :=
  mkRow (student_id p)
        (js_or (date p) (JStr (srv_today env)))
        (default_param (status p) (JStr "present"))
        (default_param (method p) (JStr "face_scan"))
        (default_param (confidence p) JNull)
        req_user_id.

(** [app.post('/api/attendance', ...)] of the robust back end: a single
    object with a truthy [student_id] is inserted, an array is inserted in
    bulk, anything else is refused; no row is looked up. *)
Definition legacy_attendance (env : ServerEnv) (body : LegacyBody) (t : Table)
  : Response * Table :=
  match body with
  | LegacyObject p =>
      if truthy (student_id p) then
        if insert_throws env then
          (res_json 500 (ErrorBody "server_error" None), t)
        else (res_json 200 Success, t ++ [legacy_row env p])
      else (res_json 400 (ErrorBody "invalid_payload" None), t)
  | LegacyArray items =>
      let vals := map (Backend.sync_row env) items in
      if insert_throws env then
        (res_json 500 (ErrorBody "server_error" None), t)
      else (res_json 200 (SyncSuccess (length vals)), t ++ vals)
  end.

(** A row of [face_embeddings]: the columns of the [INSERT] of the register
    handler; [embedding] holds [JSON.stringify] of the array, kept here as
    the array it denotes. *)
Record FaceRow := mkFaceRow {
  fe_student_id : jsval;
  fe_embedding : list jsval;
  fe_created_by : jsval
}.

#[global] Instance FaceRow_eq_dec : EqDecision FaceRow.
Proof. solve_decision. Defined.

(** The value of the key [embedding] of a register request: an array, or
    anything else. *)
Inductive EmbeddingField :=
| EmbeddingOther (v : jsval)
| EmbeddingArray (values : list jsval).

#[global] Instance EmbeddingField_eq_dec : EqDecision EmbeddingField.
Proof. solve_decision. Defined.

(** The body of [POST /api/v1/face/register]. *)
Record RegisterBody := mkRegisterBody {
  rb_student_id : jsval;
  rb_embedding : EmbeddingField
}.

#[global] Instance RegisterBody_eq_dec : EqDecision RegisterBody.
Proof. solve_decision. Defined.

(** [app.post('/api/v1/face/register', ...)], on the table
    [face_embeddings]; [invalid] and [failed] are the error texts of the
    revision.  (The robust revision then tries to flag the student in
    [students]; that statement touches no row of [face_embeddings] and its
    failure is swallowed.) *)
Definition face_register_with (invalid failed : string) (env : ServerEnv)
  (body : RegisterBody) (t : list FaceRow) : Response * list FaceRow :=
  match rb_embedding body with
  | EmbeddingArray values =>
      if negb (truthy (rb_student_id body)) then
        (res_json 400 (ErrorBody invalid None), t)
      else if insert_throws env then
        (res_json 500 (ErrorBody failed None), t)
      else
        (res_json 200 Success,
         t ++ [mkFaceRow (rb_student_id body) values req_user_id])
  | EmbeddingOther _ => (res_json 400 (ErrorBody invalid None), t)
  end.

(** The robust revision. *)
Definition face_register := face_register_with "invalid_payload" "server_error".

(** The minimal revision. *)
Definition face_register_minimal := face_register_with "invalid" "server error".

End BackendMore.

(** A row as the robust mark handler writes it: a non-zero number as
    student id, a date that is not NULL, one of the three statuses, a method
    of at most 50 characters, the teacher of [authMiddleware] as marker. *)
Definition marked_row (NumberToString : Qc -> string) (r : Row) : Prop :=
  (exists q, col_student_id r = JNum q /\ q <> 0%Qc)
  /\ col_date r <> JNull /\ col_date r <> JUndefined
  /\ js_String NumberToString (col_status r) ∈ ["present"; "absent"; "late"]
  /\ (exists m, col_method r = JStr m /\ (String.length m <= 50)%nat)
  /\ col_marked_by r = req_user_id.

(** ** The queue of face embeddings of the students page ([app.js]) *)

Module FaceQueue.

Import BackendMore.

(** The page's [localStorage] queue ['srm:embQueue'], the server's table
    [face_embeddings] and the log of the register requests issued. *)
Record EmbWorld := mkEmbWorld {
  emb_queue : list RegisterBody;
  face_embeddings : list FaceRow;
  emb_sent : list RegisterBody
}.

Section Page.

Variable StringToNumber : string -> option Qc.

(** The server behind [API_BASE]: its register handler. *)
Variable register_endpoint :
  ServerEnv -> RegisterBody -> list FaceRow -> Response * list FaceRow.

(** [fetch(API_BASE + '/face/register', { method: 'POST', body })] *)
Definition fetch_register (n : Net) (body : RegisterBody) (t : list FaceRow)
  : FetchResult * list FaceRow :=
  match n with
  | Unreachable => (NetworkError, t)
  | Reachable env =>
      let '(r, t') := register_endpoint env body t in (Responded r, t')
  | ResponseLost env => (NetworkError, snd (register_endpoint env body t))
  end.

(** [Number(studentId)] as [JSON.stringify] writes it: [NaN] becomes
    [null]. *)
Definition json_Number (v : jsval) : jsval :=
  match js_Number StringToNumber v with
  | Some q => JNum q
  | None => JNull
  end.

(** [async function postEmbedding(studentId, descriptor)]; [descriptor] is
    [null] or an array. *)
Definition postEmbedding (n : Net) (studentId : jsval)
  (descriptor : option (list jsval)) (w : EmbWorld) : bool * EmbWorld :=
  match descriptor with
  | None => (false, w)
  | Some d =>
      let item := mkRegisterBody (json_Number studentId) (EmbeddingArray d) in
      let '(result, t') := fetch_register n item (face_embeddings w) in
      let log := emb_sent w ++ [item] in
      match result with
      | Responded resp =>
          if ok resp then (true, mkEmbWorld (emb_queue w) t' log)
          else (false, mkEmbWorld (emb_queue w ++ [item]) t' log)
      | NetworkError => (false, mkEmbWorld (emb_queue w ++ [item]) t' log)
      end
  end.

(** The loop of [trySyncEmbQueue]: one request per queued item, the [i]-th
    under the network condition [net_at i]; the items whose request failed
    are collected in [remain], in order. *)
Fixpoint sync_items (net_at : nat -> Net) (i : nat) (q : list RegisterBody)
  (t : list FaceRow) : list RegisterBody * list FaceRow :=
  match q with
  | [] => ([], t)
  | item :: rest =>
      let '(result, t') := fetch_register (net_at i) item t in
      let failed :=
        match result with
        | Responded resp => negb (ok resp)
        | NetworkError => true
        end in
      let '(remain, t'') := sync_items net_at (Datatypes.S i) rest t' in
      (if failed then item :: remain else remain, t'')
  end.

(** [async function trySyncEmbQueue()] *)
Definition trySyncEmbQueue (net_at : nat -> Net) (w : EmbWorld) : EmbWorld :=
  let q := emb_queue w in
  if Nat.eqb (length q) 0 then w
  else
    let '(remain, t') := sync_items net_at 0 q (face_embeddings w) in
    mkEmbWorld remain t' (emb_sent w ++ q).

End Page.

End FaceQueue.

(** [f] is the register handler in one of its two revisions. *)
Definition is_face_register
  (f : ServerEnv -> BackendMore.RegisterBody -> list BackendMore.FaceRow
       -> Response * list BackendMore.FaceRow) : Prop :=
  f = BackendMore.face_register \/ f = BackendMore.face_register_minimal.

(** A register request the handlers accept: a truthy [student_id] and an
    array as [embedding]. *)
Definition registrable (b : BackendMore.RegisterBody) : bool :=
  truthy (BackendMore.rb_student_id b)
  && match BackendMore.rb_embedding b with
     | BackendMore.EmbeddingArray _ => true
     | BackendMore.EmbeddingOther _ => false
     end.

(** ** The roster of the patched scanner *)

Module Roster.

(** A student of the list [GET /api/v1/students] returns, with the keys
    [fetchStudentsMap] reads. *)
Record Student := mkStudent {
  s_id : jsval;
  s_roll : jsval;
  s_roll_number : jsval;
  s_rollno : jsval;
  s_roll_no : jsval
}.

(** An element of the list [GET /api/v1/embeddings] returns, with the keys
    [buildFaceMatcher] reads. *)
Record EmbeddingItem := mkEmbeddingItem {
  e_student_id : jsval;
  e_roll : jsval;
  e_embedding : BackendMore.EmbeddingField
}.

(** [a ?? b] *)
Definition nullish_or (a b : jsval) : jsval :=
  match a with
  | JUndefined | JNull => b
  | _ => a
  end.

(** [s.roll || s.roll_number || s.rollno || s.roll_no || null] *)
Definition roll_of (s : Student) : jsval :=
  js_or (js_or (js_or (js_or (s_roll s) (s_roll_number s)) (s_rollno s))
               (s_roll_no s)) JNull.

(** What the request for the students list gave: a failure (no answer, a
    status that is not ok, a body that cannot be iterated) or the list. *)
Inductive StudentsResponse :=
| StudentsFailed
| StudentsList (arr : list Student).

Section Builtins.

Variable NumberToString : Qc -> string.

(** [String(roll ?? s.id)] *)
Definition key_of (s : Student) : string :=
  js_String NumberToString (nullish_or (roll_of s) (s_id s)).

(** The loop [for (const s of arr) map.set(key, s.id)]. *)
Definition students_map (arr : list Student) : gmap string jsval :=
  foldl (fun m s => <[key_of s := s_id s]> m) ∅ arr.

(** [async function fetchStudentsMap()]: the map, empty on failure. *)
Definition fetchStudentsMap (r : StudentsResponse) : gmap string jsval :=
  match r with
  | StudentsFailed => ∅
  | StudentsList arr => students_map arr
  end.

(** The label [buildFaceMatcher] gives a descriptor:
    [it.roll ? String(it.roll) : `id_${it.student_id}`]. *)
Definition matcher_label (it : EmbeddingItem) : string :=
  if truthy (e_roll it) then js_String NumberToString (e_roll it)
  else "id_" +:+ js_String NumberToString (e_student_id it).

(** The labels of the face matcher: one per item whose [embedding] is an
    array. *)
Definition matcher_labels (embeddings : list EmbeddingItem) : list string :=
  map matcher_label
      (List.filter
         (fun it => match e_embedding it with
                    | BackendMore.EmbeddingArray _ => true
                    | BackendMore.EmbeddingOther _ => false
                    end)
         embeddings).

End Builtins.

End Roster.

(** ** The manual session of the patched scanner *)

Module Session.

(** [set.delete(x)] *)
Definition set_delete (x : option Qc) (s : list (option Qc))
  : list (option Qc) :=
  List.filter (fun y => negb (bool_decide (y = x))) s.

Section Page.

Variable StringToNumber : string -> option Qc.

(** The click handler of the [.mark-btn] buttons; [data_id] is
    [btn.getAttribute('data-id')], a string or [null]:
    [const id = Number(...); if (!id) return;
     if (sessionMarked.has(id)) sessionMarked.delete(id);
     else sessionMarked.add(id);] *)
Definition mark_btn_click (data_id : jsval) (s : list (option Qc))
  : list (option Qc) :=
  match js_Number StringToNumber data_id with
  | None => s
  | Some q =>
      if bool_decide (q = 0%Qc) then s
      else if bool_decide (Some q ∈ s) then set_delete (Some q) s
      else Scanner.set_add (Some q) s
  end.

End Page.

End Session.

(** ** Escaping for HTML *)

Module Html.

(** The quotation mark. *)
Definition quot : ascii := ascii_of_nat 34.

(** The replacement of one character, by the table of the source: the
    ampersand, the two angle brackets, the quotation mark and the
    apostrophe become [&amp;], [&lt;], [&gt;], [&quot;] and [&#39;]. *)
Definition escape_char (c : ascii) : string :=
  if Ascii.eqb c "&" then "&amp;"
  else if Ascii.eqb c "<" then "&lt;"
  else if Ascii.eqb c ">" then "&gt;"
  else if Ascii.eqb c quot then "&quot;"
  else if Ascii.eqb c "'" then "&#39;"
  else String c EmptyString.

(** The global [replace] of the five characters. *)
Fixpoint escape (s : string) : string :=
  match s with
  | EmptyString => EmptyString
  | String c s' => escape_char c +:+ escape s'
  end.

Section Builtins.

Variable NumberToString : Qc -> string.

(** [function escapeHTML(s)] of the scanner: [String(s || '')], escaped. *)
Definition escapeHTML (v : jsval) : string :=
  escape (js_String NumberToString (js_or v (JStr EmptyString))).

End Builtins.

(** The characters that open or close markup or an attribute value. *)
Definition markup_char (c : ascii) : bool :=
  Ascii.eqb c "<" || Ascii.eqb c ">" || Ascii.eqb c quot || Ascii.eqb c "'".

(** The five characters [escapeHTML] replaces. *)
Definition special_char (c : ascii) : bool :=
  Ascii.eqb c "&" || markup_char c.

End Html.

(** ** More sample data for runs *)

Module Cases.

Import BackendMore.

(** A descriptor (shortened to three numbers) and two queued register
    requests: one for student 42, one whose id was not a number. *)
Definition descriptor : list jsval :=
  [JNum (Q2Qc (1 # 8)); JNum (Q2Qc (-1 # 4)); JNum (Q2Qc (3 # 16))].
Definition item_42 : RegisterBody :=
  mkRegisterBody (Sample.num 42) (EmbeddingArray descriptor).
Definition item_nan : RegisterBody :=
  mkRegisterBody JNull (EmbeddingArray descriptor).

(** A page with both items queued, an empty [face_embeddings] table. *)
Definition emb_world0 : FaceQueue.EmbWorld :=
  FaceQueue.mkEmbWorld [item_nan; item_42] [] [].

(** The network is up for every request. *)
Definition always_online (i : nat) : Net := Sample.online.


(** A students list: Asha has roll R-001, Bala has no roll, Chitra took
    over roll R-001 later in the list. *)
Definition asha : Roster.Student :=
  Roster.mkStudent (Sample.num 42) (JStr "R-001") JUndefined JUndefined
                   JUndefined.
Definition bala : Roster.Student :=
  Roster.mkStudent (Sample.num 43) (JStr EmptyString) JUndefined JUndefined
                   JUndefined.
Definition chitra : Roster.Student :=
  Roster.mkStudent (Sample.num 44) JNull (JStr "R-001") JUndefined JUndefined.

(** The embedding the server lists for Bala: no roll. *)
Definition bala_face : Roster.EmbeddingItem :=
  Roster.mkEmbeddingItem (Sample.num 43) JNull (EmbeddingArray descriptor).

(** A page that knows a student whose roll is spelled [__proto__], id 44,
    beside the two of the sample page. *)
Definition proto_world : World :=
  mkWorld (mkClient ∅ (<["__proto__" := Sample.num 44]> Sample.roster) [] [])
          [] [].

(** A page whose roster was fetched from [[asha; bala]]. *)
Definition roster_world : World :=
  mkWorld
    (mkClient ∅
       (Roster.fetchStudentsMap Sample.NumberToString
          (Roster.StudentsList [asha; bala])) [] [])
    [] [].

End Cases.


(** ** The dashboard's [recordAttendance] ([local-db.js]) *)

Module LocalDb.

(** How an [async] call ends: it returns, or it throws; [http] throws with
    the status of a response that is not ok, and [fetch] itself rejects
    when the server cannot be reached ([None]). *)
Inductive Outcome :=
| Returned
| Threw (status : option Z).

Section Page.

Variable StringToNumber : string -> option Qc.
Variable mark_endpoint : ServerEnv -> AttRecord -> Table -> Response * Table.

(** The [payload] of [recordAttendance]; [day] is [isoDate(date)]. *)
Definition record_payload (studentId : jsval) (day : string) (present : bool)
  : AttRecord :=
  mkAttRecord (FaceQueue.json_Number StringToNumber studentId) JUndefined
              (JStr day) JUndefined
              (JStr (if present then "present" else "absent"))
              (JStr "manual") JUndefined JUndefined.

(** [async function recordAttendance({ studentId, date, present })]:
    [await http('/api/v1/attendance/mark', { method: 'POST', body })], then
    [return true]. *)
Definition recordAttendance (n : Net) (studentId : jsval) (day : string)
  (present : bool) (t : Table) : Outcome * Table :=
  let '(result, t') :=
    Scanner.fetch_mark mark_endpoint n (record_payload studentId day present) t in
  match result with
  | Responded resp =>
      if ok resp then (Returned, t') else (Threw (Some (res_status resp)), t')
  | NetworkError => (Threw None, t')
  end.

End Page.

End LocalDb.

(** * Properties *)

(** ** Values *)

Lemma truthy_not_null (v : jsval) :
  truthy v = true -> v <> JUndefined /\ v <> JNull.
Proof. destruct v; simpl; intros H; split; congruence. Qed.

Lemma sql_eq_param (a b : jsval) :
  b <> JUndefined -> b <> JNull -> sql_eq a b = bool_decide (a = b).
Proof.
  intros Hu Hn. destruct a, b; simpl; try congruence;
    symmetry; apply bool_decide_eq_false; congruence.
Qed.

Lemma js_or_not_null (a : jsval) (s : string) :
  js_or a (JStr s) <> JUndefined /\ js_or a (JStr s) <> JNull.
Proof.
  unfold js_or. destruct (truthy a) eqn:E.
  - by apply truthy_not_null.
  - split; congruence.
Qed.

(** ** The mark endpoint keeps pairs unique *)

Lemma pair_count_app (S D : jsval) (t u : Table) :
  pair_count S D (t ++ u) = (pair_count S D t + pair_count S D u)%nat.
Proof. unfold pair_count. by rewrite List.filter_app, length_app. Qed.

Lemma pair_count_absent (S D : jsval) (t : Table) :
  (S, D) ∉ map pair_of t -> pair_count S D t = 0%nat.
Proof.
  unfold pair_count. induction t as [|r t IH]; simpl; [done|].
  intros Hn. apply not_elem_of_cons in Hn as [Hr Ht].
  rewrite bool_decide_eq_false_2 by congruence. by apply IH.
Qed.

Lemma pair_count_NoDup (S D : jsval) (t : Table) :
  NoDup (map pair_of t) -> (pair_count S D t <= 1)%nat.
Proof.
  induction t as [|r t IH]; simpl; intros Hnd.
  - unfold pair_count. simpl. lia.
  - apply NoDup_cons in Hnd as [Hr Ht].
    change (r :: t) with ([r] ++ t). rewrite pair_count_app.
    unfold pair_count at 1. simpl.
    destruct (bool_decide (pair_of r = (S, D))) eqn:E; simpl.
    + apply bool_decide_eq_true in E. rewrite E in Hr.
      rewrite pair_count_absent by done. lia.
    + specialize (IH Ht). lia.
Qed.

Lemma filter_nil_absent (sid d : jsval) (t : Table) :
  List.filter (fun r => bool_decide (col_student_id r = sid)
                        && bool_decide (col_date r = d)) t = [] ->
  (sid, d) ∉ map pair_of t.
Proof.
  induction t as [|r t IH]; simpl; intros H.
  - apply not_elem_of_nil.
  - destruct (bool_decide (col_student_id r = sid)
              && bool_decide (col_date r = d)) eqn:E; [discriminate|].
    apply not_elem_of_cons. split; [|by apply IH].
    unfold pair_of. intros Heq. inversion Heq; subst.
    by rewrite !bool_decide_eq_true_2 in E.
Qed.

Lemma select_existing_none (sid d : jsval) (t : Table) :
  sid <> JUndefined -> sid <> JNull -> d <> JUndefined -> d <> JNull ->
  length (Backend.select_existing sid d t) = 0%nat ->
  (sid, d) ∉ map pair_of t.
Proof.
  intros Hs1 Hs2 Hd1 Hd2 Hlen. unfold Backend.select_existing in Hlen.
  apply filter_nil_absent.
  rewrite (List.filter_ext
             (fun r => bool_decide (col_student_id r = sid)
                       && bool_decide (col_date r = d))
             (fun r => sql_eq (col_student_id r) sid && sql_eq (col_date r) d)).
  - destruct (List.filter _ t); [done | discriminate].
  - intros r. by rewrite !sql_eq_param.
Qed.

Lemma select_existing_some (sid d : jsval) (t : Table) :
  sid <> JUndefined -> sid <> JNull -> d <> JUndefined -> d <> JNull ->
  (sid, d) ∈ map pair_of t ->
  length (Backend.select_existing sid d t) = 1%nat.
Proof.
  intros Hs1 Hs2 Hd1 Hd2 Hin. unfold Backend.select_existing.
  induction t as [|r t IH]; simpl in *.
  - by apply elem_of_nil in Hin.
  - rewrite !sql_eq_param by done.
    destruct (bool_decide (col_student_id r = sid)
              && bool_decide (col_date r = d)) eqn:E; [done|].
    apply elem_of_cons in Hin as [Heq | Hin]; [|by apply IH].
    unfold pair_of in Heq. inversion Heq; subst.
    by rewrite !bool_decide_eq_true_2 in E.
Qed.

Section MarkFacts.

Variable StringToNumber : string -> option Qc.
Variable NumberToString : Qc -> string.

Abbreviation mark := (Backend.attendance_mark StringToNumber NumberToString).

(** The mark handler either leaves the table alone or appends one row whose
    pair was absent. *)
Lemma mark_table_cases (env : ServerEnv) (p : AttRecord) (t : Table) :
  snd (mark env p t) = t \/
  exists r, snd (mark env p t) = t ++ [r] /\ pair_of r ∉ map pair_of t.
Proof.
  unfold Backend.attendance_mark.
  set (sid := Backend.normalize_student_id StringToNumber (student_id p)).
  set (d := js_or (date p) (JStr (srv_today env))).
  destruct (truthy sid) eqn:Hsid; simpl; [|by left].
  destruct (select_throws env); simpl; [by left|].
  destruct (length (Backend.select_existing sid d t)) eqn:Hlen; simpl;
    [|by left].
  destruct (insert_throws env); simpl; [by left|].
  right. eexists. split; [reflexivity|]. unfold pair_of; simpl.
  apply truthy_not_null in Hsid as [? ?].
  destruct (js_or_not_null (date p) (srv_today env)) as [? ?].
  by apply select_existing_none.
Qed.

Lemma mark_keeps_NoDup (env : ServerEnv) (p : AttRecord) (t : Table) :
  NoDup (map pair_of t) -> NoDup (map pair_of (snd (mark env p t))).
Proof.
  intros Hnd. destruct (mark_table_cases env p t) as [-> | (r & -> & Hr)];
    [done|].
  rewrite map_app. apply NoDup_app. split; [done|]. split.
  - intros x Hx Hx'. simpl in Hx'. apply list_elem_of_singleton in Hx'.
    by subst.
  - simpl. apply NoDup_singleton.
Qed.

Lemma mark_calls_NoDup (calls : list (ServerEnv * AttRecord)) (t : Table) :
  NoDup (map pair_of t) -> NoDup (map pair_of (mark_calls mark calls t)).
Proof.
  revert t. induction calls as [|c calls IH]; intros t Hnd; simpl; [done|].
  apply IH. by apply mark_keeps_NoDup.
Qed.

(** C1. Per-day uniqueness: after any sequence of sequential requests to
    the mark endpoint of the robust back end, started on an empty
    attendance table, every pair (student id [S], date [D]) is carried by at
    most one row, whatever the number and the order of the requests (and
    whatever the database does to each of them). *)
Theorem mark_per_day_uniqueness
  (calls : list (ServerEnv * AttRecord)) (S D : jsval) :
  (pair_count S D (mark_calls mark calls []) <= 1)%nat.
Proof.
  apply pair_count_NoDup, mark_calls_NoDup. simpl. apply NoDup_nil_2.
Qed.

Lemma truthy_number (q : Qc) : q <> 0%Qc -> truthy (JNum q) = true.
Proof. intros Hq. simpl. by rewrite bool_decide_eq_false_2. Qed.

(** A request that names student [q] (a non-zero number) on a day [d] that
    no row of the table carries for that student is answered with success
    and appends exactly one row. *)
Lemma mark_fresh (env : ServerEnv) (p : AttRecord) (t : Table) (q : Qc) (d : jsval) :
  Backend.normalize_student_id StringToNumber (student_id p) = JNum q ->
  q <> 0%Qc -> date p = d -> truthy d = true ->
  select_throws env = false -> insert_throws env = false ->
  (JNum q, d) ∉ map pair_of t ->
  exists r, mark env p t = (res_json 200 (MarkSuccess (JNum q) d), t ++ [r])
            /\ pair_of r = (JNum q, d).
Proof.
  intros Hs Hq Hd Htd Hsel Hins Hfresh.
  unfold Backend.attendance_mark.
  rewrite Hs, Hd, (truthy_number q Hq). simpl.
  unfold js_or. rewrite Htd, Hsel. simpl.
  destruct (length (Backend.select_existing (JNum q) d t)) eqn:Hlen.
  - simpl. rewrite Hins. eexists. split; reflexivity.
  - exfalso. unfold Backend.select_existing in Hlen.
    destruct (List.filter _ t) as [|r l] eqn:Hf; [discriminate|].
    assert (Hr : In r (List.filter
                (fun r => sql_eq (col_student_id r) (JNum q)
                          && sql_eq (col_date r) d) t))
      by (rewrite Hf; by left).
    apply List.filter_In in Hr as [Hin Hr].
    apply truthy_not_null in Htd as [? ?].
    rewrite !sql_eq_param in Hr by done.
    apply andb_prop in Hr as [H1 H2].
    apply bool_decide_eq_true in H1, H2.
    apply Hfresh. apply list_elem_of_fmap. exists r. split.
    + unfold pair_of. by rewrite H1, H2.
    + by apply list_elem_of_In.
Qed.

(** A request for a pair the table already carries is answered 409
    [already_marked] and changes nothing. *)
Lemma mark_conflict (env : ServerEnv) (p : AttRecord) (t : Table) (q : Qc) (d : jsval) :
  Backend.normalize_student_id StringToNumber (student_id p) = JNum q ->
  q <> 0%Qc -> date p = d -> truthy d = true ->
  select_throws env = false ->
  (JNum q, d) ∈ map pair_of t ->
  mark env p t =
    (res_json 409
       (ErrorBody "already_marked"
          (Some "Attendance already marked for this student on this date")), t).
Proof.
  intros Hs Hq Hd Htd Hsel Hin.
  unfold Backend.attendance_mark.
  rewrite Hs, Hd, (truthy_number q Hq). simpl.
  unfold js_or. rewrite Htd, Hsel. simpl.
  apply truthy_not_null in Htd as [? ?].
  by rewrite select_existing_some.
Qed.

(** C2. Conflict on repeat: on a table with no row for (S, D) nor for
    (S', D), with S and S' two different valid student ids (non-zero
    numbers, or values that [Number] turns into such) and the database
    answering, a mark request for (S, D) succeeds with
    [{success:true, student_id:S, date:D}] and inserts one row; a second
    request with the same (S, D) is answered 409 [already_marked] and
    inserts nothing; a third request for (S', D) succeeds and inserts one
    more row. *)
Theorem mark_twice_conflict_then_other
  (e1 e2 e3 : ServerEnv) (p1 p2 p3 : AttRecord) (t : Table)
  (S S' : Qc) (D : jsval) :
  Backend.normalize_student_id StringToNumber (student_id p1) = JNum S ->
  date p1 = D ->
  Backend.normalize_student_id StringToNumber (student_id p2) = JNum S ->
  date p2 = D ->
  Backend.normalize_student_id StringToNumber (student_id p3) = JNum S' ->
  date p3 = D ->
  S <> 0%Qc -> S' <> 0%Qc -> S <> S' -> truthy D = true ->
  select_throws e1 = false -> insert_throws e1 = false ->
  select_throws e2 = false ->
  select_throws e3 = false -> insert_throws e3 = false ->
  (JNum S, D) ∉ map pair_of t -> (JNum S', D) ∉ map pair_of t ->
  let r1 := mark e1 p1 t in
  let r2 := mark e2 p2 (snd r1) in
  let r3 := mark e3 p3 (snd r2) in
  fst r1 = res_json 200 (MarkSuccess (JNum S) D)
  /\ length (snd r1) = Datatypes.S (length t)
  /\ res_status (fst r2) = 409
  /\ (exists m, res_body (fst r2) = ErrorBody "already_marked" m)
  /\ snd r2 = snd r1
  /\ fst r3 = res_json 200 (MarkSuccess (JNum S') D)
  /\ length (snd r3) = Datatypes.S (length (snd r1))
  /\ pair_count (JNum S) D (snd r3) = 1%nat
  /\ pair_count (JNum S') D (snd r3) = 1%nat.
Proof.
  intros Hs1 Hd1 Hs2 Hd2 Hs3 Hd3 HS HS' Hne HD Hsel1 Hins1 Hsel2 Hsel3 Hins3
         Hf Hf'.
  destruct (mark_fresh e1 p1 t S D) as (row1 & E1 & K1); try done.
  assert (Hin : (JNum S, D) ∈ map pair_of (t ++ [row1])).
  { rewrite map_app. apply elem_of_app. right. simpl. rewrite K1.
    apply list_elem_of_singleton. done. }
  assert (Hf3 : (JNum S', D) ∉ map pair_of (t ++ [row1])).
  { rewrite map_app. intros Hx. apply elem_of_app in Hx as [Hx | Hx]; [done|].
    simpl in Hx. rewrite K1 in Hx. apply list_elem_of_singleton in Hx.
    congruence. }
  pose proof (mark_conflict e2 p2 (t ++ [row1]) S D Hs2 HS Hd2 HD Hsel2 Hin)
    as E2.
  destruct (mark_fresh e3 p3 (t ++ [row1]) S' D) as (row3 & E3 & K3);
    try done.
  cbv zeta. rewrite E1. simpl. rewrite E2. simpl. rewrite E3. simpl.
  repeat split; try done.
  - rewrite length_app. simpl. lia.
  - by eexists.
  - rewrite !length_app. simpl. lia.
  - rewrite !pair_count_app, (pair_count_absent _ _ t) by done.
    unfold pair_count. simpl. rewrite K1, K3.
    rewrite bool_decide_eq_true_2 by done.
    rewrite bool_decide_eq_false_2 by congruence. done.
  - rewrite !pair_count_app, (pair_count_absent _ _ t) by done.
    unfold pair_count. simpl. rewrite K1, K3.
    rewrite bool_decide_eq_false_2 by congruence.
    rewrite bool_decide_eq_true_2 by done. done.
Qed.

(** C4. Malformed payload: a mark request whose [student_id] is missing
    ([undefined] or [null]) or is not numeric ([Number] of it is [NaN]) is
    answered 400 [invalid_payload], before any query is sent to the
    database, and the attendance table is unchanged. *)
Theorem mark_invalid_payload (env : ServerEnv) (p : AttRecord) (t : Table) :
  student_id p = JUndefined \/ student_id p = JNull
  \/ js_Number StringToNumber (student_id p) = None ->
  res_status (fst (mark env p t)) = 400
  /\ (exists m, res_body (fst (mark env p t)) = ErrorBody "invalid_payload" m)
  /\ snd (mark env p t) = t.
Proof.
  intros H. unfold Backend.attendance_mark.
  assert (Hn : truthy (Backend.normalize_student_id StringToNumber
                         (student_id p)) = false).
  { unfold Backend.normalize_student_id.
    destruct H as [-> | [-> | H]]; [done | done |].
    rewrite H. by destruct (truthy (student_id p)). }
  rewrite Hn. simpl. repeat split; by eexists.
Qed.

(** The same answer for an id that normalises to zero (0, "0", false), which
    the handler's [!student_id] also refuses. *)
Lemma mark_zero_id_rejected (env : ServerEnv) (p : AttRecord) (t : Table) :
  js_Number StringToNumber (student_id p) = Some 0%Qc ->
  fst (mark env p t)
  = res_json 400
      (ErrorBody "invalid_payload" (Some "student_id required (numeric)"))
  /\ snd (mark env p t) = t.
Proof.
  intros H. unfold Backend.attendance_mark, Backend.normalize_student_id.
  rewrite H. destruct (truthy (student_id p)); simpl; done.
Qed.

End MarkFacts.

(** The scenario of the specification, run on the robust back end: student
    42 on 2024-03-01 is marked, the repeat is refused with 409, student 43
    is marked on the same day. *)
Lemma mark_twice_conflict_then_other_witness :
  let r1 := Sample.mark Sample.day1 Sample.mark_42 [] in
  let r2 := Sample.mark Sample.day1 Sample.mark_42 (snd r1) in
  let r3 := Sample.mark Sample.day1 Sample.mark_43 (snd r2) in
  fst r1 = res_json 200 (MarkSuccess (Sample.num 42) (JStr "2024-03-01"))
  /\ length (snd r1) = 1%nat
  /\ res_status (fst r2) = 409
  /\ (exists m, res_body (fst r2) = ErrorBody "already_marked" m)
  /\ snd r2 = snd r1
  /\ fst r3 = res_json 200 (MarkSuccess (Sample.num 43) (JStr "2024-03-01"))
  /\ length (snd r3) = 2%nat
  /\ pair_count (Sample.num 42) (JStr "2024-03-01") (snd r3) = 1%nat
  /\ pair_count (Sample.num 43) (JStr "2024-03-01") (snd r3) = 1%nat.
Proof.
  apply (mark_twice_conflict_then_other
           Sample.StringToNumber Sample.NumberToString
           Sample.day1 Sample.day1 Sample.day1
           Sample.mark_42 Sample.mark_42 Sample.mark_43 []
           (Q2Qc 42) (Q2Qc 43) (JStr "2024-03-01"));
    try reflexivity; try (intros H; discriminate H);
    try apply not_elem_of_nil.
Defined.

(** [markAttendance({studentId: null})] on a table that already holds a
    row: refused, the table is as before. *)
Lemma mark_invalid_payload_witness :
  let t := snd (Sample.mark Sample.day1 Sample.mark_42 []) in
  res_status (fst (Sample.mark Sample.day1 Sample.mark_null t)) = 400
  /\ (exists m, res_body (fst (Sample.mark Sample.day1 Sample.mark_null t))
                = ErrorBody "invalid_payload" m)
  /\ snd (Sample.mark Sample.day1 Sample.mark_null t) = t.
Proof.
  apply (mark_invalid_payload Sample.StringToNumber Sample.NumberToString
           Sample.day1 Sample.mark_null).
  right. left. reflexivity.
Defined.

(** ** The sync endpoint *)

Lemma submitted_object (r : Backend.RecordsField) :
  Backend.submitted (Backend.BodyObject r)
  = match r with Backend.IsArray l => l | Backend.NotArray _ => [] end.
Proof.
  unfold Backend.submitted. simpl. destruct r as [v|l]; simpl; [|done].
  by destruct (truthy v).
Qed.

Lemma submitted_array (l : list AttRecord) :
  Backend.submitted (Backend.BodyArray l) = l.
Proof. reflexivity. Qed.

Lemma sync_inserts_all (env : ServerEnv) (l : list AttRecord) (t : Table) :
  l <> [] -> insert_throws env = false ->
  Backend.attendance_sync env (Backend.BodyObject (Backend.IsArray l)) t
  = (res_json 200 (SyncSuccess (length l)), t ++ map (Backend.sync_row env) l).
Proof.
  intros Hl Hins. unfold Backend.attendance_sync.
  rewrite submitted_object. destruct l as [|r l]; [done|].
  simpl. rewrite Hins. by rewrite length_map.
Qed.

Lemma minimal_sync_inserts_all (env : ServerEnv) (l : list AttRecord) (t : Table) :
  l <> [] -> insert_throws env = false ->
  MinimalBackend.attendance_sync env (Backend.BodyObject (Backend.IsArray l)) t
  = (res_json 200 (SyncSuccess (length l)), t ++ map (Backend.sync_row env) l).
Proof.
  intros Hl Hins. unfold MinimalBackend.attendance_sync. simpl.
  destruct l as [|r l]; [done|]. simpl. rewrite Hins. by rewrite length_map.
Qed.

(** C6, as stated, fails on both revisions of the back end.  The request
    whose body is the bare array [[r]] has no [records] key: the robust
    handler falls back on the body, inserts the record and answers 200 with
    [inserted: 1]; the minimal handler rejects it with 400, but with the
    error text [no records], not [no_records]. *)
Lemma sync_missing_records_counterexample :
  records_missing_or_empty Sample.bare_array
  /\ Backend.attendance_sync Sample.day1 Sample.bare_array []
     = (res_json 200 (SyncSuccess 1),
        [Backend.sync_row Sample.day1 Sample.mark_42])
  /\ MinimalBackend.attendance_sync Sample.day1 Sample.bare_array []
     = (res_json 400 (ErrorBody "no records" None), [])
  /\ ~ rejects_missing_records Backend.attendance_sync
  /\ ~ rejects_missing_records MinimalBackend.attendance_sync.
Proof.
  assert (Hm : records_missing_or_empty Sample.bare_array) by (by left).
  split; [exact Hm|]. split; [reflexivity|]. split; [reflexivity|]. split.
  - intros H. destruct (H Sample.day1 Sample.bare_array [] Hm) as (Hs & _).
    vm_compute in Hs. discriminate Hs.
  - intros H.
    destruct (H Sample.day1 Sample.bare_array [] Hm) as (_ & (m & Hb) & _).
    vm_compute in Hb. discriminate Hb.
Qed.

(** C6, amended.  The robust sync handler takes as submitted records
    [body.records] when it is truthy and the body itself otherwise, and
    counts them as none unless that value is an array (so [{}],
    [{records: []}] and [{records: "x"}] submit nothing, a bare array
    submits its elements).  With nothing submitted it answers 400
    [no_records] and inserts nothing.  Otherwise, when the [INSERT] does not
    throw, it appends one row per submitted record in one statement, looks
    at no existing row (the count of every pair grows by the number of
    submitted records that carry it) and answers 200 with [inserted] equal
    to the number of submitted records.  The minimal handler reads only
    [body.records], rejects with 400 and the error text [no records] unless
    it is a non-empty array, and otherwise inserts in the same way. *)
Theorem sync_contract (env : ServerEnv) (body : Backend.SyncBody) (t : Table) :
  insert_throws env = false ->
  let arr := Backend.submitted body in
  let rows := map (Backend.sync_row env) arr in
  (forall r, body = Backend.BodyObject r ->
     arr = match r with Backend.IsArray l => l | Backend.NotArray _ => [] end)
  /\ (forall l, body = Backend.BodyArray l -> arr = l)
  /\ (arr = [] ->
      Backend.attendance_sync env body t
      = (res_json 400 (ErrorBody "no_records" None), t))
  /\ (arr <> [] ->
      Backend.attendance_sync env body t
      = (res_json 200 (SyncSuccess (length arr)), t ++ rows)
      /\ forall S D, pair_count S D (t ++ rows)
                     = (pair_count S D t + pair_count S D rows)%nat)
  /\ (forall l, Backend.body_records body = Backend.IsArray l -> l <> [] ->
      MinimalBackend.attendance_sync env body t
      = (res_json 200 (SyncSuccess (length l)),
         t ++ map (Backend.sync_row env) l))
  /\ ((forall l, Backend.body_records body = Backend.IsArray l -> l = []) ->
      MinimalBackend.attendance_sync env body t
      = (res_json 400 (ErrorBody "no records" None), t)).
Proof.
  intros Hins arr rows. repeat split.
  - intros r ->. apply submitted_object.
  - intros l ->. apply submitted_array.
  - intros Harr. unfold Backend.attendance_sync. fold arr. by rewrite Harr.
  - unfold Backend.attendance_sync. fold arr.
    destruct arr as [|r l] eqn:E; [done|]. simpl. rewrite Hins.
    subst rows. simpl. by rewrite length_map.
  - intros S D. apply pair_count_app.
  - intros l Hl Hne. unfold MinimalBackend.attendance_sync. rewrite Hl.
    destruct l as [|r l]; [done|]. simpl. rewrite Hins. by rewrite length_map.
  - intros Hall. unfold MinimalBackend.attendance_sync.
    destruct (Backend.body_records body) as [v|l] eqn:E; [done|].
    by rewrite (Hall l eq_refl).
Qed.

(** A run of the amended statement: on a table that already holds
    (42, 2024-03-01), a sync request carrying that pair twice is accepted
    whole, and the pair is then carried by three rows. *)
Lemma sync_contract_witness :
  let t := snd (Sample.mark Sample.day1 Sample.mark_42 []) in
  let rows := map (Backend.sync_row Sample.day1)
                  [Sample.mark_42; Sample.mark_42] in
  Backend.attendance_sync Sample.day1 Sample.twice_42 t
  = (res_json 200 (SyncSuccess 2), t ++ rows)
  /\ pair_count (Sample.num 42) (JStr "2024-03-01") (t ++ rows) = 3%nat.
Proof.
  intros t rows.
  destruct (sync_contract Sample.day1 Sample.twice_42 t eq_refl)
    as (_ & _ & _ & Hsome & _).
  destruct Hsome as [Hrun Hcount]; [discriminate|].
  split; [exact Hrun|].
  exact (eq_trans (Hcount (Sample.num 42) (JStr "2024-03-01")) eq_refl).
Defined.

(** ** The debounce of [markAttendanceForLabel] *)

Lemma debounced_fresh (rm : gmap string Z) (label : string) (t : Z) :
  rm !! label = None -> Scanner.debounced rm label t = false.
Proof.
  intros H. unfold Scanner.debounced. rewrite H. by case_bool_decide.
Qed.

Lemma debounced_after (rm : gmap string Z) (label : string) (t1 t2 : Z) :
  label <> Scanner.proto_key ->
  t1 <> 0 ->
  Scanner.debounced (Scanner.set_recentMark label t1 rm) label t2
  = (t2 - t1 <? 45 * 1000).
Proof.
  intros Hl Ht. unfold Scanner.debounced, Scanner.set_recentMark.
  rewrite !bool_decide_eq_false_2 by done. rewrite lookup_insert_eq.
  destruct (Z.eqb_spec t1 0); [done|]. reflexivity.
Qed.

Lemma set_recentMark_lookup (rm : gmap string Z) (label : string) (t : Z) :
  label <> Scanner.proto_key ->
  Scanner.set_recentMark label t rm !! label = Some t.
Proof.
  intros Hl. unfold Scanner.set_recentMark.
  rewrite bool_decide_eq_false_2 by done. apply lookup_insert_eq.
Qed.

(** The key [__proto__] is never stored and never debounced. *)
Lemma proto_key_not_stored (rm : gmap string Z) (t : Z) :
  Scanner.set_recentMark Scanner.proto_key t rm = rm
  /\ Scanner.debounced rm Scanner.proto_key t = false.
Proof. done. Qed.

Lemma resolve_unknown (m : gmap string jsval) (label : string) :
  m !! label = None -> truthy (Scanner.resolve m label) = false.
Proof. intros H. unfold Scanner.resolve. by rewrite H. Qed.

Section PageFacts.

Variable StringToNumber : string -> option Qc.
Variable mark_endpoint : ServerEnv -> AttRecord -> Table -> Response * Table.

Abbreviation either_revision f := (is_mark_label StringToNumber mark_endpoint f).

(** Case analysis along the branches of [markAttendanceForLabel], in
    either revision. *)
Ltac mark_label_cases e label distance w :=
  unfold Scanner.markAttendanceForLabel,
         Scanner.markAttendanceForLabel_unpatched;
  destruct (Scanner.debounced (recentMarks (client w)) label (now e))
    eqn:Hdeb; try discriminate;
  destruct (truthy (Scanner.resolve (labelToStudentId (client w)) label))
    eqn:Hres; simpl;
  [ destruct (Scanner.fetch_mark mark_endpoint (net e)
                (Scanner.mark_payload e
                   (Scanner.resolve (labelToStudentId (client w)) label)
                   distance) (attendance w)) as [[|resp] t'] eqn:Hfetch;
    [ | destruct (ok resp) eqn:Hok ]; simpl
  | ].

Lemma mark_label_suppressed f e label distance w :
  either_revision f ->
  Scanner.debounced (recentMarks (client w)) label (now e) = true ->
  f e label distance w = w.
Proof.
  intros [-> | ->] H;
    unfold Scanner.markAttendanceForLabel,
           Scanner.markAttendanceForLabel_unpatched; by rewrite H.
Qed.

Lemma mark_label_recent f e label distance w :
  either_revision f ->
  Scanner.debounced (recentMarks (client w)) label (now e) = false ->
  recentMarks (client (f e label distance w))
  = Scanner.set_recentMark label (now e) (recentMarks (client w)).
Proof.
  intros [-> | ->] H; mark_label_cases e label distance w; reflexivity.
Qed.

Lemma mark_label_emitted f e label distance w :
  either_revision f ->
  Scanner.debounced (recentMarks (client w)) label (now e) = false ->
  emitted w (f e label distance w).
Proof.
  intros [-> | ->] H; unfold emitted;
    mark_label_cases e label distance w; try (left; by eexists);
    right; by eexists.
Qed.

(** The queue after a call that is not suppressed and finds no student
    id. *)
Lemma mark_label_unresolved f e label distance w :
  either_revision f ->
  Scanner.debounced (recentMarks (client w)) label (now e) = false ->
  truthy (Scanner.resolve (labelToStudentId (client w)) label) = false ->
  let payload :=
    Scanner.mark_payload e
      (Scanner.resolve (labelToStudentId (client w)) label) distance in
  offline_attendance (client (f e label distance w))
  = offline_attendance (client w) ++ [Scanner.unresolved_item label payload]
  /\ sent (f e label distance w) = sent w
  /\ attendance (f e label distance w) = attendance w.
Proof.
  intros [-> | ->] Hdeb Hres;
    unfold Scanner.markAttendanceForLabel,
           Scanner.markAttendanceForLabel_unpatched;
    rewrite Hdeb, Hres; done.
Qed.

(** The queue and the marked set after a call that is not suppressed, finds
    a student id and does not get an ok response. *)
Lemma mark_label_failed f e label distance w (result : FetchResult) t' :
  either_revision f ->
  Scanner.debounced (recentMarks (client w)) label (now e) = false ->
  let studentId := Scanner.resolve (labelToStudentId (client w)) label in
  let payload := Scanner.mark_payload e studentId distance in
  truthy studentId = true ->
  Scanner.fetch_mark mark_endpoint (net e) payload (attendance w)
  = (result, t') ->
  match result with Responded resp => ok resp = false | NetworkError => True end ->
  offline_attendance (client (f e label distance w))
  = offline_attendance (client w) ++ [Scanner.fallback_item studentId payload]
  /\ sessionMarked (client (f e label distance w)) = sessionMarked (client w)
  /\ sent (f e label distance w) = sent w ++ [PostMark payload]
  /\ attendance (f e label distance w) = t'.
Proof.
  intros Hf Hdeb studentId payload Hres Hfetch Hbad.
  destruct Hf as [-> | ->];
    unfold Scanner.markAttendanceForLabel,
           Scanner.markAttendanceForLabel_unpatched;
    rewrite Hdeb; fold studentId; rewrite Hres; simpl; fold payload;
    rewrite Hfetch; destruct result as [|resp]; try rewrite Hbad; done.
Qed.

(** X20. Debounce for every label but [__proto__], in either revision of
    the scanner: take two detection events for one such label, at clock
    readings [t] and [t + δ], the first one passing the debounce test (no
    emission for that label in the 45 s before [t]; [t] itself is a non-zero
    [Date.now()]).  The first call emits (it issues a mark request or queues
    a record) and stores [t] as the label's last emission.  If δ < 45000 ms
    the second call does nothing at all; if δ >= 45000 ms the second call
    emits as well and stores [t + δ]. *)
Theorem debounce_pair (f : CallEnv -> string -> Q -> World -> World)
  (e1 e2 : CallEnv) (label : string) (d1 d2 : Q) (w : World) :
  either_revision f ->
  label <> Scanner.proto_key ->
  now e1 <> 0 ->
  Scanner.debounced (recentMarks (client w)) label (now e1) = false ->
  let w1 := f e1 label d1 w in
  let w2 := f e2 label d2 w1 in
  emitted w w1
  /\ recentMarks (client w1) !! label = Some (now e1)
  /\ (now e2 - now e1 < 45 * 1000 -> w2 = w1)
  /\ (45 * 1000 <= now e2 - now e1 ->
      emitted w1 w2 /\ recentMarks (client w2) !! label = Some (now e2)).
Proof.
  intros Hf Hl Ht Hfirst w1 w2.
  assert (Hrm : recentMarks (client w1)
                = Scanner.set_recentMark label (now e1) (recentMarks (client w)))
    by (by apply mark_label_recent).
  assert (Hdeb2 : Scanner.debounced (recentMarks (client w1)) label (now e2)
                  = (now e2 - now e1 <? 45 * 1000))
    by (rewrite Hrm; by apply debounced_after).
  split; [by apply mark_label_emitted|].
  split; [rewrite Hrm; by apply set_recentMark_lookup|].
  split.
  - intros Hlt. apply mark_label_suppressed; [done|]. rewrite Hdeb2.
    by apply Z.ltb_lt.
  - intros Hge.
    assert (Hacc : Scanner.debounced (recentMarks (client w1)) label (now e2)
                   = false)
      by (rewrite Hdeb2; apply Z.ltb_ge; lia).
    split; [by apply mark_label_emitted|].
    subst w2. rewrite mark_label_recent by done.
    by apply set_recentMark_lookup.
Qed.

(** C8. Unresolvable identity, in either revision of the scanner: a call
    of [markAttendanceForLabel] that passes the debounce test for a label
    with no usable student id (the roll -> id map has no entry for it, or a
    falsy one) puts exactly one record on the offline queue, carrying the
    raw label as [roll_number], [student_id: null] and [synced: false]; it
    issues no request and the server's table is untouched. *)
Theorem unresolved_label_is_queued
  (f : CallEnv -> string -> Q -> World -> World)
  (e : CallEnv) (label : string) (distance : Q) (w : World) :
  either_revision f ->
  Scanner.debounced (recentMarks (client w)) label (now e) = false ->
  truthy (Scanner.resolve (labelToStudentId (client w)) label) = false ->
  let w' := f e label distance w in
  exists item,
    offline_attendance (client w') = offline_attendance (client w) ++ [item]
    /\ roll_number item = JStr label
    /\ student_id item = JNull
    /\ synced item = JBool false
    /\ sent w' = sent w
    /\ attendance w' = attendance w.
Proof.
  intros Hf Hdeb Hres. cbv zeta.
  destruct (mark_label_unresolved f e label distance w Hf Hdeb Hres)
    as (Hq & Hs & Ht).
  eexists. split; [exact Hq|]. repeat split; try done.
  unfold Scanner.unresolved_item, Scanner.mark_payload, js_or.
  cbn [student_id]. by rewrite Hres.
Qed.

(** C3, amended.  In either revision of the scanner, a call of
    [markAttendanceForLabel] that reaches the mark endpoint and gets a 409
    back (as any response whose status is outside 200..299) takes the error
    branch: it puts the record, with the resolved [student_id] and
    [synced: false], on the offline queue, which grows by exactly one, and
    it does not add the student to the session's marked set. *)
Theorem conflict_response_is_queued
  (f : CallEnv -> string -> Q -> World -> World)
  (e : CallEnv) (label : string) (distance : Q) (w : World)
  (resp : Response) (t' : Table) :
  let studentId := Scanner.resolve (labelToStudentId (client w)) label in
  let payload := Scanner.mark_payload e studentId distance in
  either_revision f ->
  Scanner.debounced (recentMarks (client w)) label (now e) = false ->
  truthy studentId = true ->
  Scanner.fetch_mark mark_endpoint (net e) payload (attendance w)
  = (Responded resp, t') ->
  res_status resp = 409 ->
  let w' := f e label distance w in
  let item := Scanner.fallback_item studentId payload in
  offline_attendance (client w') = offline_attendance (client w) ++ [item]
  /\ length (offline_attendance (client w'))
     = Datatypes.S (length (offline_attendance (client w)))
  /\ student_id item = studentId
  /\ synced item = JBool false
  /\ sessionMarked (client w') = sessionMarked (client w).
Proof.
  intros studentId payload Hf Hdeb Hres Hfetch Hst w' item.
  assert (Hok : ok resp = false) by (unfold ok; rewrite Hst; reflexivity).
  destruct (mark_label_failed f e label distance w (Responded resp) t'
              Hf Hdeb Hres Hfetch Hok) as (Hq & Hm & _).
  subst w'. split; [exact Hq|]. split; [rewrite Hq, length_app; simpl; lia|].
  split; [simpl; unfold js_or; by rewrite Hres|].
  split; [reflexivity | exact Hm].
Qed.

(** X21. The cooldown is recorded before the attempt, for every label
    but [__proto__] and in either revision of the scanner: a call of
    [markAttendanceForLabel] that passes the debounce test at a non-zero
    clock reading [t] stores [t] for the label whatever the id resolution
    and the network then do; every later call for that label less than
    45000 ms after [t] leaves the page, the table and the request log
    exactly as they are; and when the first attempt failed (no student id,
    a request that was rejected or whose response was lost, or a response
    that is not ok) its record is on the offline queue and stays the only
    trace of it: detection does not retry it inside the window. *)
Theorem cooldown_recorded_before_attempt
  (f : CallEnv -> string -> Q -> World -> World)
  (e1 : CallEnv) (label : string) (d1 : Q) (w : World) :
  either_revision f ->
  label <> Scanner.proto_key ->
  now e1 <> 0 ->
  Scanner.debounced (recentMarks (client w)) label (now e1) = false ->
  let studentId := Scanner.resolve (labelToStudentId (client w)) label in
  let payload := Scanner.mark_payload e1 studentId d1 in
  let w1 := f e1 label d1 w in
  recentMarks (client w1) !! label = Some (now e1)
  /\ (forall other, other <> label ->
        recentMarks (client w1) !! other = recentMarks (client w) !! other)
  /\ (forall e2 d2, now e2 - now e1 < 45 * 1000 -> f e2 label d2 w1 = w1)
  /\ (truthy studentId = false
      \/ (exists t',
            Scanner.fetch_mark mark_endpoint (net e1) payload (attendance w)
            = (NetworkError, t'))
      \/ (exists resp t',
            Scanner.fetch_mark mark_endpoint (net e1) payload (attendance w)
            = (Responded resp, t') /\ ok resp = false) ->
      exists item,
        offline_attendance (client w1)
        = offline_attendance (client w) ++ [item]
        /\ forall e2 d2, now e2 - now e1 < 45 * 1000 ->
             offline_attendance (client (f e2 label d2 w1))
             = offline_attendance (client w) ++ [item]
             /\ sent (f e2 label d2 w1) = sent w1).
Proof.
  intros Hf Hl Ht Hdeb studentId payload w1.
  assert (Hrm : recentMarks (client w1)
                = Scanner.set_recentMark label (now e1) (recentMarks (client w)))
    by (by apply mark_label_recent).
  assert (Hsup : forall e2 d2, now e2 - now e1 < 45 * 1000 ->
                   f e2 label d2 w1 = w1).
  { intros e2 d2 Hlt. apply mark_label_suppressed; [done|].
    rewrite Hrm, debounced_after by done. by apply Z.ltb_lt. }
  split; [rewrite Hrm; by apply set_recentMark_lookup|].
  split.
  { intros other Hne. rewrite Hrm. unfold Scanner.set_recentMark.
    rewrite bool_decide_eq_false_2 by done. by apply lookup_insert_ne. }
  split; [exact Hsup|].
  intros Hfail.
  assert (Hq : exists item, offline_attendance (client w1)
                            = offline_attendance (client w) ++ [item]).
  { destruct (truthy studentId) eqn:Hres.
    - destruct Hfail as [? | [(t' & Hfetch) | (resp & t' & Hfetch & Hok)]];
        [discriminate | |].
      + eexists.
        by apply (mark_label_failed f e1 label d1 w NetworkError t').
      + eexists.
        by apply (mark_label_failed f e1 label d1 w (Responded resp) t').
    - eexists. by apply mark_label_unresolved. }
  destruct Hq as [item Hq]. exists item. split; [exact Hq|].
  intros e2 d2 Hlt. by rewrite (Hsup e2 d2 Hlt).
Qed.

End PageFacts.

(** Two runs of the debounce on the sample page: a second detection of
    R-001 one second after the first is dropped; a second detection 45 s
    after the first goes through. *)
Lemma debounce_pair_witness :
  let e1 := Sample.at_ms Sample.t0 Sample.online in
  let near := Sample.at_ms (Sample.t0 + 1000) Sample.online in
  let far := Sample.at_ms (Sample.t0 + 45000) Sample.online in
  let w1 := Sample.scan e1 "R-001" (9 # 100) Sample.world0 in
  (emitted Sample.world0 w1
   /\ recentMarks (client w1) !! "R-001" = Some Sample.t0
   /\ Sample.scan near "R-001" (9 # 100) w1 = w1)
  /\ (emitted w1 (Sample.scan far "R-001" (9 # 100) w1)
      /\ recentMarks (client (Sample.scan far "R-001" (9 # 100) w1)) !! "R-001"
         = Some (Sample.t0 + 45000)).
Proof.
  intros e1 near far w1. split.
  - destruct (debounce_pair Sample.StringToNumber Sample.mark Sample.scan
                e1 near "R-001" (9 # 100) (9 # 100) Sample.world0)
      as (H1 & H2 & H3 & _);
      [by left | discriminate | discriminate | reflexivity |].
    split; [exact H1|]. split; [exact H2|]. apply H3. reflexivity.
  - destruct (debounce_pair Sample.StringToNumber Sample.mark Sample.scan
                e1 far "R-001" (9 # 100) (9 # 100) Sample.world0)
      as (_ & _ & _ & H4);
      [by left | discriminate | discriminate | reflexivity |].
    apply H4. discriminate.
Defined.

(** A detection of a roll the page has no id for. *)
Lemma unresolved_label_is_queued_witness :
  let e := Sample.at_ms Sample.t0 Sample.online in
  let w' := Sample.scan e "R-999" (9 # 100) Sample.world0 in
  exists item,
    offline_attendance (client w') = [item]
    /\ roll_number item = JStr "R-999"
    /\ student_id item = JNull
    /\ synced item = JBool false
    /\ sent w' = []
    /\ attendance w' = [].
Proof.
  apply (unresolved_label_is_queued Sample.StringToNumber Sample.mark
           Sample.scan (Sample.at_ms Sample.t0 Sample.online) "R-999"
           (9 # 100) Sample.world0); [by left | reflexivity | reflexivity].
Defined.

(** C3, as stated, fails, in either revision of the scanner.  On the
    sample page R-001 (student 42) is detected at [t0] and marked; it is
    detected again 45 s later, the same day, the server reachable.  The
    mark endpoint answers the second request with 409 [already_marked] and
    inserts nothing, and the scanner puts the record on the offline queue,
    which was empty. *)
Lemma conflict_requeue_counterexample :
  let e1 := Sample.at_ms Sample.t0 Sample.online in
  let e2 := Sample.at_ms (Sample.t0 + 45000) Sample.online in
  let w1 := Sample.scan e1 "R-001" (9 # 100) Sample.world0 in
  let w2 := Sample.scan e2 "R-001" (9 # 100) w1 in
  let payload := Scanner.mark_payload e2 (Sample.num 42) (9 # 100) in
  length (attendance w1) = 1%nat
  /\ offline_attendance (client w1) = []
  /\ Scanner.fetch_mark Sample.mark (net e2) payload (attendance w1)
     = (Responded
          (res_json 409
             (ErrorBody "already_marked"
                (Some "Attendance already marked for this student on this date"))),
        attendance w1)
  /\ attendance w2 = attendance w1
  /\ offline_attendance (client w2)
     = [Scanner.fallback_item (Sample.num 42) payload]
  /\ ~ conflict_leaves_queue Sample.scan Sample.mark
  /\ ~ conflict_leaves_queue Sample.scan_unpatched Sample.mark.
Proof.
  intros e1 e2 w1 w2 payload.
  assert (Hfetch :
            Scanner.fetch_mark Sample.mark (net e2) payload (attendance w1)
            = (Responded
                 (res_json 409
                    (ErrorBody "already_marked"
                       (Some "Attendance already marked for this student on this date"))),
               attendance w1)) by (vm_compute; reflexivity).
  assert (Hq2 : offline_attendance (client w2)
                = [Scanner.fallback_item (Sample.num 42) payload])
    by (vm_compute; reflexivity).
  split; [vm_compute; reflexivity|]. split; [vm_compute; reflexivity|].
  split; [exact Hfetch|]. split; [vm_compute; reflexivity|].
  split; [exact Hq2|]. split.
  - intros Hclaim.
    pose proof (Hclaim e2 "R-001" (9 # 100) w1 _ _ eq_refl eq_refl Hfetch
                  eq_refl) as Hsame.
    fold w2 in Hsame. rewrite Hq2 in Hsame. vm_compute in Hsame.
    discriminate Hsame.
  - intros Hclaim.
    pose proof (Hclaim e2 "R-001" (9 # 100) w1 _ _ eq_refl eq_refl Hfetch
                  eq_refl) as Hsame.
    vm_compute in Hsame. discriminate Hsame.
Qed.

(** The amended statement on the same run: the second, conflicting call
    leaves one record for student 42 on the queue. *)
Lemma conflict_response_is_queued_witness :
  let e1 := Sample.at_ms Sample.t0 Sample.online in
  let e2 := Sample.at_ms (Sample.t0 + 45000) Sample.online in
  let w1 := Sample.scan e1 "R-001" (9 # 100) Sample.world0 in
  let w2 := Sample.scan e2 "R-001" (9 # 100) w1 in
  let item := Scanner.fallback_item (Sample.num 42)
                (Scanner.mark_payload e2 (Sample.num 42) (9 # 100)) in
  offline_attendance (client w2) = offline_attendance (client w1) ++ [item]
  /\ length (offline_attendance (client w2))
     = Datatypes.S (length (offline_attendance (client w1)))
  /\ student_id item = Sample.num 42
  /\ synced item = JBool false
  /\ sessionMarked (client w2) = sessionMarked (client w1).
Proof.
  intros e1 e2 w1 w2 item.
  apply (conflict_response_is_queued Sample.StringToNumber Sample.mark
           Sample.scan e2 "R-001" (9 # 100) w1
           (res_json 409
              (ErrorBody "already_marked"
                 (Some "Attendance already marked for this student on this date")))
           (attendance w1)); [by left | | | |]; vm_compute; reflexivity.
Defined.

(** The cooldown on a failed attempt: the server is unreachable when R-001
    is first detected; the record is queued, the timestamp is stored, and any
    detection in the next 45 s changes nothing. *)
Lemma cooldown_recorded_before_attempt_witness :
  let e1 := Sample.at_ms Sample.t0 Unreachable in
  let w1 := Sample.scan e1 "R-001" (9 # 100) Sample.world0 in
  recentMarks (client w1) !! "R-001" = Some Sample.t0
  /\ (forall e2 d2, now e2 - Sample.t0 < 45 * 1000 ->
        Sample.scan e2 "R-001" d2 w1 = w1)
  /\ exists item,
       offline_attendance (client w1) = [item]
       /\ forall e2 d2, now e2 - Sample.t0 < 45 * 1000 ->
            offline_attendance (client (Sample.scan e2 "R-001" d2 w1)) = [item]
            /\ sent (Sample.scan e2 "R-001" d2 w1) = sent w1.
Proof.
  intros e1 w1.
  destruct (cooldown_recorded_before_attempt Sample.StringToNumber Sample.mark
              Sample.scan e1 "R-001" (9 # 100) Sample.world0)
    as (H1 & _ & H2 & H3); [by left | discriminate | discriminate | reflexivity |].
  split; [exact H1|]. split; [exact H2|].
  apply H3. right. left. by eexists.
Defined.

(** C5, on the label [__proto__].  [recentMarks] is a plain object, and
    [recentMarks['__proto__'] = now] stores nothing.  On the sample page a
    face labelled [__proto__] is detected at [t0] and again one second
    later: no timestamp is stored, the second event is not suppressed, and
    each of the two events puts a record on the offline queue, in either
    revision of the scanner. *)
Theorem proto_label_is_not_debounced :
  let e1 := Sample.at_ms Sample.t0 Sample.online in
  let e2 := Sample.at_ms (Sample.t0 + 1000) Sample.online in
  let w1 := Sample.scan e1 "__proto__" (3 # 32) Sample.world0 in
  let w2 := Sample.scan e2 "__proto__" (3 # 32) w1 in
  let u1 := Sample.scan_unpatched e1 "__proto__" (3 # 32) Sample.world0 in
  let u2 := Sample.scan_unpatched e2 "__proto__" (3 # 32) u1 in
  (recentMarks (client w1) !! "__proto__" = None
   /\ Scanner.debounced (recentMarks (client w1)) "__proto__" (now e2) = false
   /\ length (offline_attendance (client w1)) = 1%nat
   /\ length (offline_attendance (client w2)) = 2%nat)
  /\ (recentMarks (client u1) !! "__proto__" = None
      /\ Scanner.debounced (recentMarks (client u1)) "__proto__" (now e2) = false
      /\ length (offline_attendance (client u1)) = 1%nat
      /\ length (offline_attendance (client u2)) = 2%nat).
Proof. vm_compute. repeat split; reflexivity. Qed.

(** C10, on the label [__proto__].  A student's roll is spelled
    [__proto__] and the server cannot be reached.  The first detection
    fails and is queued, but no cooldown is recorded for the label: the
    detection one second later is attempted again, so that two requests are
    issued and two records queued inside the 45 s window, in either
    revision of the scanner. *)
Theorem proto_label_is_retried_in_cooldown :
  let e1 := Sample.at_ms Sample.t0 Unreachable in
  let e2 := Sample.at_ms (Sample.t0 + 1000) Unreachable in
  let w1 := Sample.scan e1 "__proto__" (3 # 32) Cases.proto_world in
  let w2 := Sample.scan e2 "__proto__" (3 # 32) w1 in
  let u1 := Sample.scan_unpatched e1 "__proto__" (3 # 32) Cases.proto_world in
  let u2 := Sample.scan_unpatched e2 "__proto__" (3 # 32) u1 in
  (recentMarks (client w1) = recentMarks (client Cases.proto_world)
   /\ length (sent w1) = 1%nat
   /\ length (offline_attendance (client w1)) = 1%nat
   /\ length (sent w2) = 2%nat
   /\ length (offline_attendance (client w2)) = 2%nat)
  /\ (recentMarks (client u1) = recentMarks (client Cases.proto_world)
      /\ length (sent u1) = 1%nat
      /\ length (offline_attendance (client u1)) = 1%nat
      /\ length (sent u2) = 2%nat
      /\ length (offline_attendance (client u2)) = 2%nat).
Proof. vm_compute. repeat split; reflexivity. Qed.

(** ** Rounding to a double *)

Section DoubleFacts.

Import Double.

Local Open Scope Q_scope.

Lemma pow2_pos (e : Z) : 0 < pow2 e.
Proof. by apply Qpower_0_lt. Qed.

Lemma pow2_le (a b : Z) : (a <= b)%Z -> pow2 a <= pow2 b.
Proof. intros H. by apply Qpower_le_compat_l. Qed.

Lemma pow2_plus (a b : Z) : pow2 (a + b) == pow2 a * pow2 b.
Proof. by apply Qpower_plus. Qed.

Lemma pow2_nat (e : Z) : (0 <= e)%Z -> pow2 e == inject_Z (2 ^ e).
Proof. intros H. unfold pow2. by rewrite Zpower_Qpower. Qed.

Lemma pow2_half (e : Z) : pow2 (e - 1) == pow2 e * (1 # 2).
Proof.
  replace (e - 1)%Z with (e + -1)%Z by lia. rewrite pow2_plus. reflexivity.
Qed.

(** The binade lies at or below the number. *)
Lemma binade_le (x : Q) : 0 < x -> pow2 (binade x) <= x.
Proof.
  intros Hx. unfold binade. destruct (Qle_bool 1 x) eqn:E.
  - apply Qle_bool_iff in E.
    assert (Hf : (1 <= Qfloor x)%Z)
      by (apply (Qfloor_resp_le 1 x) in E; exact E).
    rewrite pow2_nat by apply Z.log2_nonneg.
    apply Qle_trans with (inject_Z (Qfloor x)); [|apply Qfloor_le].
    rewrite <- Zle_Qle. apply Z.log2_spec. lia.
  - assert (Hlt : x < 1).
    { apply Qnot_le_lt. intros H. apply Qle_bool_iff in H. congruence. }
    set (c := Qceiling (/ x)).
    assert (Hinv : / x <= inject_Z c) by apply Qle_ceiling.
    assert (Hc : (1 < c)%Z).
    { assert (H1 : 1 < / x) by (apply Qlt_shift_inv_l; [done|]; lra).
      rewrite Zlt_Qlt. change (inject_Z 1) with 1. lra. }
    pose proof (Z.log2_up_spec c Hc) as [_ Hup].
    assert (Hk : (0 <= Z.log2_up c)%Z) by apply Z.log2_up_nonneg.
    unfold pow2. rewrite Qpower_opp. fold (pow2 (Z.log2_up c)).
    rewrite pow2_nat by done.
    assert (Hp : inject_Z c <= inject_Z (2 ^ Z.log2_up c))
      by (by rewrite <- Zle_Qle).
    assert (Hpos : 0 < inject_Z (2 ^ Z.log2_up c)).
    { change 0 with (inject_Z 0). rewrite <- Zlt_Qlt. lia. }
    apply Qle_shift_inv_r; [done|].
    assert (Hx1 : / x * x == 1) by (field; lra).
    assert (/ x * x <= inject_Z (2 ^ Z.log2_up c) * x).
    { apply Qmult_le_compat_r; [|lra]. lra. }
    lra.
Qed.

Lemma binade_bound (x : Q) (k : Z) :
  0 < x -> x < pow2 (k + 1) -> (binade x <= k)%Z.
Proof.
  intros Hx Hlt. pose proof (binade_le x Hx) as Hle.
  assert (H : pow2 (binade x) < pow2 (k + 1)) by lra.
  apply Qpower_lt_compat_l_inv in H; [lia | done].
Qed.


(** ... and the number lies below the next binade. *)
Lemma binade_lt (x : Q) : 0 < x -> x < pow2 (binade x + 1).
Proof.
  intros Hx. unfold binade. destruct (Qle_bool 1 x) eqn:E.
  - apply Qle_bool_iff in E.
    assert (Hf : (1 <= Qfloor x)%Z)
      by (apply (Qfloor_resp_le 1 x) in E; exact E).
    rewrite pow2_nat by (pose proof (Z.log2_nonneg (Qfloor x)); lia).
    apply Qlt_le_trans with (inject_Z (Qfloor x + 1)); [apply Qlt_floor|].
    rewrite <- Zle_Qle.
    destruct (Z.log2_spec (Qfloor x)) as [_ H]; [lia|].
    rewrite <- Z.add_1_r in H. lia.
  - assert (Hlt : x < 1).
    { apply Qnot_le_lt. intros H. apply Qle_bool_iff in H. congruence. }
    set (c := Qceiling (/ x)).
    assert (Hinv : / x <= inject_Z c) by apply Qle_ceiling.
    assert (Hc : (1 < c)%Z).
    { assert (H1 : 1 < / x) by (apply Qlt_shift_inv_l; [done|]; lra).
      rewrite Zlt_Qlt. change (inject_Z 1) with 1. lra. }
    pose proof (Z.log2_up_spec c Hc) as [Hlow _].
    assert (Hk : (0 < Z.log2_up c)%Z) by (apply Z.log2_up_pos; lia).
    replace (- Z.log2_up c + 1)%Z with (- (Z.log2_up c - 1))%Z by lia.
    unfold pow2. rewrite Qpower_opp. fold (pow2 (Z.log2_up c - 1)).
    rewrite pow2_nat by lia.
    assert (Hp : inject_Z (2 ^ (Z.log2_up c - 1)) < / x).
    { apply Qle_lt_trans with (inject_Z (c - 1)); [|apply Qceiling_lt].
      rewrite <- Zle_Qle. rewrite <- Z.sub_1_r in Hlow. lia. }
    assert (Hpos : 0 < inject_Z (2 ^ (Z.log2_up c - 1))).
    { change 0 with (inject_Z 0). rewrite <- Zlt_Qlt. lia. }
    apply Qlt_shift_inv_l; [done|].
    assert (Hx1 : / x * x == 1) by (field; lra).
    assert (inject_Z (2 ^ (Z.log2_up c - 1)) * x < / x * x)
      by (apply Qmult_lt_compat_r; done).
    lra.
Qed.

(** Rounding to an integer moves by at most 1/2 and crosses no integer. *)
Lemma round_even_error (y : Q) : Qabs (inject_Z (round_even y) - y) <= 1 # 2.
Proof.
  unfold round_even.
  pose proof (Qfloor_le y) as H1. pose proof (Qlt_floor y) as H2.
  rewrite inject_Z_plus in H2. change (inject_Z 1) with 1 in H2.
  apply Qabs_Qle_condition.
  destruct (Qcompare_spec (y - inject_Z (Qfloor y)) (1 # 2)) as [He|Hl|Hg].
  - destruct (Z.even (Qfloor y));
      [|rewrite inject_Z_plus; change (inject_Z 1) with 1]; split; lra.
  - split; lra.
  - rewrite inject_Z_plus. change (inject_Z 1) with 1. split; lra.
Qed.

Lemma round_even_le (y : Q) (N : Z) :
  y <= inject_Z N -> (round_even y <= N)%Z.
Proof.
  intros Hy. unfold round_even.
  pose proof (Qfloor_le y) as H1.
  assert (Hf : (Qfloor y <= N)%Z).
  { apply Qfloor_resp_le in Hy. by rewrite Qfloor_Z in Hy. }
  assert (Hstep : (Qfloor y = N)%Z -> y - inject_Z (Qfloor y) <= 0).
  { intros ->. lra. }
  destruct (Qcompare_spec (y - inject_Z (Qfloor y)) (1 # 2)) as [He|Hl|Hg].
  - destruct (Z.even (Qfloor y)); [done|].
    destruct (Z.eq_dec (Qfloor y) N) as [Heq|]; [|lia].
    specialize (Hstep Heq). lra.
  - done.
  - destruct (Z.eq_dec (Qfloor y) N) as [Heq|]; [|lia].
    specialize (Hstep Heq). lra.
Qed.

Lemma round_even_nonneg (y : Q) : 0 <= y -> (0 <= round_even y)%Z.
Proof.
  intros Hy. unfold round_even.
  assert (Hf : (0 <= Qfloor y)%Z)
    by (apply (Qfloor_resp_le 0 y) in Hy; exact Hy).
  destruct (Qcompare (y - inject_Z (Qfloor y)) (1 # 2));
    [destruct (Z.even (Qfloor y))| |]; lia.
Qed.

(** The spacing around a positive number below [2^(k+1)] is at most
    [2^(k-52)]. *)
Lemma ulp_bound (x : Q) (k : Z) :
  0 < x -> x < pow2 (k + 1) -> (-1022 <= k)%Z -> ulp x <= pow2 (k - 52).
Proof.
  intros Hx Hlt Hk. unfold ulp. apply pow2_le.
  pose proof (binade_bound x k Hx Hlt). lia.
Qed.

Lemma round_pos_error (x : Q) :
  0 < x -> Qabs (round_pos x - x) <= ulp x * (1 # 2).
Proof.
  intros Hx. unfold round_pos.
  pose proof (pow2_pos (Z.max (binade x) (-1022) - 52)) as Hu.
  fold (ulp x) in Hu.
  pose proof (round_even_error (x / ulp x)) as He.
  apply Qabs_Qle_condition in He as [He1 He2].
  assert (Hxu : x / ulp x * ulp x == x) by (field; lra).
  set (n := inject_Z (round_even (x / ulp x))) in *.
  assert (H1 : (n - x / ulp x) * ulp x <= (1 # 2) * ulp x)
    by (apply Qmult_le_compat_r; lra).
  assert (H2 : - (1 # 2) * ulp x <= (n - x / ulp x) * ulp x)
    by (apply Qmult_le_compat_r; lra).
  apply Qabs_Qle_condition. split; lra.
Qed.

Lemma round_zero : round 0 = 0.
Proof. reflexivity. Qed.

Lemma round_of_pos (x : Q) : 0 < x -> round x = round_pos x.
Proof.
  intros Hx. unfold round.
  destruct (Qcompare_spec 0 x) as [He|Hl|Hg]; [lra | done | lra].
Qed.

(** Rounding a number of [[0, 2^(k+1))] to a double moves it by at most
    [2^(k-53)]. *)
Lemma round_error (x : Q) (k : Z) :
  0 <= x -> x < pow2 (k + 1) -> (-1022 <= k)%Z ->
  Qabs (round x - x) <= pow2 (k - 53).
Proof.
  intros Hx Hlt Hk.
  pose proof (pow2_pos (k - 53)) as Hp.
  destruct (Qlt_le_dec 0 x) as [Hpos|Hzero].
  - rewrite round_of_pos by done.
    pose proof (round_pos_error x Hpos) as He.
    pose proof (ulp_bound x k Hpos Hlt Hk) as Hu.
    replace (k - 53)%Z with (k - 52 - 1)%Z by lia.
    rewrite pow2_half. lra.
  - assert (Hx0 : x == 0) by lra.
    assert (Hr : round x = 0).
    { unfold round. destruct (Qcompare_spec 0 x) as [He|Hl|Hg]; [done|lra|lra]. }
    rewrite Hr. apply Qabs_Qle_condition. split; lra.
Qed.

Lemma round_nonneg (x : Q) : 0 <= x -> 0 <= round x.
Proof.
  intros Hx. destruct (Qlt_le_dec 0 x) as [Hpos|Hzero].
  - rewrite round_of_pos by done. unfold round_pos.
    pose proof (pow2_pos (Z.max (binade x) (-1022) - 52)) as Hu.
    fold (ulp x) in Hu.
    assert (0 <= x / ulp x).
    { apply Qle_shift_div_l; [done|]. lra. }
    assert (Hn : 0 <= inject_Z (round_even (x / ulp x))).
    { change 0 with (inject_Z 0). rewrite <- Zle_Qle.
      by apply round_even_nonneg. }
    apply Qmult_le_0_compat; lra.
  - unfold round. destruct (Qcompare_spec 0 x) as [He|Hl|Hg]; [lra|lra|lra].
Qed.

(** Rounding does not cross an integer below [2^53]: every such integer is
    a double. *)
Lemma round_le_integer (x : Q) (z : Z) :
  0 <= x -> x <= inject_Z z -> x < pow2 53 -> round x <= inject_Z z.
Proof.
  intros Hx Hz Hlt. destruct (Qlt_le_dec 0 x) as [Hpos|Hzero].
  - rewrite round_of_pos by done. unfold round_pos.
    pose proof (binade_bound x 52 Hpos Hlt) as Hb.
    set (j := (52 - Z.max (binade x) (-1022))%Z).
    assert (Hj : (0 <= j)%Z) by lia.
    assert (Hu : ulp x * pow2 j == 1).
    { unfold ulp. rewrite <- pow2_plus.
      replace (Z.max (binade x) (-1022) - 52 + j)%Z with 0%Z by lia.
      reflexivity. }
    pose proof (pow2_pos (Z.max (binade x) (-1022) - 52)) as Hup.
    fold (ulp x) in Hup.
    assert (Hinv : / ulp x == pow2 j).
    { apply (Qmult_inj_l _ _ (ulp x)); [lra|]. rewrite Hu. field. lra. }
    assert (Hq : x / ulp x <= inject_Z (z * 2 ^ j)).
    { rewrite inject_Z_mult, <- pow2_nat by done.
      unfold Qdiv. rewrite Hinv. apply Qmult_le_compat_r; [done|].
      pose proof (pow2_pos j). lra. }
    apply round_even_le in Hq. rewrite Zle_Qle in Hq.
    rewrite inject_Z_mult, <- pow2_nat in Hq by done.
    assert (Hm : inject_Z (round_even (x / ulp x)) * ulp x
                 <= inject_Z z * pow2 j * ulp x)
      by (apply Qmult_le_compat_r; lra).
    assert (Hs : inject_Z z * pow2 j * ulp x == inject_Z z).
    { rewrite <- Qmult_assoc, (Qmult_comm (pow2 j)), Hu. ring. }
    lra.
  - assert (Hr : round x = 0).
    { unfold round. destruct (Qcompare_spec 0 x) as [He|Hl|Hg]; [done|lra|lra]. }
    rewrite Hr. lra.
Qed.

End DoubleFacts.

(** The model agrees with binary64 arithmetic where a rounding error decides
    the digit: at distance 8998192055486251 / 2^54 the difference rounds up
    to 1/2 + 2^-53 (the confidence would be 0.501 on the exact difference)
    and at 7214766603047535 / 2^55 the product rounds up to a tie. *)
Example confidence_rounds_as_doubles :
  (Confidence.label_confidence (8998192055486251 # 18014398509481984)
   == 1 # 2)%Q
  /\ (Confidence.loop_confidence (7214766603047535 # 36028797018963968)
      == Double.round (7998 # 100))%Q.
Proof. vm_compute. split; reflexivity. Qed.

(** ** Confidence *)

Section ConfidenceFacts.

Import Confidence.

Local Open Scope Q_scope.

Lemma floor_half_bounds (y : Q) :
  inject_Z (Qfloor (y + (1 # 2))) - (1 # 2) <= y
  /\ y < inject_Z (Qfloor (y + (1 # 2))) + (1 # 2).
Proof.
  pose proof (Qfloor_le (y + (1 # 2))) as H1.
  pose proof (Qlt_floor (y + (1 # 2))) as H2.
  rewrite inject_Z_plus in H2. change (inject_Z 1) with 1 in H2.
  split; lra.
Qed.

Lemma Qmake_scale (n : Z) (p : positive) : n # p == inject_Z n * (1 # p).
Proof. unfold Qeq, inject_Z, Qmult. simpl. lia. Qed.

(** The number a record carries for a rational is that rational. *)
Lemma Q2Qc_value (q : Q) : this (Q2Qc q) == q.
Proof. simpl. apply Qred_correct. Qed.

Lemma toFixed3_unit_interval (x : Q) :
  0 <= x <= 1 -> toFixed3 x = Qfloor (x * 1000 + (1 # 2)) # 1000.
Proof.
  intros [Hx0 Hx1]. unfold toFixed3.
  destruct (Qle_bool (10 ^ 21) (Qabs x)) eqn:Ebig.
  - exfalso. apply Qle_bool_iff in Ebig. rewrite Qabs_pos in Ebig by done.
    assert (H : 1 < 10 ^ 21) by reflexivity. lra.
  - destruct (Qle_bool 0 x) eqn:E; [done|].
    apply Qle_bool_iff in Hx0. congruence.
Qed.

(** The number of thousandths [toFixed(3)] writes for a number of [0,1]. *)
Lemma thousandths (x : Q) :
  0 <= x <= 1 ->
  let n := Qfloor (x * 1000 + (1 # 2)) in
  (0 <= n <= 1000)%Z /\ Qabs ((n # 1000) - x) <= 1 # 2000.
Proof.
  intros [Hx0 Hx1] n.
  destruct (floor_half_bounds (x * 1000)) as [H1 H2]. fold n in H1, H2.
  assert (Hn0 : (0 <= n)%Z)
    by (apply (Qfloor_resp_le 0 (x * 1000 + (1 # 2))); lra).
  assert (Hn1 : (n <= 1000)%Z)
    by (apply (Qfloor_resp_le (x * 1000 + (1 # 2)) (1000 + (1 # 2))); lra).
  split; [done|]. rewrite (Qmake_scale n 1000).
  apply Qabs_Qle_condition. split; lra.
Qed.

(** The number of hundredths [Math.round] gives for a number of
    [0, 10000]. *)
Lemma hundredths (y : Q) :
  0 <= y <= 10000 ->
  (0 <= Math_round y <= 10000)%Z
  /\ Qabs ((Math_round y # 100) - y * (1 # 100)) <= 1 # 200.
Proof.
  intros [Hy0 Hy1]. unfold Math_round.
  destruct (floor_half_bounds y) as [H1 H2].
  assert (Hn0 : (0 <= Qfloor (y + (1 # 2)))%Z)
    by (apply (Qfloor_resp_le 0 (y + (1 # 2))); lra).
  assert (Hn1 : (Qfloor (y + (1 # 2)) <= 10000)%Z)
    by (apply (Qfloor_resp_le (y + (1 # 2)) (10000 + (1 # 2))); lra).
  split; [done|]. rewrite (Qmake_scale (Qfloor (y + (1 # 2))) 100).
  apply Qabs_Qle_condition. split; lra.
Qed.

(** A fraction [n/p] with [0 <= n <= z * p]. *)
Lemma Qmake_bounds (n z : Z) (p : positive) :
  (0 <= n <= z * Z.pos p)%Z -> 0 <= n # p <= inject_Z z.
Proof.
  intros [H0 H1]. unfold Qle, inject_Z. simpl. split; lia.
Qed.

(** The double for a number of [0,1] lies in [0,1], within [2^-53] of it. *)
Lemma round_unit (x : Q) :
  0 <= x <= 1 ->
  0 <= Double.round x <= 1 /\ Qabs (Double.round x - x) <= Double.pow2 (-53).
Proof.
  intros [Hx0 Hx1].
  assert (H53 : 1 < Double.pow2 53) by reflexivity.
  assert (H1 : 1 < Double.pow2 (0 + 1)) by reflexivity.
  split; [split|].
  - by apply round_nonneg.
  - apply (round_le_integer x 1); [done | done | lra].
  - apply (round_error x 0); [done | lra | lia].
Qed.

(** What [markAttendanceForLabel] computes for a distance of [0,1]. *)
Lemma label_confidence_bounds (d : Q) :
  0 <= d <= 1 ->
  0 <= label_confidence d <= 1
  /\ Qabs (label_confidence d - (1 - d)) <= (1 # 2000) + Double.pow2 (-52)
  /\ exists n : Z, (0 <= n <= 1000)%Z
                   /\ label_confidence d = Double.round (n # 1000).
Proof.
  intros [Hd0 Hd1]. unfold label_confidence.
  destruct (round_unit (1 - d)) as [Ha He]; [split; lra|].
  set (a := Double.round (1 - d)) in *.
  rewrite (toFixed3_unit_interval a Ha).
  destruct (thousandths a Ha) as [Hn Ht].
  set (n := Qfloor (a * 1000 + (1 # 2))) in *.
  destruct (round_unit (n # 1000)) as [Hc Hce];
    [apply (Qmake_bounds n 1 1000); lia|].
  assert (E : Double.pow2 (-52) == Double.pow2 (-53) + Double.pow2 (-53))
    by reflexivity.
  apply Qabs_Qle_condition in He as [He1 He2].
  apply Qabs_Qle_condition in Ht as [Ht1 Ht2].
  apply Qabs_Qle_condition in Hce as [Hc1 Hc2].
  split; [done|]. split; [|by exists n].
  apply Qabs_Qle_condition. split; lra.
Qed.

(** What the detection loop computes for a distance of [0,1]. *)
Lemma loop_confidence_bounds (d : Q) :
  0 <= d <= 1 ->
  loop_overflows d = false
  /\ 0 <= loop_confidence d <= 100
  /\ Qabs (loop_confidence d - 100 * (1 - d)) <= (1 # 200) + Double.pow2 (-40)
  /\ exists m : Z, (0 <= m <= 10000)%Z
                   /\ loop_confidence d = Double.round (m # 100).
Proof.
  intros [Hd0 Hd1]. unfold loop_confidence, loop_overflows.
  destruct (round_unit (1 - d)) as [[Ha0 Ha1] He]; [split; lra|].
  set (a := Double.round (1 - d)) in *.
  assert (Hy : 0 <= a * 10000 <= 10000) by (split; lra).
  assert (H53 : 10000 < Double.pow2 53) by reflexivity.
  assert (H14 : 10000 < Double.pow2 (13 + 1)) by reflexivity.
  assert (H7 : 100 < Double.pow2 (6 + 1)) by reflexivity.
  assert (Hb0 : 0 <= Double.round (a * 10000)) by (apply round_nonneg; lra).
  assert (Hb1 : Double.round (a * 10000) <= 10000)
    by (apply (round_le_integer (a * 10000) 10000);
        [lra | exact (proj2 Hy) | lra]).
  assert (Hbe : Qabs (Double.round (a * 10000) - a * 10000)
                <= Double.pow2 (13 - 53))
    by (apply (round_error (a * 10000) 13); [lra | lra | lia]).
  set (b := Double.round (a * 10000)) in *.
  destruct (hundredths b) as [Hm Hme]; [split; lra|].
  set (m := Math_round b) in *.
  destruct (Qmake_bounds m 100 100) as [Hq0 Hq1]; [lia|].
  change (inject_Z 100) with 100 in Hq1.
  assert (Hc0 : 0 <= Double.round (m # 100)) by (by apply round_nonneg).
  assert (Hc1 : Double.round (m # 100) <= 100)
    by (apply (round_le_integer (m # 100) 100); [lra | exact Hq1 | lra]).
  assert (Hce : Qabs (Double.round (m # 100) - (m # 100))
                <= Double.pow2 (6 - 53))
    by (apply (round_error (m # 100) 6); [lra | lra | lia]).
  assert (E53 : Double.pow2 (-53) == 1 # 9007199254740992) by reflexivity.
  assert (E47 : Double.pow2 (6 - 53) == 1 # 140737488355328) by reflexivity.
  assert (E40 : Double.pow2 (13 - 53) == 1 # 1099511627776) by reflexivity.
  assert (E40' : Double.pow2 (-40) == 1 # 1099511627776) by reflexivity.
  apply Qabs_Qle_condition in He as [He1 He2].
  apply Qabs_Qle_condition in Hbe as [Hbe1 Hbe2].
  apply Qabs_Qle_condition in Hme as [Hme1 Hme2].
  apply Qabs_Qle_condition in Hce as [Hce1 Hce2].
  split.
  { unfold Double.overflows.
    destruct (Qle_bool (Double.pow2 1024 - Double.pow2 970)
                       (Qabs (a * 10000))) eqn:E; [|done].
    exfalso. apply Qle_bool_iff in E.
    rewrite Qabs_pos in E by lra.
    assert (Hbig : 10000 < Double.pow2 1024 - Double.pow2 970)
      by (vm_compute; reflexivity).
    lra. }
  split; [done|]. split; [|by exists m].
  apply Qabs_Qle_condition. split; lra.
Qed.

(** C9, as stated, fails on both face-match paths.  For a match at distance
    1/4 the detection loop writes the percentage 75, which is neither
    [1 - 1/4] nor in [0,1]; for a match at distance 1/16
    [markAttendanceForLabel] writes 0.938 (the double nearest to it), the
    rounding of 0.9375 to three decimals. *)
Lemma confidence_counterexample :
  loop_confidence (1 # 4) == 75
  /\ label_confidence (1 # 16) == Double.round (938 # 1000)
  /\ ~ label_confidence (1 # 16) == 1 - (1 # 16)
  /\ ~ confidence_is_complement loop_confidence
  /\ ~ confidence_is_complement label_confidence.
Proof.
  split; [vm_compute; reflexivity|]. split; [vm_compute; reflexivity|].
  split; [vm_compute; discriminate|]. split.
  - intros H. destruct (H (1 # 4)) as [_ [_ Hle]]; [split; discriminate|].
    vm_compute in Hle. by apply Hle.
  - intros H. destruct (H (1 # 16)) as [Heq _]; [split; discriminate|].
    vm_compute in Heq. discriminate Heq.
Qed.

(** C9, amended.  For a match at distance [d] in [0,1]:
    [markAttendanceForLabel] writes as confidence the double nearest to
    [n/1000], [n] the number of thousandths nearest to [1 - d] as a double:
    a number in [0,1] within 0.0005 + 2^-52 of [1 - d].  The batching
    detection loop writes the double nearest to [m/100], [m] the number of
    hundredths of a percent nearest to [10000 * (1 - d)] as a double: a
    percentage in [0,100] within 0.005 + 2^-40 of [100 * (1 - d)].  The
    records of manual marking (the submit button and
    [markAttendanceLocally]) carry [confidence: null]. *)
Theorem confidence_of_records
  (StringToNumber : string -> option Qc) (e : CallEnv) (d : Q)
  (studentId : jsval) (l : string) (id : option Qc) (sid st : jsval) :
  0 <= d <= 1 ->
  (confidence (Scanner.mark_payload e studentId d)
   = JNum (Q2Qc (label_confidence d))
   /\ 0 <= label_confidence d <= 1
   /\ Qabs (label_confidence d - (1 - d)) <= (1 # 2000) + Double.pow2 (-52)
   /\ exists n : Z, (0 <= n <= 1000)%Z
                    /\ label_confidence d = Double.round (n # 1000))
  /\ (confidence (BatchScanner.loop_record StringToNumber e (mkMatch l d))
      = JNum (Q2Qc (loop_confidence d))
      /\ 0 <= loop_confidence d <= 100
      /\ Qabs (loop_confidence d - 100 * (1 - d))
         <= (1 # 200) + Double.pow2 (-40)
      /\ exists m : Z, (0 <= m <= 10000)%Z
                       /\ loop_confidence d = Double.round (m # 100))
  /\ confidence (ManualSession.submit_record e id) = JNull
  /\ confidence (BatchScanner.manual_record e sid st) = JNull.
Proof.
  intros Hd.
  destruct (label_confidence_bounds d Hd) as (Hb & Ha & Hn).
  destruct (loop_confidence_bounds d Hd) as (Hfin & Hb' & Ha' & Hm).
  split; [split; [reflexivity|]; split; [exact Hb|]; split; [exact Ha | exact Hn]|].
  split; [|split; reflexivity].
  split; [|split; [exact Hb'|]; split; [exact Ha' | exact Hm]].
  unfold BatchScanner.loop_record, BatchScanner.confidence_of_match.
  cbn [confidence distance]. by rewrite Hfin.
Qed.

(** The amended statement at distance 3/32 = 0.09375: the difference is
    0.90625; [markAttendanceForLabel] writes 0.906 and the detection loop
    90.63 (the doubles nearest to them). *)
Lemma confidence_of_records_witness :
  (confidence (Scanner.mark_payload
                 (Sample.at_ms Sample.t0 Sample.online) (Sample.num 42)
                 (3 # 32))
   = JNum (Q2Qc (Double.round (906 # 1000)))
   /\ 0 <= label_confidence (3 # 32) <= 1)
  /\ (confidence (BatchScanner.loop_record Sample.StringToNumber
                    (Sample.at_ms Sample.t0 Sample.online)
                    (mkMatch "42" (3 # 32)))
      = JNum (Q2Qc (Double.round (9063 # 100)))
      /\ 0 <= loop_confidence (3 # 32) <= 100).
Proof.
  destruct (confidence_of_records Sample.StringToNumber
              (Sample.at_ms Sample.t0 Sample.online) (3 # 32)
              (Sample.num 42) "42" None JNull JUndefined)
    as ((H1 & H2 & _) & (H3 & H4 & _) & _); [split; discriminate|].
  split; split; [|exact H2| |exact H4].
  - rewrite H1. reflexivity.
  - rewrite H3. reflexivity.
Defined.

End ConfidenceFacts.

(** ** The offline round trip *)

#[global] Instance fakeDB_laws : SrmDBLaws (list AttRecord).
Proof.
  split; [done | done |].
  intros clock r s s' H. simpl in *. inversion H; subst.
  rewrite length_app. simpl. lia.
Qed.

Lemma insert_sorted_length (r : AttRecord) (s : IndexedDB.Store) :
  length (IndexedDB.insert_sorted r s) = Datatypes.S (length s).
Proof.
  induction s as [|x s IH]; simpl; [done|].
  destruct (IndexedDB.key_ltb (timestamp r) (timestamp x)); simpl; [done|].
  by rewrite IH.
Qed.

Lemma indexedDB_laws : @SrmDBLaws IndexedDB.Store indexedDB.
Proof.
  split; [done | done |].
  intros clock r s s' H. simpl in *. unfold IndexedDB.dbAdd in H.
  destruct (negb _); [discriminate|].
  destruct (bool_decide _); [discriminate|].
  inversion H; subst. apply insert_sorted_length.
Qed.

Lemma enqueue_all_queue (items : list AttRecord) (c : Client) :
  offline_attendance (enqueue_all items c) = offline_attendance c ++ items.
Proof.
  revert c. induction items as [|r items IH]; intros c; simpl.
  - by rewrite app_nil_r.
  - unfold enqueue_all in *. simpl. rewrite IH. simpl. by rewrite <- app_assoc.
Qed.

Section RoundTrip.

Context {S : Type} {DB : SrmDB S} {Laws : SrmDBLaws S}.

Lemma srm_enqueue_length (adds : list (string * AttRecord)) (s s' : S) :
  srm_enqueue adds s = Some s' ->
  length (db_getAll s') = (length (db_getAll s) + length adds)%nat.
Proof.
  revert s. induction adds as [|[clock r] adds IH]; intros s H; simpl in *.
  - inversion H; subst. lia.
  - destruct (db_add clock r s) as [s1|] eqn:E; [|discriminate].
    rewrite (IH s1 H), (getAll_add clock r s s1 E). lia.
Qed.

(** On a body [{ records: l }] with [l] not empty and an [INSERT] that does
    not throw, either revision of the sync handler appends one row per
    record and answers 200. *)
Lemma either_sync_inserts_all
  (sync : ServerEnv -> Backend.SyncBody -> Table -> Response * Table)
  (senv : ServerEnv) (l : list AttRecord) (t : Table) :
  sync = Backend.attendance_sync \/ sync = MinimalBackend.attendance_sync ->
  l <> [] -> insert_throws senv = false ->
  sync senv (Backend.BodyObject (Backend.IsArray l)) t
  = (res_json 200 (SyncSuccess (length l)),
     t ++ map (Backend.sync_row senv) l).
Proof.
  intros [-> | ->] Hl Hins.
  - by apply sync_inserts_all.
  - by apply minimal_sync_inserts_all.
Qed.

(** C7. Offline round trip: N records are put on the offline queue
    (by [queueAttendance] on the [localStorage] queue, empty before; by
    [srmDB.add] on a queue behind [window.srmDB], empty before, every [add]
    accepted); a flush is then triggered ([syncOfflineQueue], the sync
    button) with the server reachable and its bulk [INSERT] succeeding, on
    either revision of the back end.  Afterwards the attendance table is the
    old one followed by N new rows, one per queued record, and the local
    queue is empty.  (The pairs of the queued records need not even be
    distinct.) *)
Theorem offline_round_trip
  (sync : ServerEnv -> Backend.SyncBody -> Table -> Response * Table)
  (items : list AttRecord) (c : Client) (adds : list (string * AttRecord))
  (s1 : S) (t : Table) (log : list Request) (e : CallEnv) (senv : ServerEnv) :
  sync = Backend.attendance_sync \/ sync = MinimalBackend.attendance_sync ->
  offline_attendance c = [] ->
  srm_enqueue adds (db_empty : S) = Some s1 ->
  net e = Reachable senv ->
  insert_throws senv = false ->
  (let w1 := mkWorld (enqueue_all items c) t log in
   let w2 := snd (Scanner.syncOfflineQueue sync e w1) in
   offline_attendance (client w1) = items
   /\ attendance w2 = t ++ map (Backend.sync_row senv) items
   /\ length (attendance w2) = (length t + length items)%nat
   /\ offline_attendance (client w2) = [])
  /\ (let b1 := BatchScanner.mkBatchWorld s1 t log in
      let b2 := BatchScanner.syncBtn_click sync e b1 in
      length (db_getAll s1) = length adds
      /\ BatchScanner.b_attendance b2
         = t ++ map (Backend.sync_row senv) (db_getAll s1)
      /\ length (BatchScanner.b_attendance b2) = (length t + length adds)%nat
      /\ db_getAll (BatchScanner.queue b2) = []).
Proof.
  intros Hsync Hc Hadds Hnet Hins. split.
  - cbv zeta.
    assert (Hq : offline_attendance (enqueue_all items c) = items)
      by (by rewrite enqueue_all_queue, Hc).
    split; [exact Hq|].
    unfold Scanner.syncOfflineQueue. cbn [client attendance sent].
    rewrite Hq. destruct items as [|r items].
    + simpl. rewrite app_nil_r. repeat split; [lia | exact Hq].
    + cbn [length Nat.eqb]. unfold Scanner.fetch_sync. rewrite Hnet.
      rewrite (either_sync_inserts_all sync senv (r :: items) t Hsync)
        by done.
      cbn [ok res_json res_status]. simpl.
      repeat split. rewrite length_app. simpl. rewrite length_map. lia.
  - cbv zeta.
    pose proof (srm_enqueue_length adds db_empty s1 Hadds) as Hlen.
    rewrite getAll_empty in Hlen. simpl in Hlen.
    split; [exact Hlen|].
    unfold BatchScanner.syncBtn_click.
    cbn [BatchScanner.queue BatchScanner.b_attendance BatchScanner.b_sent].
    destruct (db_getAll s1) as [|r l] eqn:Hg.
    + simpl. rewrite app_nil_r. simpl in Hlen.
      repeat split; [lia | exact Hg].
    + cbn [length Nat.eqb]. unfold Scanner.fetch_sync. rewrite Hnet.
      rewrite (either_sync_inserts_all sync senv (r :: l) t Hsync) by done.
      simpl. repeat split.
      * rewrite length_app. simpl in *. rewrite length_map. lia.
      * apply getAll_clear.
Qed.

End RoundTrip.

(** A run of the round trip against the robust back end: two records
    queued offline, in [localStorage] and in the IndexedDB queue; after the
    flush the table holds two rows and both queues are empty. *)
Lemma offline_round_trip_witness :
  let e := Sample.at_ms (Sample.t0 + 60000) Sample.online in
  let items := [Sample.queued_42; Sample.queued_43] in
  let w1 := mkWorld (enqueue_all items Sample.page0) [] [] in
  let w2 := snd (Scanner.syncOfflineQueue Backend.attendance_sync e w1) in
  let b1 := BatchScanner.mkBatchWorld (S := IndexedDB.Store) items [] [] in
  let b2 := BatchScanner.syncBtn_click (DB := indexedDB)
              Backend.attendance_sync e b1 in
  (offline_attendance (client w1) = items
   /\ attendance w2 = map (Backend.sync_row Sample.day1) items
   /\ length (attendance w2) = 2%nat
   /\ offline_attendance (client w2) = [])
  /\ (length (IndexedDB.dbGetAll items) = 2%nat
      /\ BatchScanner.b_attendance b2
         = map (Backend.sync_row Sample.day1) items
      /\ length (BatchScanner.b_attendance b2) = 2%nat
      /\ IndexedDB.dbGetAll (BatchScanner.queue b2) = []).
Proof.
  exact (@offline_round_trip IndexedDB.Store indexedDB indexedDB_laws
           Backend.attendance_sync
           [Sample.queued_42; Sample.queued_43] Sample.page0
           [("2024-03-01T09:00:00.000Z", Sample.queued_42);
            ("2024-03-01T09:00:01.000Z", Sample.queued_43)]
           [Sample.queued_42; Sample.queued_43] [] []
           (Sample.at_ms (Sample.t0 + 60000) Sample.online) Sample.day1
           (or_introl eq_refl) eq_refl eq_refl eq_refl eq_refl).
Defined.

(** ** Further runs *)

(** The robust mark handler reads a numeric string as its number: "42"
    after 42 is a conflict. *)
Example mark_numeric_string_conflicts :
  let t := snd (Sample.mark Sample.day1 Sample.mark_42 []) in
  Sample.mark Sample.day1
    (Sample.mark_body (JStr "42") "2024-03-01" "late" "manual" JNull) t
  = (res_json 409
       (ErrorBody "already_marked"
          (Some "Attendance already marked for this student on this date")), t).
Proof. vm_compute. reflexivity. Qed.

(** A roll sent in place of the id is refused. *)
Example mark_text_id_rejected :
  Sample.mark Sample.day1
    (Sample.mark_body (JStr "R-001") "2024-03-01" "present" "face" JNull) []
  = (res_json 400
       (ErrorBody "invalid_payload" (Some "student_id required (numeric)")), []).
Proof. vm_compute. reflexivity. Qed.

(** An unknown status is stored as [present], a long method is cut at 50
    characters. *)
Example mark_normalises_status_and_method :
  map (fun r => (col_status r, col_method r))
      (snd (Sample.mark Sample.day1
              (Sample.mark_body (Sample.num 7) "2024-03-01" "excused"
                 "0123456789012345678901234567890123456789012345678901234"
                 JNull) []))
  = [(JStr "present",
      JStr "01234567890123456789012345678901234567890123456789")].
Proof. vm_compute. reflexivity. Qed.

(** The minimal revision of the mark handler looks nothing up: the same
    request twice leaves two rows for the pair. *)
Example minimal_mark_inserts_twice :
  let t1 := snd (MinimalBackend.attendance_mark Sample.day1 Sample.mark_42 []) in
  let t2 := snd (MinimalBackend.attendance_mark Sample.day1 Sample.mark_42 t1) in
  pair_count (Sample.num 42) (JStr "2024-03-01") t2 = 2%nat.
Proof. vm_compute. reflexivity. Qed.

(** Two students detected while the server is unreachable, then
    [syncOfflineQueue] with the server back: two rows, empty queue. *)
Example offline_then_flush :
  let w1 := Sample.scan (Sample.at_ms Sample.t0 Unreachable) "R-001" (9 # 100)
              Sample.world0 in
  let w2 := Sample.scan (Sample.at_ms (Sample.t0 + 1000) Unreachable) "R-002"
              (12 # 100) w1 in
  let w3 := snd (Scanner.syncOfflineQueue Sample.sync
                   (Sample.at_ms (Sample.t0 + 60000) Sample.online) w2) in
  length (offline_attendance (client w2)) = 2%nat
  /\ attendance w2 = []
  /\ map pair_of (attendance w3)
     = [(Sample.num 42, JStr "2024-03-01"); (Sample.num 43, JStr "2024-03-01")]
  /\ offline_attendance (client w3) = [].
Proof. vm_compute. repeat split; reflexivity. Qed.

(** What the queued conflict leads to: the record queued on the 409 is
    later flushed through the sync endpoint, which looks nothing up, and
    student 42 ends with two rows for the day. *)
Example conflict_then_flush_duplicates :
  let w1 := Sample.scan (Sample.at_ms Sample.t0 Sample.online) "R-001"
              (9 # 100) Sample.world0 in
  let w2 := Sample.scan (Sample.at_ms (Sample.t0 + 45000) Sample.online)
              "R-001" (9 # 100) w1 in
  let w3 := snd (Scanner.syncOfflineQueue Sample.sync
                   (Sample.at_ms (Sample.t0 + 60000) Sample.online) w2) in
  pair_count (Sample.num 42) (JStr "2024-03-01") (attendance w1) = 1%nat
  /\ pair_count (Sample.num 42) (JStr "2024-03-01") (attendance w3) = 2%nat.
Proof. vm_compute. split; reflexivity. Qed.

(** The IndexedDB queue refuses a second record with the same [timestamp]
    key and returns its records in key order. *)
Example indexedDB_key_collision :
  IndexedDB.dbAdd "clock" Sample.queued_42 [Sample.queued_42] = None
  /\ IndexedDB.dbAdd "clock" Sample.queued_42 [Sample.queued_43]
     = Some [Sample.queued_42; Sample.queued_43].
Proof. vm_compute. split; reflexivity. Qed.

(** * More properties of the back end *)

Lemma slice0_length (n : nat) (s : string) :
  (String.length (slice0 n s) <= n)%nat.
Proof.
  unfold slice0. revert s. induction n as [|n IH]; intros s.
  - destruct s; simpl; lia.
  - destruct s as [|a s]; simpl; [lia|]. specialize (IH s). lia.
Qed.

Section MarkMore.

Variable StringToNumber : string -> option Qc.
Variable NumberToString : Qc -> string.

Abbreviation robust_mark :=
  (Backend.attendance_mark StringToNumber NumberToString).

Lemma normalize_status_allowed (v : jsval) :
  js_String NumberToString (Backend.normalize_status NumberToString v)
  ∈ ["present"; "absent"; "late"].
Proof.
  unfold Backend.normalize_status.
  destruct (bool_decide _) eqn:E.
  - by apply bool_decide_eq_true in E.
  - simpl. apply list_elem_of_here.
Qed.

Lemma normalize_student_id_cases (v : jsval) :
  truthy (Backend.normalize_student_id StringToNumber v) = true ->
  exists q, Backend.normalize_student_id StringToNumber v = JNum q
            /\ q <> 0%Qc.
Proof.
  unfold Backend.normalize_student_id.
  destruct (truthy v); [|discriminate].
  destruct (js_Number StringToNumber v) as [q|]; [|discriminate].
  simpl. intros H. exists q. split; [done|].
  intros ->. by rewrite bool_decide_eq_true_2 in H.
Qed.

(** The mark handler leaves the table alone or appends one well-formed
    row. *)
Lemma mark_appends_marked_row (env : ServerEnv) (p : AttRecord) (t : Table) :
  snd (robust_mark env p t) = t
  \/ exists r, snd (robust_mark env p t) = t ++ [r]
               /\ marked_row NumberToString r.
Proof.
  unfold Backend.attendance_mark.
  destruct (truthy (Backend.normalize_student_id StringToNumber
                      (student_id p))) eqn:Hsid; simpl; [|by left].
  destruct (select_throws env); simpl; [by left|].
  destruct (length (Backend.select_existing _ _ t)); simpl; [|by left].
  destruct (insert_throws env); simpl; [by left|].
  right. eexists. split; [reflexivity|].
  destruct (js_or_not_null (date p) (srv_today env)) as [Hd1 Hd2].
  unfold marked_row. simpl.
  split; [by apply normalize_student_id_cases|].
  split; [done|]. split; [done|].
  split; [apply normalize_status_allowed|].
  split; [|done].
  unfold Backend.normalize_method. eexists. split; [reflexivity|].
  apply slice0_length.
Qed.

(** X1. Every row the robust mark endpoint ever writes is normalised:
    after any sequence of mark requests on an empty table, each row has a
    non-zero number as student id, a date that is not NULL, a status among
    present, absent and late, a method of at most 50 characters and the
    authenticated teacher as marker, whatever the requests contained. *)
Theorem mark_rows_are_normalised (calls : list (ServerEnv * AttRecord)) :
  Forall (marked_row NumberToString) (mark_calls robust_mark calls []).
Proof.
  assert (H : forall t, Forall (marked_row NumberToString) t ->
                Forall (marked_row NumberToString)
                       (mark_calls robust_mark calls t)).
  { induction calls as [|c calls IH]; intros t Ht; simpl; [done|].
    apply IH.
    destruct (mark_appends_marked_row (fst c) (snd c) t)
      as [-> | (r & -> & Hr)]; [done|].
    apply Forall_app. split; [done|]. by apply Forall_singleton. }
  apply H. constructor.
Qed.

(** X2. A mark request is safe to retry: sending the same request again
    to the robust endpoint, the database behaving the same way, leaves the
    table exactly as the first attempt left it. *)
Theorem mark_retry_is_idempotent (env : ServerEnv) (p : AttRecord) (t : Table) :
  snd (robust_mark env p (snd (robust_mark env p t)))
  = snd (robust_mark env p t).
Proof.
  unfold Backend.attendance_mark.
  set (sid := Backend.normalize_student_id StringToNumber (student_id p)).
  set (d := js_or (date p) (JStr (srv_today env))).
  destruct (truthy sid) eqn:Hsid; simpl; [|done].
  destruct (select_throws env) eqn:Hsel; simpl; [done|].
  destruct (length (Backend.select_existing sid d t)) eqn:Hlen; simpl;
    [|by rewrite Hlen].
  destruct (insert_throws env) eqn:Hins; simpl; [by rewrite Hlen|].
  apply truthy_not_null in Hsid as [? ?].
  destruct (js_or_not_null (date p) (srv_today env)) as [? ?].
  rewrite select_existing_some; [done | done | done | done | done |].
  rewrite map_app. apply elem_of_app. right. simpl.
  apply list_elem_of_singleton. reflexivity.
Qed.

End MarkMore.

Section LegacyAlias.

Import BackendMore.

(** X3. The compatibility alias [/api/attendance] looks nothing up: a
    single attendance object with a truthy [student_id] is inserted
    whenever the [INSERT] does not throw, so the number of rows carrying
    its (student id, date) pair grows by one even when the pair is already
    in the table; and no request to the alias is ever answered 409. *)
Theorem legacy_alias_skips_lookup (env : ServerEnv) (p : AttRecord) (t : Table) :
  truthy (student_id p) = true ->
  insert_throws env = false ->
  let d := js_or (date p) (JStr (srv_today env)) in
  legacy_attendance env (LegacyObject p) t
  = (res_json 200 Success, t ++ [legacy_row env p])
  /\ pair_count (student_id p) d (snd (legacy_attendance env (LegacyObject p) t))
     = Datatypes.S (pair_count (student_id p) d t)
  /\ forall env' body t',
       res_status (fst (legacy_attendance env' body t')) <> 409.
Proof.
  intros Hsid Hins d. unfold legacy_attendance. rewrite Hsid, Hins.
  split; [done|]. split.
  - simpl. rewrite pair_count_app. unfold pair_count at 2. simpl.
    rewrite bool_decide_eq_true_2 by done. simpl. lia.
  - intros env' body t'. destruct body as [q|items]; simpl.
    + destruct (truthy (student_id q)); [|discriminate].
      destruct (insert_throws env'); discriminate.
    + destruct (insert_throws env'); discriminate.
Qed.

End LegacyAlias.

(** Student 42 is marked through the mark endpoint, then posted again
    through the alias: two rows for the day. *)
Lemma legacy_alias_skips_lookup_witness :
  let t := snd (Sample.mark Sample.day1 Sample.mark_42 []) in
  BackendMore.legacy_attendance Sample.day1
    (BackendMore.LegacyObject Sample.mark_42) t
  = (res_json 200 Success, t ++ [BackendMore.legacy_row Sample.day1 Sample.mark_42])
  /\ pair_count (Sample.num 42) (JStr "2024-03-01")
       (snd (BackendMore.legacy_attendance Sample.day1
               (BackendMore.LegacyObject Sample.mark_42) t)) = 2%nat.
Proof.
  intros t.
  destruct (legacy_alias_skips_lookup Sample.day1 Sample.mark_42 t
              eq_refl eq_refl) as (H1 & H2 & _).
  split; [exact H1|]. exact H2.
Defined.

(** * The queue of face embeddings *)

Section FaceQueueFacts.

Import BackendMore FaceQueue.

Variable StringToNumber : string -> option Qc.
Variable register :
  ServerEnv -> RegisterBody -> list FaceRow -> Response * list FaceRow.
Hypothesis register_revision : is_face_register register.

(** Either revision of the register handler inserts one row and answers 200,
    or changes nothing and answers with a status that is not ok; it inserts
    only what is registrable. *)
Lemma register_outcome (env : ServerEnv) (body : RegisterBody) (t : list FaceRow) :
  (registrable body = true
   /\ exists values, rb_embedding body = EmbeddingArray values
      /\ register env body t
         = (res_json 200 Success,
            t ++ [mkFaceRow (rb_student_id body) values req_user_id]))
  \/ (exists r, register env body t = (r, t) /\ ok r = false).
Proof.
  destruct register_revision as [-> | ->];
    unfold face_register, face_register_minimal, face_register_with,
           registrable;
    destruct (rb_embedding body) as [v|values]; simpl;
    try (right; eexists; split; [reflexivity | reflexivity]);
    destruct (truthy (rb_student_id body)); simpl;
    try (right; eexists; split; [reflexivity | reflexivity]);
    destruct (insert_throws env); simpl;
    try (right; eexists; split; [reflexivity | reflexivity]);
    left; split; try done; by eexists.
Qed.

(** What one request of the page does to the table, as the page sees it. *)
Lemma fetch_register_outcome (n : Net) (body : RegisterBody) (t : list FaceRow) :
  (registrable body = true
   /\ exists r row, fetch_register register n body t = (Responded r, t ++ [row])
                    /\ ok r = true)
  \/ (fetch_register register n body t = (NetworkError, t))
  \/ (exists r, fetch_register register n body t = (Responded r, t)
                /\ ok r = false)
  \/ (registrable body = true /\ response_lost n = true
      /\ exists row, fetch_register register n body t
                     = (NetworkError, t ++ [row])).
Proof.
  unfold fetch_register. destruct n as [|env|env]; [by right; left| |].
  - destruct (register_outcome env body t)
      as [(Hreg & values & _ & ->) | (r & -> & Hr)].
    + left. split; [done|]. by do 2 eexists.
    + right. right. left. by eexists.
  - destruct (register_outcome env body t)
      as [(Hreg & values & _ & ->) | (r & -> & Hr)].
    + right. right. right. split; [done|]. split; [done|]. by eexists.
    + right. by left.
Qed.

Lemma sync_items_spec (net_at : nat -> Net) (q : list RegisterBody) :
  forall (i : nat) (t : list FaceRow),
    let remain := fst (sync_items register net_at i q t) in
    let t' := snd (sync_items register net_at i q t) in
    sublist remain q
    /\ (length t + length q <= length t' + length remain)%nat
    /\ (length t' <= length t + length q)%nat
    /\ ((forall j, response_lost (net_at j) = false) ->
        (length t' + length remain = length t + length q)%nat)
    /\ t `prefix_of` t'
    /\ (forall item, item ∈ q -> registrable item = false -> item ∈ remain).
Proof.
  induction q as [|item rest IH]; intros i t; simpl.
  - split; [constructor|]. split; [lia|]. split; [lia|]. split; [lia|].
    split; [done|]. intros item H. by apply elem_of_nil in H.
  - destruct (fetch_register_outcome (net_at i) item t)
      as [(Hreg & r & row & -> & Hok)
         | [-> | [(r & -> & Hok) | (Hreg & Hlost & row & ->)]]].
    + specialize (IH (Datatypes.S i) (t ++ [row])).
      destruct (sync_items register net_at (Datatypes.S i) rest (t ++ [row]))
        as [remain t''] eqn:E. simpl in IH. rewrite Hok. simpl.
      destruct IH as (Hsub & Hge & Hle & Heq & Hpre & Hbad).
      rewrite length_app in Hge, Hle, Heq. simpl in Hge, Hle, Heq.
      split; [by apply sublist_cons|].
      split; [lia|]. split; [lia|].
      split; [intros Hnet; specialize (Heq Hnet); lia|].
      split; [etrans; [|exact Hpre]; by apply prefix_app_r|].
      intros x Hx Hx'. apply elem_of_cons in Hx as [-> | Hx];
        [congruence | by apply Hbad].
    + specialize (IH (Datatypes.S i) t).
      destruct (sync_items register net_at (Datatypes.S i) rest t)
        as [remain t''] eqn:E. simpl in IH. simpl.
      destruct IH as (Hsub & Hge & Hle & Heq & Hpre & Hbad).
      split; [by apply sublist_skip|]. split; [lia|]. split; [lia|].
      split; [intros Hnet; specialize (Heq Hnet); lia|].
      split; [done|].
      intros x Hx Hx'. apply elem_of_cons in Hx as [-> | Hx];
        [apply list_elem_of_here | apply list_elem_of_further; by apply Hbad].
    + specialize (IH (Datatypes.S i) t).
      destruct (sync_items register net_at (Datatypes.S i) rest t)
        as [remain t''] eqn:E. simpl in IH. rewrite Hok. simpl.
      destruct IH as (Hsub & Hge & Hle & Heq & Hpre & Hbad).
      split; [by apply sublist_skip|]. split; [lia|]. split; [lia|].
      split; [intros Hnet; specialize (Heq Hnet); lia|].
      split; [done|].
      intros x Hx Hx'. apply elem_of_cons in Hx as [-> | Hx];
        [apply list_elem_of_here | apply list_elem_of_further; by apply Hbad].
    + specialize (IH (Datatypes.S i) (t ++ [row])).
      destruct (sync_items register net_at (Datatypes.S i) rest (t ++ [row]))
        as [remain t''] eqn:E. simpl in IH. simpl.
      destruct IH as (Hsub & Hge & Hle & Heq & Hpre & Hbad).
      rewrite length_app in Hge, Hle, Heq. simpl in Hge, Hle, Heq.
      split; [by apply sublist_skip|]. split; [lia|]. split; [lia|].
      split; [intros Hnet; specialize (Hnet i); congruence|].
      split; [etrans; [|exact Hpre]; by apply prefix_app_r|].
      intros x Hx Hx'. apply elem_of_cons in Hx as [-> | Hx];
        [apply list_elem_of_here | apply list_elem_of_further; by apply Hbad].
Qed.


(** X5. A queued item that the register handler cannot accept (a falsy
    [student_id], as [Number(studentId)] gives for an id that is not a
    number, or an [embedding] that is not an array) never leaves the queue:
    [trySyncEmbQueue] sends it again on every run and keeps it, with the
    server reachable or not. *)
Theorem emb_queue_keeps_unregistrable (net_at : nat -> Net) (w : EmbWorld)
  (item : RegisterBody) :
  item ∈ emb_queue w ->
  registrable item = false ->
  item ∈ emb_queue (trySyncEmbQueue register net_at w)
  /\ item ∈ emb_sent (trySyncEmbQueue register net_at w).
Proof.
  intros Hin Hbad. unfold trySyncEmbQueue.
  destruct (emb_queue w) as [|x rest] eqn:Hq; [by apply elem_of_nil in Hin|].
  cbn [length Nat.eqb].
  pose proof (sync_items_spec net_at (x :: rest) 0 (face_embeddings w)) as H.
  destruct (sync_items register net_at 0 (x :: rest) (face_embeddings w))
    as [remain t'] eqn:E. simpl in H.
  destruct H as (_ & _ & _ & _ & _ & Hkeep). simpl. split; [by apply Hkeep|].
  apply elem_of_app. by right.
Qed.

(** X6. [postEmbedding] stores or queues: with no descriptor it returns
    [false] and neither sends nor queues anything.  With a descriptor it
    sends one request; when it returns [true] the response was delivered,
    one row was appended to [face_embeddings] and the queue is as before;
    when it returns [false] the request is queued once for a later
    [trySyncEmbQueue], and the table is as before unless the handler stored
    the row and its response was lost. *)
Theorem postEmbedding_stores_or_queues (n : Net) (studentId : jsval)
  (descriptor : option (list jsval)) (w : EmbWorld) :
  let b := fst (postEmbedding StringToNumber register n studentId descriptor w) in
  let w' := snd (postEmbedding StringToNumber register n studentId descriptor w) in
  match descriptor with
  | None => b = false /\ w' = w
  | Some d =>
      let item := mkRegisterBody (json_Number StringToNumber studentId)
                                 (EmbeddingArray d) in
      let row := mkFaceRow (json_Number StringToNumber studentId) d
                           req_user_id in
      emb_sent w' = emb_sent w ++ [item]
      /\ ((b = true
           /\ response_lost n = false
           /\ face_embeddings w' = face_embeddings w ++ [row]
           /\ emb_queue w' = emb_queue w)
          \/ (b = false
              /\ emb_queue w' = emb_queue w ++ [item]
              /\ (face_embeddings w' = face_embeddings w
                  \/ (response_lost n = true
                      /\ face_embeddings w' = face_embeddings w ++ [row]))))
  end.
Proof.
  cbv zeta. destruct descriptor as [d|]; [|done].
  unfold postEmbedding, fetch_register.
  destruct n as [|env|env]; simpl.
  - split; [done|]. right. split; [done|]. split; [done|]. by left.
  - destruct (register_outcome env
                (mkRegisterBody (json_Number StringToNumber studentId)
                   (EmbeddingArray d)) (face_embeddings w))
      as [(_ & values & Hv & ->) | (r & -> & Hr)].
    + simpl in Hv. inversion Hv; subst. simpl. split; [done|]. by left.
    + rewrite Hr. simpl. split; [done|]. right.
      split; [done|]. split; [done|]. by left.
  - destruct (register_outcome env
                (mkRegisterBody (json_Number StringToNumber studentId)
                   (EmbeddingArray d)) (face_embeddings w))
      as [(_ & values & Hv & ->) | (r & -> & Hr)].
    + simpl in Hv. inversion Hv; subst. simpl. split; [done|]. right.
      split; [done|]. split; [done|]. by right.
    + simpl. split; [done|]. right. split; [done|]. split; [done|]. by left.
Qed.

End FaceQueueFacts.

(** A run of the sync on the sample page against the robust handler, the
    server reachable: the item for student 42 is stored, the item without
    an id stays. *)
Lemma emb_queue_keeps_unregistrable_witness :
  let w' := FaceQueue.trySyncEmbQueue BackendMore.face_register
              Cases.always_online Cases.emb_world0 in
  Cases.item_nan ∈ FaceQueue.emb_queue w'
  /\ Cases.item_nan ∈ FaceQueue.emb_sent w'.
Proof.
  apply (emb_queue_keeps_unregistrable BackendMore.face_register
           (or_introl eq_refl) Cases.always_online Cases.emb_world0
           Cases.item_nan).
  - apply list_elem_of_here.
  - reflexivity.
Defined.

Example emb_queue_sync_run :
  let w' := FaceQueue.trySyncEmbQueue BackendMore.face_register
              Cases.always_online Cases.emb_world0 in
  FaceQueue.emb_queue w' = [Cases.item_nan]
  /\ map BackendMore.fe_student_id (FaceQueue.face_embeddings w')
     = [Sample.num 42].
Proof. vm_compute. split; reflexivity. Qed.


(** [postEmbedding] for student 42 with the server unreachable: the request
    is queued behind the two items of the sample page. *)
Lemma postEmbedding_stores_or_queues_witness :
  let r := FaceQueue.postEmbedding Sample.StringToNumber
             BackendMore.face_register Unreachable (JStr "42")
             (Some Cases.descriptor) Cases.emb_world0 in
  let row := BackendMore.mkFaceRow (Sample.num 42) Cases.descriptor
               req_user_id in
  FaceQueue.emb_sent (snd r) = [Cases.item_42]
  /\ ((fst r = true
       /\ response_lost Unreachable = false
       /\ FaceQueue.face_embeddings (snd r) = [] ++ [row]
       /\ FaceQueue.emb_queue (snd r) = [Cases.item_nan; Cases.item_42])
      \/ (fst r = false
          /\ FaceQueue.emb_queue (snd r)
             = [Cases.item_nan; Cases.item_42] ++ [Cases.item_42]
          /\ (FaceQueue.face_embeddings (snd r) = []
              \/ (response_lost Unreachable = true
                  /\ FaceQueue.face_embeddings (snd r) = [] ++ [row])))).
Proof.
  exact (postEmbedding_stores_or_queues Sample.StringToNumber
           BackendMore.face_register (or_introl eq_refl) Unreachable
           (JStr "42") (Some Cases.descriptor) Cases.emb_world0).
Defined.

(** * The roster *)

Section RosterFacts.

Import Roster.

Variable NumberToString : Qc -> string.

Abbreviation key := (key_of NumberToString).
Abbreviation roster_of := (students_map NumberToString).

Lemma roll_of_cases (s : Student) :
  truthy (roll_of s) = true \/ roll_of s = JNull.
Proof.
  unfold roll_of, js_or.
  destruct (truthy (s_roll s)) eqn:E1; simpl.
  - rewrite E1. simpl. rewrite E1. simpl. rewrite E1. by left.
  - destruct (truthy (s_roll_number s)) eqn:E2; simpl.
    + rewrite E2. simpl. rewrite E2. by left.
    + destruct (truthy (s_rollno s)) eqn:E3; simpl.
      * rewrite E3. by left.
      * destruct (truthy (s_roll_no s)) eqn:E4; [by left | by right].
Qed.

Lemma roster_fold_other (arr : list Student) (k : string) :
  forall m : gmap string jsval,
    (forall s, s ∈ arr -> key s <> k) ->
    foldl (fun m s => <[key s := s_id s]> m) m arr !! k = m !! k.
Proof.
  induction arr as [|s arr IH]; intros m H; simpl; [done|].
  rewrite IH.
  - apply lookup_insert_ne. apply H. apply list_elem_of_here.
  - intros s' Hs'. apply H. by apply list_elem_of_further.
Qed.

Lemma roster_absent (arr : list Student) (k : string) :
  (forall s, s ∈ arr -> key s <> k) -> roster_of arr !! k = None.
Proof.
  intros H. unfold students_map. by rewrite roster_fold_other.
Qed.

(** X7. The roll -> id map of [fetchStudentsMap] keeps, for each key, the
    id of the last student of the list with that key: a student is found
    under its key (its roll, or its id when it has no roll) whenever no
    later student of the list has the same key; an earlier student with the
    same roll is shadowed. *)
Theorem roster_last_student_wins (before after : list Student) (s : Student) :
  (forall s', s' ∈ after -> key s' <> key s) ->
  roster_of (before ++ s :: after) !! key s = Some (s_id s).
Proof.
  intros H. unfold students_map. rewrite foldl_app. simpl.
  rewrite roster_fold_other by done. apply lookup_insert_eq.
Qed.

End RosterFacts.

(** On the list [[asha; bala; chitra]], roll R-001 leads to Chitra (id 44),
    not to Asha (id 42). *)
Lemma roster_last_student_wins_witness :
  Roster.students_map Sample.NumberToString
    ([Cases.asha; Cases.bala] ++ Cases.chitra :: []) !! "R-001"
  = Some (Sample.num 44).
Proof.
  apply (roster_last_student_wins Sample.NumberToString
           [Cases.asha; Cases.bala] [] Cases.chitra).
  intros s' H. by apply elem_of_nil in H.
Defined.

Section RosterAndScanner.

Import Roster.

Variable StringToNumber : string -> option Qc.
Variable NumberToString : Qc -> string.
Variable mark_endpoint : ServerEnv -> AttRecord -> Table -> Response * Table.

(** X8. A face enrolled for a student without a roll is never resolved:
    [buildFaceMatcher] labels its descriptor [id_<student_id>], while
    [fetchStudentsMap] files a student without a roll under [String(id)],
    which does not begin with the letter i.  Unless some student's roll is
    spelled exactly like that label, every detection of the face that
    passes the debounce is put on the offline queue as an unresolved record
    ([roll_number] the label, [student_id] null) and no mark request is
    sent, in either revision of the scanner. *)
Theorem rollless_face_is_never_resolved
  (f : CallEnv -> string -> Q -> World -> World) (e : CallEnv)
  (arr : list Student) (it : EmbeddingItem) (dist : Q) (w : World) :
  is_mark_label StringToNumber mark_endpoint f ->
  labelToStudentId (client w)
  = fetchStudentsMap NumberToString (StudentsList arr) ->
  truthy (e_roll it) = false ->
  (forall s, s ∈ arr -> truthy (roll_of s) = true ->
     js_String NumberToString (roll_of s) <> matcher_label NumberToString it) ->
  (forall s, s ∈ arr -> roll_of s = JNull ->
     String.get 0 (js_String NumberToString (s_id s)) <> Some "i"%char) ->
  let label := matcher_label NumberToString it in
  Scanner.debounced (recentMarks (client w)) label (now e) = false ->
  let w' := f e label dist w in
  labelToStudentId (client w) !! label = None
  /\ exists item,
       offline_attendance (client w') = offline_attendance (client w) ++ [item]
       /\ roll_number item = JStr label
       /\ student_id item = JNull
       /\ sent w' = sent w
       /\ attendance w' = attendance w.
Proof.
  intros Hf Hmap Hroll Hrolls Hids label Hdeb w'.
  assert (Hnone : labelToStudentId (client w) !! label = None).
  { rewrite Hmap. simpl. apply roster_absent. intros s Hs Hk.
    destruct (roll_of_cases s) as [Ht | Hn].
    - apply (Hrolls s Hs Ht). unfold key_of in Hk.
      destruct (roll_of s); simpl in *; try discriminate; exact Hk.
    - apply (Hids s Hs Hn). unfold key_of in Hk. rewrite Hn in Hk.
      simpl in Hk. rewrite Hk. subst label. unfold matcher_label.
      rewrite Hroll. reflexivity. }
  split; [exact Hnone|].
  assert (Hres : truthy (Scanner.resolve (labelToStudentId (client w)) label)
                 = false) by (by apply resolve_unknown).
  destruct (mark_label_unresolved StringToNumber mark_endpoint f e label dist
              w Hf Hdeb Hres) as (Hq & Hs & Ht).
  eexists. split; [exact Hq|]. repeat split; try done.
  unfold Scanner.unresolved_item, Scanner.mark_payload, js_or.
  cbn [student_id]. by rewrite Hres.
Qed.

End RosterAndScanner.

(** Bala (id 43, no roll) is detected: the label is [id_43], the roster
    files him under [43], the detection is queued unresolved. *)
Lemma rollless_face_is_never_resolved_witness :
  let e := Sample.at_ms Sample.t0 Sample.online in
  let w' := Sample.scan e "id_43" (9 # 100) Cases.roster_world in
  labelToStudentId (client Cases.roster_world) !! "id_43" = None
  /\ exists item,
       offline_attendance (client w') = [] ++ [item]
       /\ roll_number item = JStr "id_43"
       /\ student_id item = JNull
       /\ sent w' = []
       /\ attendance w' = [].
Proof.
  apply (rollless_face_is_never_resolved Sample.StringToNumber
           Sample.NumberToString Sample.mark Sample.scan
           (Sample.at_ms Sample.t0 Sample.online)
           [Cases.asha; Cases.bala] Cases.bala_face (9 # 100)
           Cases.roster_world).
  - by left.
  - reflexivity.
  - reflexivity.
  - intros s Hs Ht.
    apply elem_of_cons in Hs as [-> | Hs]; [vm_compute; discriminate|].
    apply list_elem_of_singleton in Hs as ->. vm_compute in Ht. discriminate.
  - intros s Hs Hn.
    apply elem_of_cons in Hs as [-> | Hs]; [vm_compute in Hn; discriminate|].
    apply list_elem_of_singleton in Hs as ->. vm_compute. discriminate.
  - reflexivity.
Defined.

(** * The scanner and the robust back end together *)

Section ScannerAndServer.

Variable StringToNumber : string -> option Qc.
Variable NumberToString : Qc -> string.

Abbreviation server_mark :=
  (Backend.attendance_mark StringToNumber NumberToString).

Lemma normalize_truthy (v : jsval) (q : Qc) :
  Backend.normalize_student_id StringToNumber v = JNum q ->
  truthy v = true /\ js_Number StringToNumber v = Some q.
Proof.
  unfold Backend.normalize_student_id.
  destruct (truthy v); [|discriminate].
  destruct (js_Number StringToNumber v); [|discriminate].
  intros H. inversion H. done.
Qed.

(** What the robust server answers to the payload of a detection of a
    student it has no row for on that day. *)
Lemma fresh_detection_response (e : CallEnv) (studentId : jsval) (dist : Q)
  (senv : ServerEnv) (t : Table) (q : Qc) :
  Backend.normalize_student_id StringToNumber studentId = JNum q ->
  q <> 0%Qc ->
  today e <> EmptyString ->
  select_throws senv = false -> insert_throws senv = false ->
  (JNum q, JStr (today e)) ∉ map pair_of t ->
  server_mark senv (Scanner.mark_payload e studentId dist) t
  = (res_json 200 (MarkSuccess (JNum q) (JStr (today e))),
     t ++ [mkRow (JNum q) (JStr (today e)) (JStr "present") (JStr "face")
             (JNum (Q2Qc (Confidence.label_confidence dist))) req_user_id]).
Proof.
  intros Hn Hq Hday Hsel Hins Hfresh.
  destruct (normalize_truthy studentId q Hn) as [Ht _].
  assert (Hd : truthy (JStr (today e)) = true)
    by (simpl; by rewrite bool_decide_eq_false_2).
  assert (Hjs : js_or studentId JNull = studentId)
    by (unfold js_or; by rewrite Ht).
  assert (Hjd : js_or (JStr (today e)) (JStr (srv_today senv))
                = JStr (today e))
    by (unfold js_or; by rewrite Hd).
  unfold Backend.attendance_mark, Scanner.mark_payload.
  cbn [student_id date status method confidence].
  rewrite Hjs, Hn, Hjd, (truthy_number q Hq). cbn [negb]. rewrite Hsel.
  destruct (length (Backend.select_existing (JNum q) (JStr (today e)) t))
    eqn:Hlen.
  - cbn [Nat.eqb negb]. rewrite Hins. reflexivity.
  - exfalso. apply Hfresh. unfold Backend.select_existing in Hlen.
    destruct (List.filter _ t) as [|r l] eqn:Hf; [discriminate|].
    assert (Hr : In r (List.filter
                (fun r => sql_eq (col_student_id r) (JNum q)
                          && sql_eq (col_date r) (JStr (today e))) t))
      by (rewrite Hf; by left).
    apply List.filter_In in Hr as [Hin Hr].
    rewrite !sql_eq_param in Hr by done.
    apply andb_prop in Hr as [H1 H2].
    apply bool_decide_eq_true in H1, H2.
    apply list_elem_of_fmap. exists r. split.
    + unfold pair_of. by rewrite H1, H2.
    + by apply list_elem_of_In.
Qed.

(** X9. A first detection is stored as detected: when a call of
    [markAttendanceForLabel] (either revision) passes the debounce for a
    label that resolves to a valid student id, on a non-empty calendar day,
    and the robust server is reachable, answers its queries and holds no
    row for that student and day, the table gains exactly one row: that
    student, that day, status [present], method [face], the confidence
    computed from the distance.  Nothing is put on the offline queue and
    one mark request is logged. *)
Theorem first_detection_is_stored
  (f : CallEnv -> string -> Q -> World -> World) (e : CallEnv)
  (label : string) (dist : Q) (w : World) (q : Qc) (senv : ServerEnv) :
  is_mark_label StringToNumber server_mark f ->
  Scanner.debounced (recentMarks (client w)) label (now e) = false ->
  let studentId := Scanner.resolve (labelToStudentId (client w)) label in
  Backend.normalize_student_id StringToNumber studentId = JNum q ->
  q <> 0%Qc ->
  today e <> EmptyString ->
  net e = Reachable senv ->
  select_throws senv = false -> insert_throws senv = false ->
  (JNum q, JStr (today e)) ∉ map pair_of (attendance w) ->
  let w' := f e label dist w in
  attendance w'
  = attendance w
    ++ [mkRow (JNum q) (JStr (today e)) (JStr "present") (JStr "face")
          (JNum (Q2Qc (Confidence.label_confidence dist))) req_user_id]
  /\ offline_attendance (client w') = offline_attendance (client w)
  /\ sent w' = sent w ++ [PostMark (Scanner.mark_payload e studentId dist)].
Proof.
  intros Hf Hdeb studentId Hn Hq Hday Hnet Hsel Hins Hfresh w'.
  destruct (normalize_truthy studentId q Hn) as [Ht _].
  pose proof (fresh_detection_response e studentId dist senv (attendance w) q
                Hn Hq Hday Hsel Hins Hfresh) as Hresp.
  subst w'. destruct Hf as [-> | ->];
    unfold Scanner.markAttendanceForLabel,
           Scanner.markAttendanceForLabel_unpatched;
    rewrite Hdeb; fold studentId; rewrite Ht; cbn [negb];
    unfold Scanner.fetch_mark; rewrite Hnet, Hresp; simpl; done.
Qed.

(** The pair of the row the sync handlers write for a marked id submitted
    by the submit button. *)
Lemma submitted_pair (senv : ServerEnv) (e : CallEnv) (q : Qc) :
  today e <> EmptyString ->
  pair_of (Backend.sync_row senv (ManualSession.submit_record e (Some q)))
  = (JNum q, JStr (today e)).
Proof.
  intros Hday. unfold pair_of, Backend.sync_row, ManualSession.submit_record.
  cbn [col_student_id col_date student_id date ManualSession.json_number].
  unfold js_or. simpl. by rewrite bool_decide_eq_false_2.
Qed.

(** X10. The patched scanner and the submit button mark a student twice:
    when a detection is accepted by the robust server (as in X9, patched
    revision) the student enters the session's marked set, and a following
    press of the submit button on the same day, answered by either revision
    of the sync handler, inserts a second row for the same student and
    day. *)
Theorem face_mark_then_submit_duplicates
  (sync : ServerEnv -> Backend.SyncBody -> Table -> Response * Table)
  (e1 e2 : CallEnv) (label : string) (dist : Q) (w : World) (q : Qc)
  (senv1 senv2 : ServerEnv) :
  sync = Backend.attendance_sync \/ sync = MinimalBackend.attendance_sync ->
  Scanner.debounced (recentMarks (client w)) label (now e1) = false ->
  let studentId := Scanner.resolve (labelToStudentId (client w)) label in
  Backend.normalize_student_id StringToNumber studentId = JNum q ->
  q <> 0%Qc ->
  today e1 <> EmptyString -> today e2 = today e1 ->
  net e1 = Reachable senv1 ->
  select_throws senv1 = false -> insert_throws senv1 = false ->
  (JNum q, JStr (today e1)) ∉ map pair_of (attendance w) ->
  net e2 = Reachable senv2 -> insert_throws senv2 = false ->
  let w1 := Scanner.markAttendanceForLabel StringToNumber server_mark
              e1 label dist w in
  let w2 := ManualSession.submitBtn_click sync e2 w1 in
  Some q ∈ sessionMarked (client w1)
  /\ pair_count (JNum q) (JStr (today e1)) (attendance w1) = 1%nat
  /\ (2 <= pair_count (JNum q) (JStr (today e1)) (attendance w2))%nat.
Proof.
  intros Hsync Hdeb studentId Hn Hq Hday Hsame Hnet1 Hsel1 Hins1 Hfresh
         Hnet2 Hins2 w1 w2.
  destruct (normalize_truthy studentId q Hn) as [Ht Hnum].
  pose proof (fresh_detection_response e1 studentId dist senv1 (attendance w)
                q Hn Hq Hday Hsel1 Hins1 Hfresh) as Hresp.
  assert (Hw1 : w1 = mkWorld
                  (mkClient (Scanner.set_recentMark label (now e1)
                               (recentMarks (client w)))
                     (labelToStudentId (client w))
                     (offline_attendance (client w))
                     (Scanner.set_add (Some q) (sessionMarked (client w))))
                  (attendance w
                   ++ [mkRow (JNum q) (JStr (today e1)) (JStr "present")
                         (JStr "face")
                         (JNum (Q2Qc (Confidence.label_confidence dist)))
                         req_user_id])
                  (sent w ++ [PostMark (Scanner.mark_payload e1 studentId dist)])).
  { subst w1. unfold Scanner.markAttendanceForLabel.
    rewrite Hdeb. fold studentId. rewrite Ht. cbn [negb].
    unfold Scanner.fetch_mark. rewrite Hnet1, Hresp. simpl.
    by rewrite Hnum. }
  assert (Hin : Some q ∈ sessionMarked (client w1)).
  { rewrite Hw1. simpl. unfold Scanner.set_add.
    destruct (bool_decide (Some q ∈ sessionMarked (client w))) eqn:E.
    - by apply bool_decide_eq_true in E.
    - apply elem_of_app. right. apply list_elem_of_here. }
  assert (Hc1 : pair_count (JNum q) (JStr (today e1)) (attendance w1) = 1%nat).
  { rewrite Hw1. simpl. rewrite pair_count_app, pair_count_absent by done.
    unfold pair_count. simpl. by rewrite bool_decide_eq_true_2. }
  split; [exact Hin|]. split; [exact Hc1|].
  subst w2. unfold ManualSession.submitBtn_click.
  destruct (sessionMarked (client w1)) as [|x s] eqn:Hs;
    [by apply elem_of_nil in Hin|].
  cbn [length Nat.eqb]. unfold Scanner.fetch_sync. rewrite Hnet2.
  rewrite (either_sync_inserts_all sync senv2
             (map (ManualSession.submit_record e2) (x :: s)) (attendance w1)
             Hsync) by done.
  simpl. rewrite pair_count_app. fold (pair_count (JNum q) (JStr (today e1)) (attendance w1)).
  rewrite Hc1.
  enough (1 <= pair_count (JNum q) (JStr (today e1))
                 (map (Backend.sync_row senv2)
                    (map (ManualSession.submit_record e2) (x :: s))))%nat
    by (simpl in *; lia).
  assert (Hday2 : today e2 <> EmptyString) by (by rewrite Hsame).
  rewrite <- Hsame. clear -Hin Hday2.
  induction (x :: s) as [|y l IH]; [by apply elem_of_nil in Hin|].
  change (y :: l) with ([y] ++ l). rewrite !map_app, pair_count_app.
  apply elem_of_cons in Hin as [<- | Hin].
  - unfold pair_count at 1. simpl.
    rewrite (submitted_pair senv2 e2 q Hday2).
    rewrite bool_decide_eq_true_2 by done. simpl. lia.
  - specialize (IH Hin). lia.
Qed.

End ScannerAndServer.

(** The first detection of R-001 on the sample page. *)
Lemma first_detection_is_stored_witness :
  let e := Sample.at_ms Sample.t0 Sample.online in
  let w' := Sample.scan e "R-001" (9 # 100) Sample.world0 in
  attendance w'
  = [] ++ [mkRow (Sample.num 42) (JStr "2024-03-01") (JStr "present")
             (JStr "face") (JNum (Q2Qc (Confidence.label_confidence (9 # 100))))
             req_user_id]
  /\ offline_attendance (client w') = []
  /\ sent w' = [] ++ [PostMark (Scanner.mark_payload e (Sample.num 42) (9 # 100))].
Proof.
  apply (first_detection_is_stored Sample.StringToNumber Sample.NumberToString
           Sample.scan (Sample.at_ms Sample.t0 Sample.online) "R-001"
           (9 # 100) Sample.world0 (Q2Qc (inject_Z 42)) Sample.day1);
    try reflexivity; try (by left); try discriminate.
  apply not_elem_of_nil.
Defined.

(** R-001 is detected and stored, then the submit button is pressed. *)
Lemma face_mark_then_submit_duplicates_witness :
  let e1 := Sample.at_ms Sample.t0 Sample.online in
  let e2 := Sample.at_ms (Sample.t0 + 5000) Sample.online in
  let w1 := Sample.scan e1 "R-001" (9 # 100) Sample.world0 in
  let w2 := ManualSession.submitBtn_click Backend.attendance_sync e2 w1 in
  Some (Q2Qc (inject_Z 42)) ∈ sessionMarked (client w1)
  /\ pair_count (Sample.num 42) (JStr "2024-03-01") (attendance w1) = 1%nat
  /\ (2 <= pair_count (Sample.num 42) (JStr "2024-03-01") (attendance w2))%nat.
Proof.
  apply (face_mark_then_submit_duplicates Sample.StringToNumber
           Sample.NumberToString Backend.attendance_sync
           (Sample.at_ms Sample.t0 Sample.online)
           (Sample.at_ms (Sample.t0 + 5000) Sample.online) "R-001" (9 # 100)
           Sample.world0 (Q2Qc (inject_Z 42)) Sample.day1 Sample.day1);
    try reflexivity; try (by left); try discriminate.
  apply not_elem_of_nil.
Defined.

(** * The flushes lose nothing *)

Lemma either_sync_refuses
  (sync : ServerEnv -> Backend.SyncBody -> Table -> Response * Table)
  (senv : ServerEnv) (l : list AttRecord) (t : Table) :
  sync = Backend.attendance_sync \/ sync = MinimalBackend.attendance_sync ->
  l <> [] -> insert_throws senv = true ->
  exists r, sync senv (Backend.BodyObject (Backend.IsArray l)) t = (r, t)
            /\ ok r = false.
Proof.
  intros [-> | ->] Hl Hins; destruct l as [|x l]; try done;
    unfold Backend.attendance_sync, MinimalBackend.attendance_sync;
    simpl; rewrite Hins; by eexists.
Qed.

(** What a sync request carrying a non-empty list does, as the page sees
    it. *)
Lemma fetch_sync_outcome
  (sync : ServerEnv -> Backend.SyncBody -> Table -> Response * Table)
  (n : Net) (l : list AttRecord) (t : Table) :
  sync = Backend.attendance_sync \/ sync = MinimalBackend.attendance_sync ->
  l <> [] ->
  (exists senv r, n = Reachable senv /\ ok r = true
     /\ Scanner.fetch_sync sync n l t
        = (Responded r, t ++ map (Backend.sync_row senv) l))
  \/ Scanner.fetch_sync sync n l t = (NetworkError, t)
  \/ (exists r, ok r = false
        /\ Scanner.fetch_sync sync n l t = (Responded r, t))
  \/ (exists senv, n = ResponseLost senv
        /\ Scanner.fetch_sync sync n l t
           = (NetworkError, t ++ map (Backend.sync_row senv) l)).
Proof.
  intros Hsync Hl. unfold Scanner.fetch_sync.
  destruct n as [|senv|senv]; [by right; left| |].
  - destruct (insert_throws senv) eqn:Hins.
    + destruct (either_sync_refuses sync senv l t Hsync Hl Hins)
        as (r & -> & Hr).
      right. right. left. by exists r.
    + rewrite (either_sync_inserts_all sync senv l t Hsync Hl Hins).
      left. exists senv. eexists. split; [done|]. split; [|reflexivity]. done.
  - destruct (insert_throws senv) eqn:Hins.
    + destruct (either_sync_refuses sync senv l t Hsync Hl Hins)
        as (r & -> & Hr).
      right. by left.
    + rewrite (either_sync_inserts_all sync senv l t Hsync Hl Hins).
      right. right. right. by exists senv.
Qed.





(** * The debounce is per label *)

Section PerLabel.

Variable StringToNumber : string -> option Qc.
Variable mark_endpoint : ServerEnv -> AttRecord -> Table -> Response * Table.

(** X13. The debounce is per label: a call of [markAttendanceForLabel]
    for one label (either revision, any outcome) leaves the stored
    timestamp of every other label as it was, so it never delays nor
    releases the detection of another student. *)
Theorem debounce_is_per_label
  (f : CallEnv -> string -> Q -> World -> World) (e : CallEnv)
  (label other : string) (dist : Q) (w : World) :
  is_mark_label StringToNumber mark_endpoint f ->
  label <> other ->
  recentMarks (client (f e label dist w)) !! other
  = recentMarks (client w) !! other
  /\ forall t, Scanner.debounced (recentMarks (client (f e label dist w)))
                 other t
               = Scanner.debounced (recentMarks (client w)) other t.
Proof.
  intros Hf Hne.
  assert (H : recentMarks (client (f e label dist w)) !! other
              = recentMarks (client w) !! other).
  { destruct (Scanner.debounced (recentMarks (client w)) label (now e)) eqn:E.
    - by rewrite (mark_label_suppressed StringToNumber mark_endpoint f e label
                    dist w Hf E).
    - rewrite (mark_label_recent StringToNumber mark_endpoint f e label dist w
                 Hf E).
      unfold Scanner.set_recentMark. case_bool_decide; [done|].
      by apply lookup_insert_ne. }
  split; [exact H|]. intros t. unfold Scanner.debounced. by rewrite H.
Qed.

End PerLabel.

(** R-001 is detected, R-002 one second later: R-002 is not held back. *)
Lemma debounce_is_per_label_witness :
  let w1 := Sample.scan (Sample.at_ms Sample.t0 Sample.online) "R-001"
              (9 # 100) Sample.world0 in
  recentMarks (client w1) !! "R-002" = recentMarks (client Sample.world0) !! "R-002"
  /\ forall t, Scanner.debounced (recentMarks (client w1)) "R-002" t
               = Scanner.debounced (recentMarks (client Sample.world0)) "R-002" t.
Proof.
  apply (debounce_is_per_label Sample.StringToNumber Sample.mark Sample.scan
           (Sample.at_ms Sample.t0 Sample.online) "R-001" "R-002" (9 # 100)
           Sample.world0); [by left | discriminate].
Defined.

(** * The marked set of the manual session *)

Section SessionFacts.

Import Session.

Variable StringToNumber : string -> option Qc.

Lemma elem_of_set_delete (x y : option Qc) (s : list (option Qc)) :
  y ∈ set_delete x s <-> y ∈ s /\ y <> x.
Proof.
  unfold set_delete. rewrite !list_elem_of_In, List.filter_In.
  rewrite negb_true_iff, bool_decide_eq_false. done.
Qed.

Lemma elem_of_set_add (x y : option Qc) (s : list (option Qc)) :
  y ∈ Scanner.set_add x s <-> y ∈ s \/ y = x.
Proof.
  unfold Scanner.set_add. destruct (bool_decide (x ∈ s)) eqn:E.
  - apply bool_decide_eq_true in E. split; [by left|].
    intros [H | ->]; done.
  - rewrite elem_of_app, list_elem_of_singleton. done.
Qed.

(** X14. The mark button toggles one student: a click on the button of a
    student whose [data-id] is a non-zero number flips the membership of
    that id in the session's marked set and of no other id, so a second
    click restores the set; a click on a button whose [data-id] is missing,
    zero or not a number changes nothing. *)
Theorem mark_btn_click_toggles (data_id : jsval) (s : list (option Qc)) :
  let s' := mark_btn_click StringToNumber data_id s in
  match js_Number StringToNumber data_id with
  | Some q =>
      if bool_decide (q = 0%Qc) then s' = s
      else (Some q ∈ s' <-> Some q ∉ s)
           /\ (forall x, x <> Some q -> (x ∈ s' <-> x ∈ s))
           /\ (forall x, x ∈ mark_btn_click StringToNumber data_id s'
                         <-> x ∈ s)
  | None => s' = s
  end.
Proof.
  cbv zeta.
  assert (Hone : forall q t, q <> 0%Qc ->
            js_Number StringToNumber data_id = Some q ->
            (Some q ∈ mark_btn_click StringToNumber data_id t <-> Some q ∉ t)
            /\ (forall x, x <> Some q ->
                  (x ∈ mark_btn_click StringToNumber data_id t <-> x ∈ t))).
  { intros q t Hq Hn. unfold mark_btn_click. rewrite Hn.
    rewrite bool_decide_eq_false_2 by done.
    destruct (bool_decide (Some q ∈ t)) eqn:E.
    - apply bool_decide_eq_true in E. split.
      + rewrite elem_of_set_delete. split; [intros [_ H]; done | done].
      + intros x Hx. rewrite elem_of_set_delete. split; [by intros [? _] | done].
    - apply bool_decide_eq_false in E. split.
      + rewrite elem_of_set_add. split; [done | by right].
      + intros x Hx. rewrite elem_of_set_add.
        split; [by intros [? | ?] | by left]. }
  destruct (js_Number StringToNumber data_id) as [q|] eqn:Hn.
  - destruct (bool_decide (q = 0%Qc)) eqn:Hz.
    + unfold mark_btn_click. by rewrite Hn, Hz.
    + apply bool_decide_eq_false in Hz.
      destruct (Hone q s Hz eq_refl) as [H1 H2].
      split; [exact H1|]. split; [exact H2|].
      intros x.
      destruct (Hone q (mark_btn_click StringToNumber data_id s) Hz eq_refl)
        as [H3 H4].
      destruct (decide (x = Some q)) as [-> | Hx].
      * rewrite H3, H1. split; [apply dec_stable | tauto].
      * by rewrite H4, H2.
  - unfold mark_btn_click. by rewrite Hn.
Qed.

End SessionFacts.

(** * Escaping for HTML *)

Section HtmlFacts.

Import Html.

Lemma chars_append (a b : string) :
  String.list_ascii_of_string (a +:+ b)
  = String.list_ascii_of_string a ++ String.list_ascii_of_string b.
Proof. induction a as [|c a IH]; simpl; [done|]. by rewrite IH. Qed.

Lemma escape_char_inert (c : ascii) :
  Forall (fun x => markup_char x = false) (String.list_ascii_of_string (escape_char c)).
Proof.
  unfold escape_char.
  destruct (Ascii.eqb c "&"); [by repeat constructor|].
  destruct (Ascii.eqb c "<") eqn:E1; [by repeat constructor|].
  destruct (Ascii.eqb c ">") eqn:E2; [by repeat constructor|].
  destruct (Ascii.eqb c quot) eqn:E3; [by repeat constructor|].
  destruct (Ascii.eqb c "'") eqn:E4; [by repeat constructor|].
  simpl. constructor; [|constructor].
  unfold markup_char. by rewrite E1, E2, E3, E4.
Qed.

(** X15. [escapeHTML] neutralises markup: whatever value it is given, no
    character of its result is an angle bracket, a quotation mark or an
    apostrophe; and a text that holds none of the five special characters
    comes back unchanged. *)
Theorem escapeHTML_is_inert (NumberToString : Qc -> string) (v : jsval) :
  Forall (fun c => markup_char c = false)
         (String.list_ascii_of_string (escapeHTML NumberToString v))
  /\ forall s : string,
       Forall (fun c => special_char c = false) (String.list_ascii_of_string s) ->
       escapeHTML NumberToString (JStr s) = s.
Proof.
  split.
  - unfold escapeHTML.
    induction (js_String NumberToString (js_or v (JStr EmptyString)))
      as [|c s IH]; simpl; [constructor|].
    rewrite chars_append. apply Forall_app. split; [|exact IH].
    apply escape_char_inert.
  - intros s Hs. unfold escapeHTML.
    assert (Hplain : escape s = s).
    { induction s as [|c s IH]; simpl; [done|].
      simpl in Hs. apply Forall_cons in Hs as [Hc Hs].
      rewrite (IH Hs). unfold special_char, markup_char in Hc.
      apply orb_false_iff in Hc as [H0 Hc].
      apply orb_false_iff in Hc as [Hc H4].
      apply orb_false_iff in Hc as [Hc H3].
      apply orb_false_iff in Hc as [H1 H2].
      unfold escape_char. by rewrite H0, H1, H2, H3, H4. }
    destruct s as [|c s]; [reflexivity|].
    unfold js_or. simpl. exact Hplain.
Qed.

End HtmlFacts.

Example escapeHTML_run :
  Html.escapeHTML Sample.NumberToString (JStr "<b onclick='x'>A&B</b>")
  = "&lt;b onclick=&#39;x&#39;&gt;A&amp;B&lt;/b&gt;".
Proof. vm_compute. reflexivity. Qed.

(** * The batching scanner and its queues *)

Section BatchFacts.

Import BatchScanner.

Variable StringToNumber : string -> option Qc.

Lemma add_each_fakeDB (clock : string) (recs q : list AttRecord) :
  add_each (DB := fakeDB) clock recs q = q ++ recs.
Proof.
  revert q. induction recs as [|r recs IH]; intros q; simpl.
  - by rewrite app_nil_r.
  - rewrite IH. by rewrite <- app_assoc.
Qed.

(** X16. A scan step of the batching scanner never drops a match: with
    the in-memory queue and either revision of the sync handler, after the
    step the table gained one row per matched face, or every matched record
    was appended to the queue.  When the response was delivered exactly one
    of the two happened (the rows with the queue as before, or the records
    queued with the table as before); both happen only when the rows were
    inserted and the response was lost.  Faces matched to no student
    ([unknown]) produce no record, and a frame with only such faces sends
    nothing. *)
Theorem scan_step_stores_or_queues
  (sync : ServerEnv -> Backend.SyncBody -> Table -> Response * Table)
  (e : CallEnv) (results : list Match) (w : BatchWorld (list AttRecord)) :
  sync = Backend.attendance_sync \/ sync = MinimalBackend.attendance_sync ->
  let records := loop_records StringToNumber e results in
  let w' := scan_submit StringToNumber sync (DB := fakeDB) e results w in
  (Forall (fun m => label m = "unknown" \/ label m = EmptyString) results ->
   w' = w)
  /\ ((exists senv, net e = Reachable senv
         /\ b_attendance w'
            = b_attendance w ++ map (Backend.sync_row senv) records
         /\ queue w' = queue w)
      \/ (b_attendance w' = b_attendance w /\ queue w' = queue w ++ records)
      \/ (exists senv, net e = ResponseLost senv
            /\ b_attendance w'
               = b_attendance w ++ map (Backend.sync_row senv) records
            /\ queue w' = queue w ++ records)).
Proof.
  intros Hsync records w'. split.
  - intros Hall. subst w'. unfold scan_submit.
    assert (Hnone : loop_records StringToNumber e results = []).
    { unfold loop_records. clear -Hall.
      induction results as [|m l IH]; [done|].
      apply Forall_cons in Hall as [Hm Hl]. simpl.
      destruct Hm as [-> | ->]; simpl; by apply IH. }
    by rewrite Hnone.
  - subst w' records. unfold scan_submit.
    destruct (loop_records StringToNumber e results) as [|r l] eqn:Hr;
      cbn [length Nat.eqb].
    + right. left. by rewrite app_nil_r.
    + destruct (fetch_sync_outcome sync (net e) (r :: l) (b_attendance w)
                  Hsync)
        as [(senv & resp & Hnet & Hok & ->)
           | [-> | [(resp & Hok & ->) | (senv & Hnet & ->)]]];
        [done | | | |].
      * rewrite Hok. simpl. left. by exists senv.
      * rewrite add_each_fakeDB. right. left. done.
      * rewrite Hok, add_each_fakeDB. right. left. done.
      * rewrite add_each_fakeDB. right. right. by exists senv.
Qed.

End BatchFacts.

(** A frame with student 42 and an unknown face, the server unreachable:
    one record is queued. *)
Lemma scan_step_stores_or_queues_witness :
  let e := Sample.at_ms Sample.t0 Unreachable in
  let results := [mkMatch "42" (9 # 100); mkMatch "unknown" (7 # 10)] in
  let w := BatchScanner.mkBatchWorld (S := list AttRecord) [] [] [] in
  let w' := BatchScanner.scan_submit Sample.StringToNumber
              Backend.attendance_sync (DB := fakeDB) e results w in
  BatchScanner.b_attendance w' = []
  /\ BatchScanner.queue w'
     = [] ++ BatchScanner.loop_records Sample.StringToNumber e results
  /\ length (BatchScanner.queue w') = 1%nat.
Proof.
  intros e results w w'.
  destruct (scan_step_stores_or_queues Sample.StringToNumber
              Backend.attendance_sync e results w (or_introl eq_refl))
    as [_ [(senv & Hn & _) | [[Ht Hq] | (senv & Hn & _)]]];
    [discriminate Hn | | discriminate Hn].
  split; [exact Ht|]. split; [exact Hq|].
  exact (eq_trans (f_equal length Hq) eq_refl).
Defined.

Section IndexedDBFacts.

Import IndexedDB.

Lemma insert_sorted_perm (r : AttRecord) (s : Store) :
  insert_sorted r s ≡ₚ r :: s.
Proof.
  induction s as [|x s IH]; simpl; [done|].
  destruct (key_ltb (timestamp r) (timestamp x)); [done|].
  rewrite IH. apply Permutation_swap.
Qed.

Lemma dbAdd_accepted (clock : string) (r : AttRecord) (s s' : Store) :
  dbAdd clock r s = Some s' ->
  s' = insert_sorted (stamp clock r) s
  /\ valid_key (timestamp (stamp clock r)) = true
  /\ timestamp (stamp clock r) ∉ map timestamp s.
Proof.
  unfold dbAdd. intros H.
  destruct (valid_key (timestamp (stamp clock r))) eqn:Hv;
    cbn [negb] in H; [|discriminate H].
  destruct (bool_decide (timestamp (stamp clock r) ∈ map timestamp s))
    eqn:Hin; [discriminate H|].
  apply bool_decide_eq_false in Hin. inversion H; subst. done.
Qed.

(** The invariant of the store: valid, pairwise distinct keys. *)
Lemma srm_enqueue_indexedDB (adds : list (string * AttRecord)) :
  forall s0 s : Store,
    NoDup (map timestamp s0) ->
    Forall (fun r => valid_key (timestamp r) = true) s0 ->
    @srm_enqueue Store indexedDB adds s0 = Some s ->
    s ≡ₚ s0 ++ map (fun a => stamp (fst a) (snd a)) adds
    /\ NoDup (map timestamp s)
    /\ Forall (fun r => valid_key (timestamp r) = true) s.
Proof.
  induction adds as [|[clock r] adds IH]; intros s0 s Hnd Hall H; simpl in H.
  - inversion H; subst. by rewrite app_nil_r.
  - change (db_add clock r s0) with (dbAdd clock r s0) in H.
    destruct (dbAdd clock r s0) as [s1|] eqn:E; [|discriminate].
    apply dbAdd_accepted in E as (-> & Hv & Hfresh).
    pose proof (insert_sorted_perm (stamp clock r) s0) as Hp.
    destruct (IH (insert_sorted (stamp clock r) s0) s) as (Hs & Hnd' & Hall').
    + rewrite Hp. simpl. by apply NoDup_cons.
    + rewrite Hp. by apply Forall_cons.
    + exact H.
    + split; [|done]. rewrite Hs, Hp. simpl.
      by rewrite Permutation_middle.
Qed.

(** X17. The IndexedDB queue returns what it accepted, once each: when a
    series of [add] calls on the empty store is accepted, [getAll] returns
    exactly the added records (each stamped with the clock if it had no
    timestamp), in some order; every stored record has a timestamp that is
    a valid key, and no two stored records share a timestamp. *)
Theorem indexedDB_returns_what_it_accepted
  (adds : list (string * AttRecord)) (s : Store) :
  @srm_enqueue Store indexedDB adds [] = Some s ->
  dbGetAll s ≡ₚ map (fun a => stamp (fst a) (snd a)) adds
  /\ NoDup (map timestamp (dbGetAll s))
  /\ Forall (fun r => valid_key (timestamp r) = true) (dbGetAll s).
Proof.
  intros H. unfold dbGetAll.
  apply (srm_enqueue_indexedDB adds [] s); [constructor | constructor | exact H].
Qed.

(** X18. The IndexedDB queue keeps one record per timestamp and a
    rejected [add] ends the queueing loop: when the records of a batch that
    could not be sent all carry the same timestamp (they are built in the
    same millisecond), a valid key not yet in the store, only the first of
    them is queued; the others are dropped. *)
Theorem indexedDB_queues_first_of_same_instant
  (clock : string) (r : AttRecord) (rest : list AttRecord) (s : Store) :
  let k := timestamp (stamp clock r) in
  valid_key k = true ->
  k ∉ map timestamp s ->
  Forall (fun r' => timestamp (stamp clock r') = k) rest ->
  BatchScanner.add_each (DB := indexedDB) clock (r :: rest) s
  = insert_sorted (stamp clock r) s
  /\ length (BatchScanner.add_each (DB := indexedDB) clock (r :: rest) s)
     = Datatypes.S (length s).
Proof.
  intros k Hv Hfresh Hsame.
  assert (Hadd : dbAdd clock r s = Some (insert_sorted (stamp clock r) s)).
  { unfold dbAdd. fold k. rewrite Hv. simpl.
    by rewrite bool_decide_eq_false_2. }
  assert (Hrun : BatchScanner.add_each (DB := indexedDB) clock (r :: rest) s
                 = insert_sorted (stamp clock r) s).
  { cbn [BatchScanner.add_each].
    change (db_add clock r s) with (dbAdd clock r s). rewrite Hadd.
    destruct rest as [|r' rest']; [done|].
    apply Forall_cons in Hsame as [Hk _]. cbn [BatchScanner.add_each].
    change (db_add clock r' (insert_sorted (stamp clock r) s))
      with (dbAdd clock r' (insert_sorted (stamp clock r) s)).
    unfold dbAdd. rewrite Hk. rewrite Hv. simpl.
    rewrite bool_decide_eq_true_2; [done|].
    rewrite (insert_sorted_perm (stamp clock r) s). simpl.
    apply list_elem_of_here. }
  split; [exact Hrun|]. rewrite Hrun. apply insert_sorted_length.
Qed.

End IndexedDBFacts.

(** Two queued records with their own timestamps are both returned. *)
Lemma indexedDB_returns_what_it_accepted_witness :
  IndexedDB.dbGetAll [Sample.queued_42; Sample.queued_43]
  ≡ₚ [Sample.queued_43; Sample.queued_42]
  /\ NoDup (map timestamp (IndexedDB.dbGetAll [Sample.queued_42; Sample.queued_43])).
Proof.
  destruct (indexedDB_returns_what_it_accepted
              [("2024-03-01T09:00:01.000Z", Sample.queued_43);
               ("2024-03-01T09:00:00.000Z", Sample.queued_42)]
              [Sample.queued_42; Sample.queued_43] eq_refl) as (H1 & H2 & _).
  split; [exact H1 | exact H2].
Defined.

(** A failed frame with students 42 and 43, both records stamped with the
    same instant: the IndexedDB queue keeps the record of 42 only. *)
Lemma indexedDB_queues_first_of_same_instant_witness :
  let e := Sample.at_ms Sample.t0 Unreachable in
  let recs := BatchScanner.loop_records Sample.StringToNumber e
                [mkMatch "42" (9 # 100); mkMatch "43" (12 # 100)] in
  length recs = 2%nat
  /\ length (BatchScanner.add_each (DB := indexedDB) (iso e) recs []) = 1%nat.
Proof.
  intros e recs. split; [reflexivity|].
  apply (indexedDB_queues_first_of_same_instant (iso e)
           (BatchScanner.loop_record Sample.StringToNumber e
              (mkMatch "42" (9 # 100)))
           [BatchScanner.loop_record Sample.StringToNumber e
              (mkMatch "43" (12 # 100))] []).
  - reflexivity.
  - apply not_elem_of_nil.
  - repeat constructor.
Defined.

(** * [recordAttendance] against the robust back end *)

Section LocalDbFacts.

Import LocalDb.

Variable StringToNumber : string -> option Qc.
Variable NumberToString : Qc -> string.

Abbreviation the_mark :=
  (Backend.attendance_mark StringToNumber NumberToString).

(** The robust mark handler answers ok only when it inserted the row of the
    normalised pair. *)
Lemma mark_ok_inserted (env : ServerEnv) (p : AttRecord) (t : Table) :
  ok (fst (the_mark env p t)) = true ->
  exists r,
    snd (the_mark env p t) = t ++ [r]
    /\ pair_of r = (Backend.normalize_student_id StringToNumber (student_id p),
                    js_or (date p) (JStr (srv_today env)))
    /\ col_status r = Backend.normalize_status NumberToString (status p)
    /\ truthy (Backend.normalize_student_id StringToNumber (student_id p))
       = true.
Proof.
  unfold Backend.attendance_mark.
  destruct (truthy (Backend.normalize_student_id StringToNumber
                      (student_id p))) eqn:Hsid; simpl; [|discriminate].
  destruct (select_throws env); simpl; [discriminate|].
  destruct (length (Backend.select_existing _ _ t)); simpl; [|discriminate].
  destruct (insert_throws env); simpl; [discriminate|].
  intros _. eexists. split; [reflexivity|]. done.
Qed.

(** The robust mark handler never inserts a pair the table carries, and
    then never answers ok. *)
Lemma mark_present_pair_refused (env : ServerEnv) (p : AttRecord) (t : Table) :
  truthy (Backend.normalize_student_id StringToNumber (student_id p)) = true ->
  (Backend.normalize_student_id StringToNumber (student_id p),
   js_or (date p) (JStr (srv_today env))) ∈ map pair_of t ->
  snd (the_mark env p t) = t
  /\ ok (fst (the_mark env p t)) = false
  /\ (select_throws env = false -> res_status (fst (the_mark env p t)) = 409).
Proof.
  intros Hsid Hin. unfold Backend.attendance_mark. rewrite Hsid. simpl.
  destruct (select_throws env); simpl; [done|].
  apply truthy_not_null in Hsid as [? ?].
  destruct (js_or_not_null (date p) (srv_today env)) as [? ?].
  by rewrite select_existing_some.
Qed.

(** X19. [recordAttendance] writes once: after a call for a student and a
    (non-empty) day returned, the table holds one more row, with the status
    of that call, and every later call for the same student and day, marked
    present or absent, on any network and database condition, throws and
    leaves the table unchanged (with status 409 when the server answers its
    lookup).  A mark cannot be corrected through this function. *)
Theorem recordAttendance_writes_once (n1 n2 : Net) (studentId : jsval)
  (day : string) (present1 present2 : bool) (t t1 : Table) :
  day <> EmptyString ->
  recordAttendance StringToNumber the_mark n1 studentId day present1 t
  = (Returned, t1) ->
  (exists r, t1 = t ++ [r]
             /\ col_status r = JStr (if present1 then "present" else "absent"))
  /\ exists status,
       recordAttendance StringToNumber the_mark n2 studentId day present2 t1
       = (Threw status, t1)
       /\ (forall env, n2 = Reachable env -> select_throws env = false ->
             status = Some 409).
Proof.
  intros Hday H1. unfold recordAttendance, Scanner.fetch_mark in H1.
  destruct n1 as [|env1|env1]; [discriminate| |discriminate].
  destruct (the_mark env1 (record_payload StringToNumber studentId day present1) t)
    as [resp1 t1'] eqn:E1.
  destruct (ok resp1) eqn:Hok1; [|discriminate]. inversion H1; subst t1'.
  pose proof (mark_ok_inserted env1
                (record_payload StringToNumber studentId day present1) t) as Hins.
  rewrite E1 in Hins. simpl in Hins.
  destruct (Hins Hok1) as (r & -> & Hpair & Hst & Hsid).
  assert (Hd : forall env, js_or (JStr day) (JStr (srv_today env)) = JStr day).
  { intros env. unfold js_or. simpl. by rewrite bool_decide_eq_false_2. }
  rewrite Hd in Hpair.
  split.
  - exists r. split; [done|]. rewrite Hst.
    unfold Backend.normalize_status. by destruct present1.
  - assert (Hin : forall env,
              (Backend.normalize_student_id StringToNumber
                 (student_id (record_payload StringToNumber studentId day present2)),
               js_or (date (record_payload StringToNumber studentId day present2))
                     (JStr (srv_today env))) ∈ map pair_of (t ++ [r])).
    { intros env. simpl. rewrite Hd, map_app. apply elem_of_app. right.
      simpl. rewrite Hpair. apply list_elem_of_here. }
    unfold recordAttendance, Scanner.fetch_mark.
    destruct n2 as [|env2|env2].
    + exists None. split; [done|]. intros env H. discriminate H.
    + destruct (mark_present_pair_refused env2
                  (record_payload StringToNumber studentId day present2)
                  (t ++ [r]) Hsid (Hin env2)) as (Ht & Hok & Hst2).
      destruct (the_mark env2
                  (record_payload StringToNumber studentId day present2)
                  (t ++ [r])) as [resp2 t2] eqn:E2.
      simpl in Ht, Hok, Hst2. subst t2. rewrite Hok.
      eexists. split; [reflexivity|].
      intros env H Hsel. inversion H; subst env. by rewrite Hst2.
    + destruct (mark_present_pair_refused env2
                  (record_payload StringToNumber studentId day present2)
                  (t ++ [r]) Hsid (Hin env2)) as (Ht & _ & _).
      rewrite Ht. exists None. split; [done|]. intros env H. discriminate H.
Qed.

End LocalDbFacts.

(** Student 42 is recorded present, then recorded absent for the same day:
    the second call throws with 409 and the row stays [present]. *)
Lemma recordAttendance_writes_once_witness :
  let t1 := snd (LocalDb.recordAttendance Sample.StringToNumber Sample.mark
                   Sample.online (JStr "42") "2024-03-01" true []) in
  (exists r, t1 = [] ++ [r] /\ col_status r = JStr "present")
  /\ exists status,
       LocalDb.recordAttendance Sample.StringToNumber Sample.mark
         Sample.online (JStr "42") "2024-03-01" false t1
       = (LocalDb.Threw status, t1)
       /\ (forall env, Sample.online = Reachable env ->
             select_throws env = false -> status = Some 409).
Proof.
  apply (recordAttendance_writes_once Sample.StringToNumber
           Sample.NumberToString Sample.online Sample.online (JStr "42")
           "2024-03-01" true false []); [discriminate | reflexivity].
Defined.
